(** * ETSY tools: banner collage maker and art mockup generator

    A shallow embedding of [BannerCollageMaker.py] and [MockupGenerator.py].

    - Python [int] is [Z]; Python [float] is an IEEE-754 binary64 value,
      taken from the Standard Library's executable specification
      [SpecFloat] at precision 53 and maximal exponent 1024.
    - Exceptions are values of [exn]; code that can raise returns a
      [result].
    - PIL images are kept symbolically: how the image was produced, from
      which its size is computed the way PIL computes it. Whether
      [Image.resize] gets the memory for a target is left to the machine,
      a parameter of the code that resizes.
    - The file system, the HTTP endpoint and the clock of the mockup
      generator are an explicit [World] threaded through the code, with a
      trace of what the script did to them; the random number generator of
      the banner maker is a state passed to [random.shuffle]. *)

From Stdlib Require Import ZArith Lia Bool List Ascii String.
From Stdlib Require Import Floats.SpecFloat.
From stdpp Require Import gmap strings list.

Set Warnings "-register-all".

Local Open Scope Z_scope.

(** ** Exceptions and results *)

Inductive exn : Type :=
| ZeroDivisionError
| OverflowError
| ValueError
| TypeError
| AttributeError
| IndexError
| KeyError
| FileNotFoundError
| FileExistsError
| NotADirectoryError
| UnidentifiedImageError
| DecompressionBombError
| OSError
| MemoryError
| Base64Error.

Inductive result (A : Type) : Type :=
| Ok (a : A)
| Raise (e : exn).
Arguments Ok {A} a.
Arguments Raise {A} e.

Definition rbind {A B : Type} (r : result A) (k : A -> result B) : result B :=
  match r with
  | Ok a => k a
  | Raise e => Raise e
  end.

Declare Scope result_scope.
Delimit Scope result_scope with result.
Notation "x <- r ;; k" := (rbind r (fun x => k))
  (at level 100, r at next level, right associativity) : result_scope.
Local Open Scope result_scope.

(** ** Python floats *)

Module PyFloat.

Definition prec : Z := 53.
Definition emax : Z := 1024.

Definition float : Type := spec_float.

(** [int / int] without its exceptions: the quotient of the two integers,
    rounded once to the nearest float, ties to even. *)
Definition div_round (a b : Z) : float :=
  let '(q, e, l) := SFdiv_core_binary prec emax (Z.abs a) 0 (Z.abs b) 0 in
  binary_round_aux prec emax (xorb (a <? 0) (b <? 0)) q e l.

Definition is_zero (x : float) : bool :=
  match x with S754_zero _ => true | _ => false end.

Definition is_infinity (x : float) : bool :=
  match x with S754_infinity _ => true | _ => false end.

Definition truediv (a b : Z) : result float :=
  if b =? 0 then Raise ZeroDivisionError
  else
    let q := div_round a b in
    if is_infinity q then Raise OverflowError else Ok q.

(** [float(n)], the conversion applied to an [int] operand of a mixed
    operation. *)
Definition of_int (n : Z) : result float :=
  let x := binary_normalize prec emax n 0 false in
  if is_infinity x then Raise OverflowError else Ok x.

(** [x * n] for a float [x] and an int [n]. *)
Definition mul_int (x : float) (n : Z) : result float :=
  y <- of_int n ;; Ok (SFmul prec emax x y).

(** [n / x] for an int [n] and a float [x]. *)
Definition int_div (n : Z) (x : float) : result float :=
  y <- of_int n ;;
  if is_zero x then Raise ZeroDivisionError else Ok (SFdiv prec emax y x).

Definition sub (x y : float) : float := SFsub prec emax x y.
Definition abs (x : float) : float := SFabs x.

(** [x > y]; false as soon as one side is a NaN. *)
Definition gt (x y : float) : bool := SFltb y x.

(** [int(x)]: truncation towards zero. *)
Definition to_int (x : float) : result Z :=
  match x with
  | S754_zero _ => Ok 0
  | S754_infinity _ => Raise OverflowError
  | S754_nan => Raise ValueError
  | S754_finite s m e =>
      let a := if 0 <=? e then Z.pos m * 2 ^ e else Z.pos m / 2 ^ (- e) in
      Ok (if s then - a else a)
  end.

(** The literal [0.01]. *)
Definition lit_0_01 : float := div_round 1 100.

(** A positive finite float whose mantissa [m] fits the precision and
    whose exponent [e] lies in a window: the value is [m * 2 ^ e]. *)
Definition pos_finite (lo hi : Z) (x : float) : Prop :=
  exists m e, x = S754_finite false m e /\ Z.pos m < 2 ^ 53 /\ lo <= e <= hi.

End PyFloat.

(** ** PIL images *)

Module PIL.

Definition box : Type := Z * Z * Z * Z.

(** An image is the pixels decoded from a byte string of some size, or the
    result of one of the operations the scripts apply. *)
Inductive Image : Type :=
| Decoded (data : string) (w h : Z)
| Converted (mode : string) (im : Image)
| Cropped (im : Image) (b : box)
| Resized (im : Image) (w h : Z)
| Expanded (im : Image) (border : Z) (fill : string).

Fixpoint size (im : Image) : Z * Z :=
  match im with
  | Decoded _ w h => (w, h)
  | Converted _ im' => size im'
  | Cropped _ (l, t, r, b) => (r - l, b - t)
  | Resized _ w h => (w, h)
  | Expanded im' border _ =>
      let '(w, h) := size im' in (border + w + border, border + h + border)
  end.

Definition width (im : Image) : Z := fst (size im).
Definition height (im : Image) : Z := snd (size im).

(** A positive dimension that fits the C [int] in which PIL keeps the
    width and the height of an image. *)
Definition valid_dim (n : Z) : Prop := 0 < n < 2 ^ 31.

(** [Image.crop((left, upper, right, lower))]; the box may reach outside
    the image, but not be inverted. *)
Definition crop (im : Image) (b : box) : result Image :=
  let '(l, t, r, lo) := b in
  if r <? l then Raise ValueError
  else if lo <? t then Raise ValueError
  else Ok (Cropped im b).

(** [Image.MAX_IMAGE_PIXELS] and the test of [_decompression_bomb_check]:
    a size of more than twice as many pixels is refused. *)
Definition MAX_IMAGE_PIXELS : Z := 89478485.

Definition decompression_bomb (sz : Z * Z) : bool :=
  2 * MAX_IMAGE_PIXELS <? Z.max 1 (fst sz) * Z.max 1 (snd sz).

(** What the machine grants the library: whether [Image.resize] of an
    image to a size finds the memory it asks for. The library refuses a
    target whose rows or whose table of filter coefficients would not fit
    a C [int], and fails when the allocation does; both depend on the
    image, the target, the filter and the memory at hand. *)
Class Machine : Type := { resizes : Image -> Z -> Z -> bool }.

(** [Image.resize((w, h), resample)]; the new size must be positive, and
    the machine must grant it. *)
Definition resize {machine : Machine} (im : Image) (w h : Z) : result Image :=
  if (w <? 1) || (h <? 1) then Raise ValueError
  else if resizes im w h then Ok (Resized im w h)
  else Raise MemoryError.

(** [ImageOps.expand(image, border, fill)] *)
Definition expand (im : Image) (border : Z) (fill : string) : result Image :=
  let '(w, h) := size im in
  if (border + w + border <? 0) || (border + h + border <? 0)
  then Raise ValueError
  else Ok (Expanded im border fill).

Definition convert (mode : string) (im : Image) : Image := Converted mode im.

End PIL.

Import PIL.

(** ** Python strings, lists and the file system *)

Module Py.

Definition len {A : Type} (l : list A) : Z := Z.of_nat (length l).

(** [l * k] *)
Definition list_mul {A : Type} (l : list A) (k : Z) : list A :=
  concat (replicate (Z.to_nat k) l).

(** [l[:n]] *)
Definition slice_to {A : Type} (l : list A) (n : Z) : list A :=
  if 0 <=? n then take (Z.to_nat n) l
  else take (Z.to_nat (len l + n)) l.

(** [l[i]] *)
Definition getitem {A : Type} (l : list A) (i : Z) : result A :=
  let j := if i <? 0 then i + len l else i in
  if (j <? 0) || (len l <=? j) then Raise IndexError
  else match l !! Z.to_nat j with
       | Some x => Ok x
       | None => Raise IndexError
       end.

(** [range(n)] *)
Definition range (n : Z) : list Z := seqZ 0 n.

(** [enumerate(l)] *)
Fixpoint enumerate_from {A : Type} (i : Z) (l : list A) : list (Z * A) :=
  match l with
  | [] => []
  | x :: l' => (i, x) :: enumerate_from (i + 1) l'
  end.
Definition enumerate {A : Type} (l : list A) : list (Z * A) := enumerate_from 0 l.

(** [str.lower], on the ASCII letters. *)
Definition lower_ascii (c : ascii) : ascii :=
  let n := nat_of_ascii c in
  if ((65 <=? n) && (n <=? 90))%nat then ascii_of_nat (n + 32) else c.

Fixpoint lower (s : string) : string :=
  match s with
  | EmptyString => EmptyString
  | String c s' => String (lower_ascii c) (lower s')
  end.

(** [s.endswith(suffix)] *)
Definition endswith (s suffix : string) : bool :=
  let n := String.length s in
  let k := String.length suffix in
  if (k <=? n)%nat then String.eqb (substring (n - k) k s) suffix else false.

(** [s.startswith(p)] *)
Definition startswith (s p : string) : bool := String.prefix p s.

(** [sub in s] for two strings *)
Fixpoint contains (sub s : string) : bool :=
  String.prefix sub s ||
  match s with
  | EmptyString => false
  | String _ s' => contains sub s'
  end.

(** [os.path.splitext(p)[0]] for a name without directory separator:
    the extension starts at the last dot, unless only dots come before
    it. *)
Fixpoint last_dot (s : string) : option nat :=
  match s with
  | EmptyString => None
  | String c s' =>
      match last_dot s' with
      | Some i => Some (S i)
      | None => if Ascii.eqb c "."%char then Some 0%nat else None
      end
  end.

Fixpoint all_dots (s : string) : bool :=
  match s with
  | EmptyString => true
  | String c s' => Ascii.eqb c "."%char && all_dots s'
  end.

Definition splitext_root (p : string) : string :=
  match last_dot p with
  | None => p
  | Some i =>
      let root := substring 0 i p in
      if all_dots root then p else root
  end.

(** [os.path.basename(p)]: what follows the last separator. *)
Fixpoint basename (p : string) : string :=
  match p with
  | EmptyString => EmptyString
  | String c p' =>
      if contains "/" p' then basename p'
      else if Ascii.eqb c "/"%char then p' else p
  end.

(** [os.path.join(dir, name)] for a relative [name] and a directory name
    without trailing separator. *)
Definition path_join (dir name : string) : string := dir +:+ "/" +:+ name.

End Py.

Module FS.

(** An image file is one that [Image.open] identifies; its pixels load as
    [im], or, for a broken one, do not load (the data stops early or is
    corrupt, or the decoder does not get its memory) although the header
    gives the size of [im]. *)
Inductive File : Type :=
| Directory
| ImageFile (im : Image)
| BrokenImage (im : Image)
| OtherFile (bytes : string).

Definition exists_ (files : gmap string File) (path : string) : bool :=
  bool_decide (is_Some (files !! path)).

(** [Image.open(path)]; it raises on a missing path, on anything that is
    not an image, and on an image of more pixels than the library
    accepts. It reads the header only. *)
Definition image_open (files : gmap string File) (path : string) : result Image :=
  match files !! path with
  | None => Raise FileNotFoundError
  | Some (ImageFile im) | Some (BrokenImage im) =>
      if decompression_bomb (size im) then Raise DecompressionBombError
      else Ok im
  | Some _ => Raise UnidentifiedImageError
  end.

(** The [load] that the first operation on an opened image runs, here
    [convert]: it reads the pixels of the file. *)
Definition image_load (files : gmap string File) (path : string) : result unit :=
  match files !! path with
  | Some (BrokenImage _) => Raise OSError
  | _ => Ok tt
  end.

End FS.

(** ** BannerCollageMaker.py *)

Module Banner.

Definition FAVS_FOLDER : string := "Favs".
Definition W : Z := 2560.
Definition H : Z := 1440.

Definition is_image (f : string) : bool :=
  let f := Py.lower f in
  (Py.endswith f ".jpg" || Py.endswith f ".jpeg" || Py.endswith f ".png"
   || Py.endswith f ".webp")
  && negb (Py.startswith (Py.basename f) "._").

Section machine.

(** The machine the script runs on. *)
Context {machine : Machine}.

Definition fit_crop (img : Image) (tw th : Z) : result Image :=
  let '(iw, ih) := size img in
  target_aspect <- PyFloat.truediv tw th ;;
  img_aspect <- PyFloat.truediv iw ih ;;
  img' <-
    (if PyFloat.gt img_aspect target_aspect then
       x <- PyFloat.mul_int target_aspect ih ;;
       new_width <- PyFloat.to_int x ;;
       let offset := (iw - new_width) / 2 in
       crop img (offset, 0, iw - offset, ih)
     else
       x <- PyFloat.int_div iw target_aspect ;;
       new_height <- PyFloat.to_int x ;;
       let offset := (ih - new_height) / 2 in
       crop img (0, offset, iw, ih - offset)) ;;
  resize img' tw th.

(** The locals of [make_banner]. *)
Definition total_cols : Z := 15.
Definition total_rows : Z := 6.
Definition center_cols : Z := 7.
Definition center_rows : Z := 2.

Definition grid_w (style : string) : Z :=
  if String.eqb style "cinematic" then 6 else 16.
Definition tile_w (style : string) : Z :=
  (W - (total_cols + 1) * grid_w style) / total_cols.
Definition tile_h (style : string) : Z :=
  (H - (total_rows + 1) * grid_w style) / total_rows.

Definition center_slots : Z := center_cols * center_rows.
Definition outer_slots : Z := total_cols * total_rows - center_slots.

Definition start_col : Z := (total_cols - center_cols) / 2.
Definition end_col : Z := start_col + center_cols.
Definition start_row : Z := (total_rows - center_rows) / 2.
Definition end_row : Z := start_row + center_rows.

(** [(pool * (slots // len(pool) + 1))[:slots]] *)
Definition to_place (pool : list string) (slots : Z) : list string :=
  Py.slice_to (Py.list_mul pool (slots / Py.len pool + 1)) slots.

(** [start_row <= r < end_row and start_col <= c < end_col] *)
Definition in_center (r c : Z) : bool :=
  (start_row <=? r) && (r <? end_row) && (start_col <=? c) && (c <? end_col).

(** The cells in the order the two nested [for] loops visit them. *)
Definition cells : list (Z * Z) :=
  flat_map (fun r => map (fun c => (r, c)) (Py.range total_cols))
    (Py.range total_rows).

(** How many of the cells still to visit take the first branch of the
    loop body, and how many the second. *)
Definition n_center (todo : list (Z * Z)) : Z :=
  Py.len (List.filter (fun rc => in_center (fst rc) (snd rc)) todo).
Definition n_outer (todo : list (Z * Z)) : Z :=
  Py.len (List.filter (fun rc => negb (in_center (fst rc) (snd rc))) todo).

Inductive pool : Type := Favs | Others.

(** What one iteration binds to [img_path], and the branch that did it. *)
Record placement : Type :=
  { cell : Z * Z; source : pool; img_path : string }.

(** The branch of a placement fits its cell, and its path is an entry
    of the list that branch reads. *)
Definition placed_from (favs_to_place others_to_place : list string)
    (p : placement) : Prop :=
  source p = (if in_center (fst (cell p)) (snd (cell p)) then Favs else Others)
  /\ img_path p ∈ (match source p with
                   | Favs => favs_to_place
                   | Others => others_to_place
                   end).

(** The canvas [base] as the tiles pasted so far, with their offsets. *)
Definition canvas : Type := list (Z * Z * Image).

(** The [try] block of one cell; any exception leaves the cell blank. *)
Definition paste_tile (files : gmap string FS.File) (style : string)
    (r c : Z) (path : string) (base : canvas) : canvas :=
  match (im <- FS.image_open files path ;;
         _ <- FS.image_load files path ;;
         fit_crop (convert "RGB" im) (tile_w style) (tile_h style)) with
  | Ok tile =>
      let x := grid_w style + c * (tile_w style + grid_w style) in
      let y := grid_w style + r * (tile_h style + grid_w style) in
      base ++ [(x, y, tile)]
  | Raise _ => base
  end.

Fixpoint fill_grid (files : gmap string FS.File) (style : string)
    (favs_to_place others_to_place : list string)
    (todo : list (Z * Z)) (fav_idx other_idx : Z) (base : canvas)
    : result (list placement * canvas) :=
  match todo with
  | [] => Ok ([], base)
  | (r, c) :: rest =>
      step <-
        (if in_center r c then
           path <- Py.getitem favs_to_place fav_idx ;;
           Ok ({| cell := (r, c); source := Favs; img_path := path |},
               fav_idx + 1, other_idx)
         else
           path <- Py.getitem others_to_place other_idx ;;
           Ok ({| cell := (r, c); source := Others; img_path := path |},
               fav_idx, other_idx + 1)) ;;
      let '(p, fav_idx', other_idx') := step in
      let base' := paste_tile files style r c (img_path p) base in
      filled <-
        fill_grid files style favs_to_place others_to_place rest
          fav_idx' other_idx' base' ;;
      Ok (p :: fst filled, snd filled)
  end.

(** The two pools: the images of the favourites folder, and the images
    of the archive whose base name is not one of theirs. *)
Definition favs_of (names : list string) : list string :=
  List.filter is_image (map (fun f => Py.path_join FAVS_FOLDER f) names).

Definition others_of (favs all_imgs : list string) : list string :=
  let fav_names := map Py.basename favs in
  List.filter (fun p => negb (bool_decide (Py.basename p ∈ fav_names)))
    all_imgs.

Section make_banner.

(** [random.shuffle] leaves a permutation of the list, chosen by the
    state of the generator. *)
Variable rng : Type.
Variable shuffle : rng -> list string -> list string * rng.

(** [make_banner] up to the filled grid, from the listing of the
    favourites folder ([None] when it is not a directory) and the
    global [all_imgs]. The vignette, the logo and the JPEG encoding
    that follow work on pixels. *)
Definition make_banner (files : gmap string FS.File)
    (favs_listing : option (list string)) (all_imgs : list string)
    (style : string) (g : rng)
    : result (list placement * canvas * rng) :=
  match favs_listing with
  | None => Raise FileNotFoundError
  | Some names =>
      let favs := favs_of names in
      let others := others_of favs all_imgs in
      match favs, others with
      | [], _ => Raise ValueError
      | _, [] => Raise ValueError
      | _, _ =>
          let '(favs_to_place, g1) := shuffle g (to_place favs center_slots) in
          let '(others_to_place, g2) := shuffle g1 (to_place others outer_slots) in
          filled <-
            fill_grid files style favs_to_place others_to_place cells 0 0 [] ;;
          Ok (filled, g2)
      end
  end.

End make_banner.

End machine.

End Banner.

(** ** MockupGenerator.py *)

Module Mockup.

Definition GEMINI_MODEL : string := "gemini-2.5-flash-image-preview".
Definition INPUT_FOLDER : string := "Favs".
Definition OUTPUT_FOLDER : string := "mockup_outputs".
Definition FRAME_THICKNESS : Z := 50.
Definition MAT_THICKNESS : Z := 80.
Definition FRAME_COLOR : string := "black".
Definition MAT_COLOR : string := "white".
Definition DELAY_BETWEEN_SCENES : Z := 1.
Definition DELAY_BETWEEN_PHOTOS : Z := 1.
Definition RETRY_DELAY : Z := 5.

(** The scenes in the order of the dictionary literal, which is the
    order [items()] yields them. *)
Definition BASE_SCENE_PROMPTS : list (string * string) :=
  [ ("etsy_cover_mockup",
     "Place this framed artwork on a plain, minimalist, neutral off-white wall. The scene should be clean and simple, with no other objects or furniture. The lighting should be bright and natural, with dappled sunlight casting soft, artistic shadows from a window across the wall and frame. Ensure ultra-realistic detail and professional photography quality.");
    ("living_room",
     "Place this framed artwork on a wall in a bright, modern living room. The room should be filled with realistic sunlight and soft shadows. The wall behind the artwork should have a subtle, harmonious tone. Ensure ultra-realistic detail, lifelike textures, and professional photography quality.");
    ("living_room_v2",
     "Place this framed artwork on a wall in a bright, cozy modern living room. The room should be filled with realistic sunlight and r shadows. The wall behind the artwork should have a subtle, harmonious tone. Ensure ultra-realistic detail, lifelike textures, and professional photography quality.");
    ("bedroom",
     "Place this framed artwork on the wall above a neatly made bed in a cozy, minimalist bedroom. The lighting should be soft and natural. The wall behind the artwork should have a subtle, harmonious tone. Ensure ultra-realistic detail, lifelike textures, and professional photography quality.");
    ("office",
     "Place this framed artwork on the wall of a clean, professional home office. The scene should have good lighting and look photorealistic. The wall behind the artwork should have a subtle, harmonious tone. Ensure ultra-realistic detail, lifelike textures, and professional photography quality.") ].

(** *** The world the script runs in *)

(** Decoded JSON. An object keeps its members as a list of distinct
    keys. *)
Inductive json : Type :=
| JNull
| JBool (b : bool)
| JInt (n : Z)
| JFloat (x : PyFloat.float)
| JStr (s : string)
| JArr (l : list json)
| JObj (members : list (string * json)).

(** The response object carried by a [RequestException]: its status code
    and its truth value. *)
Record Response : Type := { status_code : Z; truthy : bool }.

(** [requests.Response.__bool__] is [ok]: the status is below 400. *)
Definition requests_response (status : Z) : Response :=
  {| status_code := status; truthy := status <? 400 |}.

(** What [requests.post], [raise_for_status] and [json] together do for
    one request. *)
Inductive HttpResult : Type :=
| HttpOk (body : json)
| HttpRequestException (response : option Response).

Record Request : Type :=
  { req_url : string; req_prompt : string; req_image : Image }.

Inductive Event : Type :=
| EvOpen (path : string)
| EvPost (req : Request)
| EvSleep (seconds : Z)
| EvSave (path : string).

(** [net n] is the outcome of the request number [n] of the run. *)
Record World : Type :=
  { files : gmap string FS.File;
    listing : option (list string);
    net : nat -> HttpResult;
    trace : list Event }.

Definition log (ev : Event) (w : World) : World :=
  {| files := files w; listing := listing w; net := net w;
     trace := trace w ++ [ev] |}.

Fixpoint posts (t : list Event) : nat :=
  match t with
  | [] => 0
  | EvPost _ :: t' => S (posts t')
  | _ :: t' => posts t'
  end.

Fixpoint sleeps (t : list Event) : list Z :=
  match t with
  | [] => []
  | EvSleep d :: t' => d :: sleeps t'
  | _ :: t' => sleeps t'
  end.

Definition post (req : Request) (w : World) : HttpResult * World :=
  (net w (posts (trace w)), log (EvPost req) w).

Definition sleep (seconds : Z) (w : World) : World := log (EvSleep seconds) w.

Definition save (path : string) (im : Image) (w : World) : World :=
  {| files := <[path := FS.ImageFile im]> (files w); listing := listing w;
     net := net w; trace := trace w ++ [EvSave path] |}.

(** *** Python operations on decoded JSON *)

Fixpoint assoc (key : string) (members : list (string * json)) : option json :=
  match members with
  | [] => None
  | (k, v) :: rest => if String.eqb k key then Some v else assoc key rest
  end.

(** The truth value of [v] in a condition. *)
Definition is_truthy (v : json) : bool :=
  match v with
  | JNull => false
  | JBool b => b
  | JInt n => negb (n =? 0)
  | JFloat x => negb (PyFloat.is_zero x)
  | JStr s => negb (String.eqb s "")
  | JArr l => match l with [] => false | _ => true end
  | JObj m => match m with [] => false | _ => true end
  end.

(** [v == s] for a string literal [s] *)
Definition eq_str (v : json) (s : string) : bool :=
  match v with
  | JStr s' => String.eqb s' s
  | _ => false
  end.

(** [d.get(key, default)]; only a dict has the method. *)
Definition get (d : json) (key : string) (default : json) : result json :=
  match d with
  | JObj m => Ok (match assoc key m with Some v => v | None => default end)
  | _ => Raise AttributeError
  end.

(** [v[0]] *)
Definition item0 (v : json) : result json :=
  match v with
  | JArr (x :: _) => Ok x
  | JArr [] => Raise IndexError
  | JStr (String c _) => Ok (JStr (String c EmptyString))
  | JStr EmptyString => Raise IndexError
  | JObj _ => Raise KeyError
  | _ => Raise TypeError
  end.

(** [key in v] *)
Definition has (key : string) (v : json) : result bool :=
  match v with
  | JObj m => Ok (match assoc key m with Some _ => true | None => false end)
  | JArr l => Ok (existsb (fun x => eq_str x key) l)
  | JStr s => Ok (Py.contains key s)
  | _ => Raise TypeError
  end.

(** [v[key]] *)
Definition item (v : json) (key : string) : result json :=
  match v with
  | JObj m => match assoc key m with Some x => Ok x | None => Raise KeyError end
  | _ => Raise TypeError
  end.

(** The first candidate of a response and its finish reason, when the
    response has them. *)
Definition first_candidate (body : json) : option json :=
  match body with
  | JObj m =>
      match assoc "candidates" m with
      | Some (JArr (c :: _)) => Some c
      | _ => None
      end
  | _ => None
  end.

Definition finish_reason (candidate : json) : option json :=
  match candidate with
  | JObj m => assoc "finishReason" m
  | _ => None
  end.

(** *** add_frame_and_mat *)

Definition is_landscape (iw ih : Z) : bool := ih <? iw.

Definition target_aspect (iw ih : Z) : PyFloat.float :=
  if is_landscape iw ih then PyFloat.div_round 3 2 else PyFloat.div_round 2 3.

(** The value of the local [cropped_photo]. *)
Definition cropped_photo (photo : Image) : result Image :=
  let '(iw, ih) := size photo in
  let target_aspect := target_aspect iw ih in
  img_aspect <- PyFloat.truediv iw ih ;;
  if PyFloat.gt (PyFloat.abs (PyFloat.sub img_aspect target_aspect))
       PyFloat.lit_0_01
  then
    if PyFloat.gt img_aspect target_aspect then
      x <- PyFloat.mul_int target_aspect ih ;;
      new_width <- PyFloat.to_int x ;;
      let offset := (iw - new_width) / 2 in
      crop photo (offset, 0, iw - offset, ih)
    else
      x <- PyFloat.int_div iw target_aspect ;;
      new_height <- PyFloat.to_int x ;;
      let offset := (ih - new_height) / 2 in
      crop photo (0, offset, iw, ih - offset)
  else Ok photo.

(** The mat, then the frame. *)
Definition framed_photo (cropped : Image) : result Image :=
  matted_photo <- expand cropped MAT_THICKNESS MAT_COLOR ;;
  expand matted_photo FRAME_THICKNESS FRAME_COLOR.

Definition add_frame_and_mat (image_path : string) (w : World)
    : option Image * World :=
  let body :=
    photo <- FS.image_open (files w) image_path ;;
    _ <- FS.image_load (files w) image_path ;;
    cropped <- cropped_photo (convert "RGB" photo) ;;
    framed_photo cropped in
  match body with
  | Ok framed => (Some framed, log (EvOpen image_path) w)
  | Raise _ => (None, log (EvOpen image_path) w)
  end.

Section generate.

(** The key pasted into the script. *)
Variable API_KEY : string.

(** [base64.b64decode] of a string ([None]: it raises), and the size of
    the image [Image.open] finds in a byte string ([None]: it raises). *)
Variable b64decode : string -> option string.
Variable image_size : string -> option (Z * Z).

Definition max_retries : Z := 3.

Definition api_url : string :=
  "https://generativelanguage.googleapis.com/v1beta/models/"
  +:+ GEMINI_MODEL +:+ ":generateContent?key=" +:+ API_KEY.

(** [Image.open(BytesIO(base64.b64decode(generated_data)))] *)
Definition decode_image (generated_data : json) : result Image :=
  match generated_data with
  | JStr s =>
      match b64decode s with
      | None => Raise Base64Error
      | Some image_data =>
          match image_size image_data with
          | None => Raise UnidentifiedImageError
          | Some (w, h) => Ok (Decoded image_data w h)
          end
      end
  | _ => Raise TypeError
  end.

(** What the [try] body does with the decoded response: the value it
    returns, or the exception that leaves it. *)
Definition read_result (body : json) : result (option Image) :=
  candidates <- get body "candidates" (JArr [JObj []]) ;;
  candidate <- item0 candidates ;;
  finish_reason <- get candidate "finishReason" JNull ;;
  if eq_str finish_reason "SAFETY" then Ok None
  else
    content <- get candidate "content" JNull ;;
    has_parts <-
      (if is_truthy content then
         b <- has "parts" content ;;
         if b then parts <- item content "parts" ;; Ok (is_truthy parts)
         else Ok false
       else Ok false) ;;
    if has_parts then
      parts <- item content "parts" ;;
      part <- item0 parts ;;
      has_data <-
        (b <- has "inlineData" part ;;
         if b then inline <- item part "inlineData" ;; has "data" inline
         else Ok false) ;;
      if has_data then
        inline <- item part "inlineData" ;;
        generated_data <- item inline "data" ;;
        im <- decode_image generated_data ;;
        Ok (Some im)
      else Ok None
    else Ok None.

(** [e.response and e.response.status_code == 429] *)
Definition rate_limited (response : option Response) : bool :=
  match response with
  | None => false
  | Some r => truthy r && (status_code r =? 429)
  end.

(** The iterations of [for attempt in range(max_retries)] that remain,
    [left] of them, starting at [attempt]. *)
Fixpoint attempts (left : nat) (attempt : Z) (req : Request) (w : World)
    : result (option Image) * World :=
  match left with
  | O => (Ok None, w)
  | S left' =>
      let '(r, w1) := post req w in
      match r with
      | HttpOk body => (read_result body, w1)
      | HttpRequestException response =>
          if rate_limited response then
            if attempt <? max_retries - 1 then
              let delay := RETRY_DELAY * 2 ^ attempt in
              attempts left' (attempt + 1) req (sleep delay w1)
            else (Ok None, w1)
          else (Ok None, w1)
      end
  end.

Definition generate_mockup_with_gemini (framed_image : Image)
    (scene_prompt scene_name : string) (w : World)
    : result (option Image) * World :=
  if String.eqb API_KEY "" then (Ok None, w)
  else
    let req := {| req_url := api_url; req_prompt := scene_prompt;
                  req_image := framed_image |} in
    attempts (Z.to_nat max_retries) 0 req w.

(** *** main *)

Definition is_photo (f : string) : bool :=
  let f := Py.lower f in
  Py.endswith f ".png" || Py.endswith f ".jpg" || Py.endswith f ".jpeg"
  || Py.endswith f ".webp".

Definition save_path (filename scene_name : string) : string :=
  Py.path_join OUTPUT_FOLDER
    (Py.splitext_root filename +:+ "_" +:+ scene_name +:+ "_mockup.jpg").

(** How one iteration of the scene loop ends: on to the next scene with
    the framed artwork it holds, out of the loop, or with an exception
    nothing catches. *)
Inductive flow : Type :=
| Continue (framed_art : option Image)
| Break
| Uncaught (e : exn).

Definition scene_body (filename : string) (j : Z) (scene : string * string)
    (framed_art : option Image) (w : World) : flow * World :=
  let '(scene_name, base_prompt) := scene in
  if FS.exists_ (files w) (save_path filename scene_name)
  then (Continue framed_art, w)
  else
    let '(framed_art1, w1) :=
      match framed_art with
      | None => add_frame_and_mat (Py.path_join INPUT_FOLDER filename) w
      | Some _ => (framed_art, w)
      end in
    match framed_art1 with
    | None => (Break, w1)
    | Some framed =>
        let '(r, w2) :=
          generate_mockup_with_gemini framed base_prompt scene_name w1 in
        match r with
        | Raise e => (Uncaught e, w2)
        | Ok mockup_image =>
            let w3 :=
              match mockup_image with
              | Some im =>
                  save (save_path filename scene_name) (convert "RGB" im) w2
              | None => w2
              end in
            let w4 :=
              if j <? Py.len BASE_SCENE_PROMPTS - 1
              then sleep DELAY_BETWEEN_SCENES w3 else w3 in
            (Continue framed_art1, w4)
        end
    end.

Fixpoint scenes_loop (filename : string) (items : list (Z * (string * string)))
    (framed_art : option Image) (w : World) : result unit * World :=
  match items with
  | [] => (Ok tt, w)
  | (j, scene) :: rest =>
      match scene_body filename j scene framed_art w with
      | (Continue framed_art', w') => scenes_loop filename rest framed_art' w'
      | (Break, w') => (Ok tt, w')
      | (Uncaught e, w') => (Raise e, w')
      end
  end.

Fixpoint photos_loop (items : list (Z * string)) (total : Z) (w : World)
    : result unit * World :=
  match items with
  | [] => (Ok tt, w)
  | (i, filename) :: rest =>
      match scenes_loop filename (Py.enumerate BASE_SCENE_PROMPTS) None w with
      | (Raise e, w') => (Raise e, w')
      | (Ok _, w') =>
          let w'' :=
            if i <? total - 1 then sleep DELAY_BETWEEN_PHOTOS w' else w' in
          photos_loop rest total w''
      end
  end.

(** [os.makedirs(OUTPUT_FOLDER, exist_ok=True)] *)
Definition makedirs (w : World) : result World :=
  match files w !! OUTPUT_FOLDER with
  | None =>
      Ok {| files := <[OUTPUT_FOLDER := FS.Directory]> (files w);
            listing := listing w; net := net w; trace := trace w |}
  | Some FS.Directory => Ok w
  | Some _ => Raise FileExistsError
  end.

Definition main (w : World) : result unit * World :=
  if negb (FS.exists_ (files w) INPUT_FOLDER) then (Ok tt, w)
  else
    match makedirs w with
    | Raise e => (Raise e, w)
    | Ok w1 =>
        match listing w1 with
        | None => (Raise NotADirectoryError, w1)
        | Some names =>
            let image_files := List.filter is_photo names in
            match image_files with
            | [] => (Ok tt, w1)
            | _ => photos_loop (Py.enumerate image_files) (Py.len image_files) w1
            end
        end
    end.

End generate.

End Mockup.

(** ** Sample inputs *)

Module Samples.

Import Mockup.

Definition b64decode (s : string) : option string := Some s.
Definition image_size (_ : string) : option (Z * Z) := Some (1024, 1024).

(** A rate-limit error as a mocked client raises it: the response object
    it carries counts as true. *)
Definition rate_limit_error : HttpResult :=
  HttpRequestException (Some {| status_code := 429; truthy := true |}).

Definition image_body : json :=
  JObj [("candidates",
         JArr [JObj [("content",
                      JObj [("parts",
                             JArr [JObj [("inlineData",
                                          JObj [("mimeType", JStr "image/png");
                                                ("data", JStr "aW1n")])]])]);
                     ("finishReason", JStr "STOP")]])].

Definition safety_body : json :=
  JObj [("candidates", JArr [JObj [("finishReason", JStr "SAFETY")]])].

(** 429 three times, then an image. *)
Definition net_429_x3 (n : nat) : HttpResult :=
  match n with
  | 0%nat | 1%nat | 2%nat => rate_limit_error
  | _ => HttpOk image_body
  end.

Definition photo : Image := Decoded "a.jpg" 3000 4000.

Definition framed : Image :=
  Expanded
    (Expanded (Cropped (Converted "RGB" photo) (167, 0, 2833, 4000)) 80 "white")
    50 "black".

Definition world (net : nat -> HttpResult) : World :=
  {| files := {[ "Favs" := FS.Directory;
                 "Favs/a.jpg" := FS.ImageFile photo ]};
     listing := Some ["a.jpg"];
     net := net;
     trace := [] |}.

(** The same folder after an earlier run saved the office mockup. *)
Definition resumed_world (net : nat -> HttpResult) : World :=
  {| files := {[ "Favs" := FS.Directory;
                 "Favs/a.jpg" := FS.ImageFile photo;
                 "mockup_outputs" := FS.Directory;
                 "mockup_outputs/a_office_mockup.jpg" := FS.ImageFile photo ]};
     listing := Some ["a.jpg"];
     net := net;
     trace := [] |}.

(** The folder after a run that saved every mockup of [a.jpg]. *)
Definition finished_world (net : nat -> HttpResult) : World :=
  {| files :=
       list_to_map
         (("Favs", FS.Directory)
          :: ("Favs/a.jpg", FS.ImageFile photo)
          :: ("mockup_outputs", FS.Directory)
          :: map (fun scene =>
                    (save_path "a.jpg" (fst scene), FS.ImageFile photo))
               BASE_SCENE_PROMPTS);
     listing := Some ["a.jpg"; "a.png"];
     net := net;
     trace := [] |}.

(** [enumerate] of its two image files, of which the second shares the
    stem of the first. *)
Definition two_photos : list (Z * string) := [(0, "a.jpg"); (1, "a.png")].

(** A banner run: one favourite that opens, one that is missing on disk,
    a text file in the favourites folder, and an archive that holds one
    other photo and a copy of the first favourite. The shuffle reverses. *)
Definition banner_files : gmap string FS.File :=
  <["Favs/a.jpg" := FS.ImageFile (Decoded "Favs/a.jpg" 4000 3000)]>
    (<["banner_photos_v5/c.jpg" :=
         FS.ImageFile (Decoded "banner_photos_v5/c.jpg" 1200 1600)]> ∅).
Definition banner_names : list string := ["a.jpg"; "b.png"; "notes.txt"].
Definition banner_imgs : list string :=
  ["banner_photos_v5/c.jpg"; "banner_photos_v5/a.jpg"].
Definition reverse_shuffle (g : unit) (l : list string) : list string * unit :=
  (reverse l, g).

(** A machine that grants a resize to any target within the pixel limit
    of the library. *)
Definition machine : Machine :=
  {| resizes := fun _ w h => negb (decompression_bomb (w, h)) |}.

End Samples.

(** ** Measures of a trace *)

Module Effects.

Import Mockup.

Fixpoint opens (t : list Event) : nat :=
  match t with
  | [] => 0
  | EvOpen _ :: t' => S (opens t')
  | _ :: t' => opens t'
  end.

Fixpoint saves (t : list Event) : nat :=
  match t with
  | [] => 0
  | EvSave _ :: t' => S (saves t')
  | _ :: t' => saves t'
  end.

(** What [k] rate-limited attempts in a row leave in the trace, from
    attempt number [attempt] on: each a request and the sleep after it. *)
Fixpoint backoff (req : Request) (attempt : Z) (k : nat) : list Event :=
  match k with
  | O => []
  | S k' =>
      EvPost req :: EvSleep (RETRY_DELAY * 2 ^ attempt)
      :: backoff req (attempt + 1) k'
  end.

(** How often a photo still has to be framed: not at all once the scene
    loop holds its framed artwork. *)
Definition to_frame (framed_art : option Image) : nat :=
  match framed_art with Some _ => 0 | None => 1 end.

(** What [save_path] appends to the stem of the file name, and whether a
    string ends with another. *)
Definition output_suffix (scene_name : string) : string :=
  "_" +:+ scene_name +:+ "_mockup.jpg".

Fixpoint is_suffix (t s : string) : bool :=
  String.eqb t s ||
  match s with
  | EmptyString => false
  | String _ s' => is_suffix t s'
  end.

(** The names [main] keeps from the listing of the input folder. *)
Definition image_files (w : World) : list string :=
  match listing w with
  | Some names => List.filter is_photo names
  | None => []
  end.

(** The scenes of the script, by name. *)
Definition scene_names : list string := map fst BASE_SCENE_PROMPTS.

(** The request [generate_mockup_with_gemini] builds. *)
Definition request (API_KEY : string) (framed_image : Image)
    (scene_prompt : string) : Request :=
  {| req_url := api_url API_KEY; req_prompt := scene_prompt;
     req_image := framed_image |}.

(** The world after more events, the files untouched. *)
Definition extend (w : World) (evs : list Event) : World :=
  {| files := files w; listing := listing w; net := net w;
     trace := trace w ++ evs |}.

(** An event that belongs to one scene of one photo: the photo opened
    for framing, a request that carries the prompt of the scene, the
    mockup of the scene saved, or a pause between scenes or before a
    retry. *)
Definition of_scene (filename : string) (scene : string * string)
    (ev : Event) : Prop :=
  match ev with
  | EvOpen path => path = Py.path_join INPUT_FOLDER filename
  | EvPost req => req_prompt req = snd scene
  | EvSave path => path = save_path filename (fst scene)
  | EvSleep d =>
      d = DELAY_BETWEEN_SCENES \/ d = RETRY_DELAY \/ d = 2 * RETRY_DELAY
  end.

(** What one scene of one photo may leave in the trace. *)
Definition scene_segment (filename : string) (scene : string * string)
    (seg : list Event) : Prop :=
  Forall (of_scene filename scene) seg
  /\ (opens seg <= 1)%nat /\ (posts seg <= 3)%nat /\ (saves seg <= 1)%nat
  /\ (saves seg <= posts seg)%nat.


End Effects.

(** ** The pixel offsets of the banner grid *)

Module Layout.

Import Banner.

(** The corner [(x, y)] at which the tile of cell [(r, c)] is pasted. *)
Definition tile_x (style : string) (c : Z) : Z :=
  grid_w style + c * (tile_w style + grid_w style).
Definition tile_y (style : string) (r : Z) : Z :=
  grid_w style + r * (tile_h style + grid_w style).

Definition corner (style : string) (rc : Z * Z) : Z * Z :=
  (tile_x style (snd rc), tile_y style (fst rc)).

(** A tile pasted at the corner [p] lies inside the canvas. *)
Definition inside (style : string) (p : Z * Z) : Prop :=
  0 <= fst p /\ fst p + tile_w style <= W
  /\ 0 <= snd p /\ snd p + tile_h style <= H.

(** Two tiles pasted at the corners [p] and [q] share no pixel. *)
Definition apart (style : string) (p q : Z * Z) : Prop :=
  fst p + tile_w style <= fst q \/ fst q + tile_w style <= fst p
  \/ snd p + tile_h style <= snd q \/ snd q + tile_h style <= snd p.

(** The paths the loop read from one of the two lists, in the order of the
    cells. *)
Definition paths_from (src : pool) (ps : list placement) : list string :=
  map img_path
    (List.filter
       (fun p => match source p, src with
                 | Favs, Favs | Others, Others => true
                 | _, _ => false
                 end) ps).

End Layout.

(** ** MockupGenerator.py: get_dominant_color_name *)

Module Colors.

Import PyFloat.

(** The order of an int and a float; Python compares the two exactly.
    [None] when the float is a NaN. *)
Definition int_compare (n : Z) (x : float) : option comparison :=
  match x with
  | S754_nan => None
  | S754_infinity s => Some (if s then Gt else Lt)
  | S754_zero _ => Some (n ?= 0)
  | S754_finite s m e =>
      let v := if s then Z.neg m else Z.pos m in
      Some (if 0 <=? e then n ?= v * 2 ^ e else n * 2 ^ (- e) ?= v)
  end.

(** [n > x] and [x > n] for an int [n] and a float [x]. *)
Definition int_gt (n : Z) (x : float) : bool :=
  match int_compare n x with Some Gt => true | _ => false end.
Definition int_lt (n : Z) (x : float) : bool :=
  match int_compare n x with Some Lt => true | _ => false end.

(** [n * x] for an int [n] and a float [x]. *)
Definition int_mul (n : Z) (x : float) : result float :=
  y <- of_int n ;; Ok (SFmul prec emax y x).

(** The literals [1.2] and [1.1]. *)
Definition lit_1_2 : float := div_round 12 10.
Definition lit_1_1 : float := div_round 11 10.

(** [n > k * factor] *)
Definition exceeds (n k : Z) (factor : float) : result bool :=
  x <- int_mul k factor ;; Ok (int_gt n x).

(** [(r + g + b) / 3 < bound] and [(r + g + b) / 3 > bound] *)
Definition mean_below (r g b bound : Z) : result bool :=
  mean <- truediv (r + g + b) 3 ;; Ok (int_gt bound mean).
Definition mean_above (r g b bound : Z) : result bool :=
  mean <- truediv (r + g + b) 3 ;; Ok (int_lt bound mean).

(** The chain of tests on the dominant colour. *)
Definition color_name (r g b : Z) : result string :=
  if (200 <? r) && (g <? 100) && (b <? 100) then Ok "reddish"
  else if (200 <? g) && (r <? 100) && (b <? 100) then Ok "greenish"
  else if (200 <? b) && (r <? 100) && (g <? 100) then Ok "bluish"
  else if (150 <? r) && (150 <? g) && (b <? 100) then Ok "yellowish"
  else if (150 <? r) && (150 <? b) && (g <? 100) then Ok "purplish"
  else if (150 <? g) && (150 <? b) && (r <? 100) then Ok "teal"
  else
    dark <- mean_below r g b 50 ;;
    if dark then Ok "dark gray"
    else
      light <- mean_above r g b 200 ;;
      if light then Ok "light gray"
      else if (g <? r) && (b <? r)
      then Ok (if 100 <? g then "warm" else "reddish")
      else if (r <? g) && (b <? g) then Ok "cool green"
      else if (r <? b) && (g <? b) then Ok "cool blue"
      else
        warm <-
          (c <- exceeds r b lit_1_2 ;;
           if c then exceeds g b lit_1_1 else Ok false) ;;
        if warm then Ok "warm neutral"
        else
          cool <-
            (c <- exceeds b r lit_1_2 ;;
             if c then exceeds b g lit_1_1 else Ok false) ;;
          if cool then Ok "cool neutral" else Ok "neutral".

(** [get_dominant_color_name], from what [ColorThief(image_path)
    .get_color(quality=10)] does: the colour it returns, or the exception
    it raises. *)
Definition get_dominant_color_name (dominant_rgb : result (Z * Z * Z)) : string :=
  match (rgb <- dominant_rgb ;;
         let '(r, g, b) := rgb in color_name r g b) with
  | Ok name => name
  | Raise _ => "harmonious"
  end.

(** A channel value of a pixel. *)
Definition channel (v : Z) : Prop := 0 <= v <= 255.

End Colors.

(** ** BannerCollageMaker.py: the opacity of the logo *)

Module Logo.

Import PyFloat.

(** [lambda p: int(p * (opacity / 255))], applied to the alpha band. *)
Definition scale_alpha (opacity p : Z) : result Z :=
  ratio <- truediv opacity 255 ;;
  x <- Colors.int_mul p ratio ;;
  to_int x.

End Logo.

(** * Proofs *)

(** ** Rounding to binary64

    [binary_round_aux] shifts the mantissa to 53 bits, rounds to nearest
    even and shifts once more if the rounding carried. For a positive
    mantissa and an exponent far from both ends of the range the result is
    a positive finite float. *)

Module PyFloatFacts.

Import PyFloat.

Lemma digits2_pos_size p : digits2_pos p = Pos.size p.
Proof. induction p; simpl; congruence. Qed.

Lemma Zdigits2_log2 m : 0 < m -> Zdigits2 m = Z.log2 m + 1.
Proof.
  destruct m as [|p|p]; try lia. intros _. simpl.
  rewrite digits2_pos_size. destruct p; simpl; lia.
Qed.

Lemma shr_1_m mrs : 0 <= shr_m mrs -> shr_m (shr_1 mrs) = shr_m mrs / 2.
Proof.
  destruct mrs as [m r s]. simpl. intros Hm.
  rewrite <- Z.div2_div.
  destruct m as [|[p|p|]|p]; simpl; try reflexivity; lia.
Qed.

Lemma iter_pos_shr_m p : forall mrs, 0 <= shr_m mrs ->
  shr_m (SpecFloat.iter_pos shr_1 p mrs) = shr_m mrs / 2 ^ Z.pos p.
Proof.
  induction p as [p IH|p IH|]; intros mrs Hm; simpl SpecFloat.iter_pos.
  - assert (H1 : 0 <= shr_m (shr_1 mrs)).
    { rewrite shr_1_m by assumption. apply Z.div_pos; lia. }
    assert (H2 : 0 <= shr_m (SpecFloat.iter_pos shr_1 p (shr_1 mrs))).
    { rewrite IH by assumption. apply Z.div_pos; lia. }
    rewrite IH, IH, shr_1_m by assumption.
    rewrite !Z.div_div by lia.
    f_equal. replace (Z.pos p~1) with (Z.pos p + Z.pos p + 1) by lia.
    rewrite !Z.pow_add_r by lia. lia.
  - assert (H2 : 0 <= shr_m (SpecFloat.iter_pos shr_1 p mrs)).
    { rewrite IH by assumption. apply Z.div_pos; lia. }
    rewrite IH, IH by assumption.
    rewrite !Z.div_div by lia.
    f_equal. replace (Z.pos p~0) with (Z.pos p + Z.pos p) by lia.
    rewrite !Z.pow_add_r by lia. lia.
  - rewrite shr_1_m by assumption. reflexivity.
Qed.

Lemma log2_bounds m : 0 < m -> 2 ^ Z.log2 m <= m < 2 ^ (Z.log2 m + 1).
Proof. intros H. pose proof (Z.log2_spec m H). rewrite <- Z.add_1_r in *. lia. Qed.

Lemma shr_record_of_loc_m m l : shr_m (shr_record_of_loc m l) = m.
Proof. destruct l as [|[]]; reflexivity. Qed.

Lemma loc_of_shr_record_of_loc m l : loc_of_shr_record (shr_record_of_loc m l) = l.
Proof. destruct l as [|[]]; reflexivity. Qed.

Lemma round_nearest_even_bounds m l :
  m <= round_nearest_even m l <= m + 1.
Proof. destruct l as [|[]]; simpl; try lia. destruct (Z.even m); lia. Qed.

(* one normalisation step *)
Lemma shr_fexp_spec m e l :
  0 < m -> -1074 <= e ->
  exists mrs, shr_fexp prec emax m e l = (mrs, Z.max e (Z.log2 m + e - 52))
    /\ 0 < shr_m mrs < 2 ^ 53 /\ shr_m mrs <= m.
Proof.
  intros Hm He. unfold shr_fexp, shr.
  rewrite Zdigits2_log2 by assumption.
  pose proof (log2_bounds m Hm) as [Hlo Hhi].
  pose proof (Z.log2_nonneg m) as Hl.
  unfold fexp, SpecFloat.emin, prec, emax.
  destruct (Z.max (Z.log2 m + 1 + e - 53) (3 - 1024 - 53) - e) as [|p|p] eqn:Hn.
  - eexists; split; [f_equal; lia|].
    rewrite shr_record_of_loc_m.
    assert (Z.log2 m + 1 <= 53) by lia.
    assert (2 ^ (Z.log2 m + 1) <= 2 ^ 53) by (apply Z.pow_le_mono_r; lia).
    lia.
  - eexists; split; [f_equal; lia|].
    rewrite iter_pos_shr_m by (rewrite shr_record_of_loc_m; lia).
    rewrite shr_record_of_loc_m.
    assert (Hp : Z.pos p = Z.log2 m - 52) by lia.
    rewrite Hp.
    assert (Hpow : 2 ^ Z.log2 m = 2 ^ 52 * 2 ^ (Z.log2 m - 52)).
    { rewrite <- Z.pow_add_r by lia. f_equal. lia. }
    assert (0 < 2 ^ (Z.log2 m - 52)) by (apply Z.pow_pos_nonneg; lia).
    split; [split|].
    + apply Z.div_str_pos. split; [lia|]. nia.
    + apply Z.div_lt_upper_bound; [lia|].
      replace (Z.log2 m + 1) with (53 + (Z.log2 m - 52)) in Hhi by lia.
      rewrite Z.pow_add_r in Hhi by lia. lia.
    + apply Z.div_le_upper_bound; [lia|]. nia.
  - eexists; split; [f_equal; lia|].
    rewrite shr_record_of_loc_m.
    assert (Z.log2 m + 1 <= 53) by lia.
    assert (2 ^ (Z.log2 m + 1) <= 2 ^ 53) by (apply Z.pow_le_mono_r; lia).
    lia.
Qed.

Lemma binary_round_aux_finite s m e l :
  0 < m -> -1074 <= e -> Z.max e (Z.log2 m + e - 52) + 1 <= 971 ->
  exists m' e', binary_round_aux prec emax s m e l = S754_finite s m' e'
    /\ Z.pos m' < 2 ^ 53
    /\ Z.max e (Z.log2 m + e - 52) <= e' <= Z.max e (Z.log2 m + e - 52) + 1.
Proof.
  intros Hm He Hb. unfold binary_round_aux.
  destruct (shr_fexp_spec m e l Hm He) as (mrs1 & -> & Hm1 & _).
  set (e1 := Z.max e (Z.log2 m + e - 52)) in *.
  pose proof (round_nearest_even_bounds (shr_m mrs1) (loc_of_shr_record mrs1)) as Hr.
  set (m2 := round_nearest_even (shr_m mrs1) (loc_of_shr_record mrs1)) in *.
  assert (Hm2 : 0 < m2) by lia.
  destruct (shr_fexp_spec m2 e1 loc_Exact Hm2 ltac:(lia)) as (mrs2 & -> & Hm3 & _).
  assert (Hl2 : Z.log2 m2 <= 53).
  { assert (Z.log2 m2 < 54); [|lia]. apply Z.log2_lt_pow2; lia. }
  destruct (shr_m mrs2) as [|p|p] eqn:Hp; try lia.
  assert (Hle : (Z.max e1 (Z.log2 m2 + e1 - 52) <=? emax - prec) = true).
  { apply Z.leb_le. unfold emax, prec. lia. }
  rewrite Hle. eexists _, _; split; [reflexivity|]. split; lia.
Qed.

Lemma div_core_finite s m1 e1 m2 e2 :
  0 < m1 < 2 ^ 53 -> 0 < m2 < 2 ^ 53 ->
  -400 <= e1 <= 400 -> -400 <= e2 <= 400 ->
  exists m e,
    (let '(q, e, l) := SFdiv_core_binary prec emax m1 e1 m2 e2 in
     binary_round_aux prec emax s q e l) = S754_finite s m e
    /\ Z.pos m < 2 ^ 53 /\ e1 - e2 - 105 <= e <= e1 - e2 + 1.
Proof.
  intros Hm1 Hm2 He1 He2. unfold SFdiv_core_binary.
  rewrite !Zdigits2_log2 by lia.
  pose proof (log2_bounds m1 ltac:(lia)) as [Hlo1 Hhi1].
  pose proof (log2_bounds m2 ltac:(lia)) as [Hlo2 Hhi2].
  pose proof (Z.log2_nonneg m1) as Hl1. pose proof (Z.log2_nonneg m2) as Hl2.
  assert (Hb1 : Z.log2 m1 < 53) by (apply Z.log2_lt_pow2; lia).
  assert (Hb2 : Z.log2 m2 < 53) by (apply Z.log2_lt_pow2; lia).
  set (l1 := Z.log2 m1) in *. set (l2 := Z.log2 m2) in *.
  assert (He' : Z.min (fexp prec emax (l1 + 1 + e1 - (l2 + 1 + e2))) (e1 - e2)
                = e1 - e2 + l1 - l2 - 53).
  { unfold fexp, SpecFloat.emin, prec, emax. lia. }
  rewrite He'.
  replace (e1 - e2 - (e1 - e2 + l1 - l2 - 53)) with (53 - l1 + l2) by lia.
  destruct (53 - l1 + l2) as [|p|p] eqn:Hs; try lia.
  rewrite Z.shiftl_mul_pow2 by lia.
  destruct (Z.div_eucl (m1 * 2 ^ Z.pos p) m2) as [q r] eqn:Hqr.
  assert (Hq : q = m1 * 2 ^ Z.pos p / m2) by (unfold Z.div; rewrite Hqr; reflexivity).
  assert (Hpow : 0 < 2 ^ Z.pos p) by (apply Z.pow_pos_nonneg; lia).
  assert (Hp1 : 2 ^ l1 * 2 ^ Z.pos p = 2 ^ l2 * 2 ^ 53).
  { rewrite <- !Z.pow_add_r by lia. f_equal. lia. }
  assert (Hp2 : 2 ^ (l1 + 1) = 2 * 2 ^ l1) by (rewrite Z.pow_add_r by lia; lia).
  assert (Hp3 : 2 ^ (l2 + 1) = 2 * 2 ^ l2) by (rewrite Z.pow_add_r by lia; lia).
  assert (Hpl2 : 0 < 2 ^ l2) by (apply Z.pow_pos_nonneg; lia).
  assert (Hq_lo : 2 ^ 52 <= q).
  { subst q. apply Z.div_le_lower_bound; [lia|]. nia. }
  assert (Hq_hi : q < 2 ^ 54).
  { subst q. apply Z.div_lt_upper_bound; [lia|]. nia. }
  assert (Hlq : 52 <= Z.log2 q < 54).
  { split; [apply Z.log2_le_pow2; lia | apply Z.log2_lt_pow2; lia]. }
  destruct (binary_round_aux_finite s q (e1 - e2 + l1 - l2 - 53)
              (new_location m2 r) ltac:(lia) ltac:(lia) ltac:(lia))
    as (m & e & -> & Hm & He).
  exists m, e. split; [reflexivity|]. split; lia.
Qed.

Lemma SFmul_pos_finite m1 e1 m2 e2 :
  Z.pos m1 < 2 ^ 53 -> Z.pos m2 < 2 ^ 53 ->
  -500 <= e1 <= 400 -> -500 <= e2 <= 400 ->
  pos_finite (e1 + e2) (e1 + e2 + 54)
    (SFmul prec emax (S754_finite false m1 e1) (S754_finite false m2 e2)).
Proof.
  intros Hm1 Hm2 He1 He2. simpl SFmul.
  assert (Hprod : 0 < Z.pos (m1 * m2) < 2 ^ 106).
  { rewrite Pos2Z.inj_mul. change (2 ^ 106) with (2 ^ 53 * 2 ^ 53). nia. }
  assert (Hl : Z.log2 (Z.pos (m1 * m2)) < 106) by (apply Z.log2_lt_pow2; lia).
  pose proof (Z.log2_nonneg (Z.pos (m1 * m2))).
  destruct (binary_round_aux_finite false (Z.pos (m1 * m2)) (e1 + e2) loc_Exact
              ltac:(lia) ltac:(lia) ltac:(lia)) as (m & e & -> & Hm & He).
  exists m, e. split; [reflexivity|]. split; lia.
Qed.

Lemma pos_iter_xO p k : Z.pos (Pos.iter xO p k) = Z.pos p * 2 ^ Z.pos k.
Proof.
  induction k as [|k IH] using Pos.peano_ind.
  - simpl. lia.
  - rewrite Pos.iter_succ, Pos2Z.inj_xO, IH, Pos2Z.inj_succ, Z.pow_succ_r by lia. lia.
Qed.

Lemma binary_normalize_pos_finite n :
  0 < n < 2 ^ 53 ->
  pos_finite (-52) 1 (binary_normalize prec emax n 0 false).
Proof.
  intros Hn. destruct n as [|p|p]; try lia. simpl binary_normalize.
  unfold binary_round.
  pose proof (Zdigits2_log2 (Z.pos p) ltac:(lia)) as Hd. simpl Zdigits2 in Hd.
  rewrite Z.add_0_r, Hd.
  pose proof (log2_bounds (Z.pos p) ltac:(lia)) as [Hlo Hhi].
  pose proof (Z.log2_nonneg (Z.pos p)) as Hl.
  assert (Hb : Z.log2 (Z.pos p) < 53) by (apply Z.log2_lt_pow2; lia).
  set (l := Z.log2 (Z.pos p)) in *.
  assert (Hf : fexp prec emax (l + 1) = l - 52).
  { unfold fexp, SpecFloat.emin, prec, emax. lia. }
  rewrite Hf. unfold shl_align.
  destruct (l - 52 - 0) as [|k|k] eqn:Hk.
  - destruct (binary_round_aux_finite false (Z.pos p) 0 loc_Exact
                ltac:(lia) ltac:(lia) ltac:(lia)) as (m & e & -> & Hm & He).
    exists m, e. split; [reflexivity|]. split; lia.
  - lia.
  - assert (Hmz : Z.pos (Pos.iter xO p k) = Z.pos p * 2 ^ Z.pos k) by apply pos_iter_xO.
    assert (Hpk : 0 < 2 ^ Z.pos k) by (apply Z.pow_pos_nonneg; lia).
    assert (Hpw : 2 ^ l * 2 ^ Z.pos k = 2 ^ 52).
    { rewrite <- Z.pow_add_r by lia. f_equal. lia. }
    assert (Hp2 : 2 ^ (l + 1) = 2 * 2 ^ l) by (rewrite Z.pow_add_r by lia; lia).
    assert (Hmz_b : 2 ^ 52 <= Z.pos (Pos.iter xO p k) < 2 ^ 53).
    { rewrite Hmz. change (2 ^ 53) with (2 * 2 ^ 52). nia. }
    assert (Hlz : Z.log2 (Z.pos (Pos.iter xO p k)) = 52).
    { apply Z.log2_unique; [lia|]. exact Hmz_b. }
    destruct (binary_round_aux_finite false (Z.pos (Pos.iter xO p k)) (l - 52) loc_Exact
                ltac:(lia) ltac:(lia) ltac:(lia)) as (m & e & -> & Hm & He).
    exists m, e. split; [reflexivity|]. split; lia.
Qed.

(** *** The operations of the scripts on sizes *)

Lemma div_round_pos_finite a b :
  0 < a < 2 ^ 53 -> 0 < b < 2 ^ 53 -> pos_finite (-105) 1 (div_round a b).
Proof.
  intros Ha Hb. unfold div_round.
  rewrite !Z.abs_eq by lia.
  assert (Hsa : (a <? 0) = false) by (apply Z.ltb_ge; lia).
  assert (Hsb : (b <? 0) = false) by (apply Z.ltb_ge; lia).
  rewrite Hsa, Hsb. simpl xorb.
  destruct (div_core_finite false a 0 b 0 Ha Hb ltac:(lia) ltac:(lia))
    as (m & e & Heq & Hm & He).
  exists m, e. split; [exact Heq|]. split; lia.
Qed.

Lemma truediv_pos_finite a b :
  0 < a < 2 ^ 53 -> 0 < b < 2 ^ 53 ->
  exists x, truediv a b = Ok x /\ pos_finite (-105) 1 x.
Proof.
  intros Ha Hb. unfold truediv.
  assert (Hb0 : (b =? 0) = false) by (apply Z.eqb_neq; lia).
  rewrite Hb0.
  destruct (div_round_pos_finite a b Ha Hb) as (m & e & Heq & Hm & He).
  rewrite Heq. simpl. eexists; split; [reflexivity|].
  exists m, e. auto.
Qed.

Lemma of_int_pos_finite n :
  0 < n < 2 ^ 53 -> exists y, of_int n = Ok y /\ pos_finite (-52) 1 y.
Proof.
  intros Hn. unfold of_int.
  destruct (binary_normalize_pos_finite n Hn) as (m & e & Heq & Hm & He).
  rewrite Heq. simpl. eexists; split; [reflexivity|].
  exists m, e. auto.
Qed.

Lemma mul_int_pos_finite x n :
  pos_finite (-105) 1 x -> 0 < n < 2 ^ 53 ->
  exists y, mul_int x n = Ok y /\ pos_finite (-157) 56 y.
Proof.
  intros (m1 & e1 & -> & Hm1 & He1) Hn. unfold mul_int.
  destruct (of_int_pos_finite n Hn) as (y & -> & (m2 & e2 & -> & Hm2 & He2)).
  simpl rbind.
  destruct (SFmul_pos_finite m1 e1 m2 e2 Hm1 Hm2 ltac:(lia) ltac:(lia))
    as (m & e & Heq & Hm & He).
  eexists; split; [reflexivity|].
  exists m, e. split; [exact Heq|]. split; lia.
Qed.

Lemma int_div_pos_finite n x :
  0 < n < 2 ^ 53 -> pos_finite (-105) 1 x ->
  exists y, int_div n x = Ok y /\ pos_finite (-158) 107 y.
Proof.
  intros Hn (m2 & e2 & -> & Hm2 & He2). unfold int_div.
  destruct (of_int_pos_finite n Hn) as (y & -> & (m1 & e1 & -> & Hm1 & He1)).
  simpl rbind. simpl is_zero. cbv iota.
  destruct (div_core_finite false (Z.pos m1) e1 (Z.pos m2) e2
              ltac:(lia) ltac:(lia) ltac:(lia) ltac:(lia))
    as (m & e & Heq & Hm & He).
  eexists; split; [reflexivity|].
  exists m, e. split; [exact Heq|]. split; lia.
Qed.

Lemma to_int_pos_finite lo hi x :
  pos_finite lo hi x -> exists k, to_int x = Ok k /\ 0 <= k.
Proof.
  intros (m & e & -> & _ & _). simpl.
  eexists; split; [reflexivity|].
  destruct (0 <=? e) eqn:He.
  - apply Z.leb_le in He.
    assert (0 < 2 ^ e) by (apply Z.pow_pos_nonneg; lia). nia.
  - apply Z.leb_gt in He.
    apply Z.div_pos; [lia|]. apply Z.pow_pos_nonneg; lia.
Qed.


End PyFloatFacts.

(** ** The banner: fit_crop, the pools and the grid *)

Module BannerFacts.

Import PyFloat PyFloatFacts Banner.

Lemma valid_dim_exact n : valid_dim n -> 0 < n < 2 ^ 53.
Proof.
  unfold valid_dim. change (2 ^ 31) with 2147483648.
  change (2 ^ 53) with 9007199254740992. lia.
Qed.

(** Trimming [offset = (a - k) // 2] from both ends of an axis of length
    [a] leaves a box PIL accepts, whenever the kept length [k] is not
    negative. *)
Lemma symmetric_box a k : 0 <= k -> (a - (a - k) / 2 <? (a - k) / 2) = false.
Proof.
  intros Hk. apply Z.ltb_ge.
  pose proof (Z.mul_div_le (a - k) 2 ltac:(lia)). lia.
Qed.

(** Whatever [fit_crop] returns has the size asked for. *)
Lemma fit_crop_returns_size {machine : Machine} (img : Image) (tw th : Z) :
  forall out, fit_crop img tw th = Ok out -> size out = (tw, th).
Proof.
  intros out. unfold fit_crop. destruct (size img) as [iw ih].
  destruct (truediv tw th) as [ta|]; [|discriminate].
  destruct (truediv iw ih) as [ia|]; [|discriminate].
  cbn [rbind].
  match goal with
  | |- rbind ?c _ = _ -> _ => destruct c as [img'|]; [|discriminate]
  end.
  cbn [rbind]. unfold resize.
  destruct ((tw <? 1) || (th <? 1)); [discriminate|].
  destruct (resizes img' tw th); [|discriminate].
  intros [= <-]. reflexivity.
Qed.

(** C4. Whatever the image and the target, an image that [fit_crop]
    returns measures exactly [(tw, th)]. And it returns as often as the
    library allows: for an image of positive width and height within the
    pixel limit of the library and a positive target size (sizes as PIL
    stores them), the arithmetic of [fit_crop] raises nothing and its
    crop box is one PIL accepts, whatever the two aspect ratios are, so
    that [fit_crop] is the resize of that crop and returns exactly when
    the machine grants that resize. *)
Theorem fit_crop_size {machine : Machine} (img : Image) (tw th : Z) :
  (forall out, fit_crop img tw th = Ok out -> size out = (tw, th))
  /\ (valid_dim (width img) -> valid_dim (height img) ->
      decompression_bomb (size img) = false ->
      valid_dim tw -> valid_dim th ->
      exists b,
        crop img b = Ok (Cropped img b)
        /\ fit_crop img tw th = resize (Cropped img b) tw th
        /\ ((exists out, fit_crop img tw th = Ok out)
            <-> resizes (Cropped img b) tw th = true)).
Proof.
  split; [apply fit_crop_returns_size|].
  intros Hiw Hih _ Htw Hth.
  assert (Hbox : exists b,
             crop img b = Ok (Cropped img b)
             /\ fit_crop img tw th = resize (Cropped img b) tw th).
  { revert Hiw Hih. unfold width, height, fit_crop.
    destruct (size img) as [iw ih]. simpl fst. simpl snd.
    intros Hiw Hih.
    pose proof (valid_dim_exact _ Hiw) as Hiw'.
    pose proof (valid_dim_exact _ Hih) as Hih'.
    destruct (truediv_pos_finite tw th (valid_dim_exact _ Htw)
                (valid_dim_exact _ Hth)) as (ta & -> & Hta).
    destruct (truediv_pos_finite iw ih Hiw' Hih') as (ia & -> & Hia).
    simpl rbind.
    destruct (gt ia ta).
    - destruct (mul_int_pos_finite ta ih Hta Hih') as (x & -> & Hx).
      simpl rbind.
      destruct (to_int_pos_finite _ _ x Hx) as (new_width & -> & Hnw).
      simpl rbind.
      exists ((iw - new_width) / 2, 0, iw - (iw - new_width) / 2, ih).
      unfold crop.
      rewrite (symmetric_box iw new_width Hnw).
      assert (Hh : (ih <? 0) = false) by (apply Z.ltb_ge; lia).
      rewrite Hh. simpl rbind. split; reflexivity.
    - destruct (int_div_pos_finite iw ta Hiw' Hta) as (x & -> & Hx).
      simpl rbind.
      destruct (to_int_pos_finite _ _ x Hx) as (new_height & -> & Hnh).
      simpl rbind.
      exists (0, (ih - new_height) / 2, iw, ih - (ih - new_height) / 2).
      unfold crop.
      assert (Hw : (iw <? 0) = false) by (apply Z.ltb_ge; lia).
      rewrite Hw, (symmetric_box ih new_height Hnh).
      simpl rbind. split; reflexivity. }
  destruct Hbox as (b & Hcrop & Hfit).
  exists b. split; [exact Hcrop|]. split; [exact Hfit|].
  assert (Hpos : (tw <? 1) || (th <? 1) = false).
  { unfold valid_dim in Htw, Hth. apply orb_false_iff.
    split; apply Z.ltb_ge; lia. }
  rewrite Hfit. unfold resize. rewrite Hpos.
  destruct (resizes (Cropped img b) tw th).
  - split; [reflexivity|eauto].
  - split; [intros [out Hout]; discriminate|discriminate].
Qed.

Lemma fit_crop_size_witness :
  (forall out,
     fit_crop (machine := Samples.machine) (Decoded "photo" 800 600) 164 233
     = Ok out ->
     size out = (164, 233))
  /\ exists b,
       crop (Decoded "photo" 800 600) b
       = Ok (Cropped (Decoded "photo" 800 600) b)
       /\ fit_crop (machine := Samples.machine) (Decoded "photo" 800 600)
            164 233
          = resize (machine := Samples.machine)
              (Cropped (Decoded "photo" 800 600) b) 164 233
       /\ ((exists out,
              fit_crop (machine := Samples.machine) (Decoded "photo" 800 600)
                164 233 = Ok out)
           <-> resizes (Machine := Samples.machine)
                 (Cropped (Decoded "photo" 800 600) b) 164 233 = true).
Proof.
  destruct (fit_crop_size (machine := Samples.machine)
              (Decoded "photo" 800 600) 164 233) as [Hsize Hruns].
  split; [exact Hsize|].
  apply Hruns;
    first [reflexivity | unfold valid_dim, width, height; simpl; lia].
Defined.

(** *** Pools *)

Lemma length_list_mul {A : Type} (l : list A) (n : nat) :
  length (concat (replicate n l)) = (n * length l)%nat.
Proof.
  induction n as [|n IH]; simpl; [reflexivity|].
  rewrite length_app, IH. reflexivity.
Qed.

Lemma len_list_mul {A : Type} (l : list A) (k : Z) :
  0 <= k -> Py.len (Py.list_mul l k) = k * Py.len l.
Proof.
  intros Hk. unfold Py.len, Py.list_mul.
  rewrite length_list_mul. lia.
Qed.

Lemma elem_of_list_mul {A : Type} (l : list A) (k : Z) (x : A) :
  x ∈ Py.list_mul l k -> x ∈ l.
Proof.
  unfold Py.list_mul. induction (Z.to_nat k) as [|n IH]; simpl.
  - intros H. inversion H.
  - rewrite elem_of_app. intros [H|H]; auto.
Qed.

Lemma elem_of_slice_to {A : Type} (l : list A) (n : Z) (x : A) :
  x ∈ Py.slice_to l n -> x ∈ l.
Proof.
  unfold Py.slice_to. destruct (0 <=? n); apply subseteq_take.
Qed.

Lemma len_expanded_pool {A : Type} (pool : list A) (n : Z) :
  1 <= Py.len pool -> 0 <= n ->
  n <= Py.len (Py.list_mul pool (n / Py.len pool + 1)).
Proof.
  intros Hpool Hn.
  assert (Hq : 0 <= n / Py.len pool) by (apply Z.div_pos; lia).
  rewrite len_list_mul by lia.
  pose proof (Z.mul_succ_div_gt n (Py.len pool) ltac:(lia)). lia.
Qed.

Lemma len_to_place (pool : list string) (n : Z) :
  1 <= Py.len pool -> 0 <= n -> Py.len (to_place pool n) = n.
Proof.
  intros Hpool Hn. pose proof (len_expanded_pool pool n Hpool Hn) as Hlen.
  unfold to_place, Py.slice_to.
  assert (H0 : (0 <=? n) = true) by (apply Z.leb_le; lia).
  rewrite H0. unfold Py.len in *. rewrite length_take. lia.
Qed.

(** C6. For every pool with at least one entry and every slot count
    [n >= 0], the pool repeated [n // len(pool) + 1] times has at least
    [n] entries, and its first [n] entries are exactly [n] entries. *)
Theorem pool_expansion_covers (pool : list string) (n : Z) :
  1 <= Py.len pool -> 0 <= n ->
  n <= Py.len (Py.list_mul pool (n / Py.len pool + 1))
  /\ Py.len (to_place pool n) = n.
Proof.
  intros Hpool Hn. split.
  - apply len_expanded_pool; assumption.
  - apply len_to_place; assumption.
Qed.

Lemma pool_expansion_covers_witness :
  14 <= Py.len (Py.list_mul ["a.jpg"; "b.jpg"; "c.jpg"] (14 / 3 + 1))
  /\ Py.len (to_place ["a.jpg"; "b.jpg"; "c.jpg"] 14) = 14.
Proof.
  apply (pool_expansion_covers ["a.jpg"; "b.jpg"; "c.jpg"] 14);
    unfold Py.len; simpl; lia.
Defined.

Lemma elem_of_to_place (pool : list string) (n : Z) (x : string) :
  x ∈ to_place pool n -> x ∈ pool.
Proof.
  unfold to_place. intros H.
  eapply elem_of_list_mul, elem_of_slice_to, H.
Qed.

(** *** The grid *)

Lemma getitem_in_range {A : Type} (l : list A) (i : Z) :
  0 <= i < Py.len l -> exists x, Py.getitem l i = Ok x /\ x ∈ l.
Proof.
  intros Hi. unfold Py.getitem.
  assert (H0 : (i <? 0) = false) by (apply Z.ltb_ge; lia).
  assert (H1 : (Py.len l <=? i) = false) by (apply Z.leb_gt; lia).
  cbv zeta. rewrite H0. cbv iota. rewrite H0, H1. simpl.
  destruct (lookup_lt_is_Some_2 l (Z.to_nat i)) as [x Hx].
  { unfold Py.len in Hi. lia. }
  rewrite Hx. exists x. split; [reflexivity|].
  eapply list_elem_of_lookup_2, Hx.
Qed.

Lemma n_center_nonneg todo : 0 <= n_center todo.
Proof. unfold n_center, Py.len. lia. Qed.

Lemma n_outer_nonneg todo : 0 <= n_outer todo.
Proof. unfold n_outer, Py.len. lia. Qed.

Lemma n_center_cons r c todo :
  n_center ((r, c) :: todo)
  = (if in_center r c then 1 else 0) + n_center todo.
Proof.
  unfold n_center, Py.len. simpl. destruct (in_center r c); simpl; lia.
Qed.

Lemma n_outer_cons r c todo :
  n_outer ((r, c) :: todo)
  = (if in_center r c then 0 else 1) + n_outer todo.
Proof.
  unfold n_outer, Py.len. simpl. destruct (in_center r c); simpl; lia.
Qed.

(** The loop never runs off either list while enough entries are left
    for the cells of each kind still to come; it visits the cells in
    order and binds one path at each. *)
Lemma fill_grid_ok {machine : Machine} files style F O :
  forall todo fav_idx other_idx base,
    0 <= fav_idx -> 0 <= other_idx ->
    fav_idx + n_center todo <= Py.len F ->
    other_idx + n_outer todo <= Py.len O ->
    exists ps final,
      fill_grid files style F O todo fav_idx other_idx base = Ok (ps, final)
      /\ cell <$> ps = todo
      /\ Forall (placed_from F O) ps.
Proof.
  induction todo as [|[r c] todo IH]; intros fi oi base Hfi Hoi HF HO.
  - exists [], base. simpl. auto.
  - rewrite n_center_cons in HF. rewrite n_outer_cons in HO.
    pose proof (n_center_nonneg todo). pose proof (n_outer_nonneg todo).
    simpl fill_grid. destruct (in_center r c) eqn:Hc.
    + destruct (getitem_in_range F fi ltac:(lia)) as (path & -> & Hin).
      simpl rbind.
      destruct (IH (fi + 1) oi
                  (paste_tile files style r c path base)
                  ltac:(lia) ltac:(lia) ltac:(lia) ltac:(lia))
        as (ps & final & -> & Hcells & Hall).
      simpl rbind. eexists _, _. split; [reflexivity|].
      split; [cbn [fst snd]; rewrite fmap_cons, Hcells; reflexivity|].
      cbn [fst snd]. constructor; [|exact Hall].
      unfold placed_from; simpl. rewrite Hc. auto.
    + destruct (getitem_in_range O oi ltac:(lia)) as (path & -> & Hin).
      simpl rbind.
      destruct (IH fi (oi + 1)
                  (paste_tile files style r c path base)
                  ltac:(lia) ltac:(lia) ltac:(lia) ltac:(lia))
        as (ps & final & -> & Hcells & Hall).
      simpl rbind. eexists _, _. split; [reflexivity|].
      split; [cbn [fst snd]; rewrite fmap_cons, Hcells; reflexivity|].
      cbn [fst snd]. constructor; [|exact Hall].
      unfold placed_from; simpl. rewrite Hc. auto.
Qed.

Lemma cells_NoDup : NoDup cells.
Proof. apply (bool_decide_unpack (NoDup cells)). vm_compute. exact I. Qed.

Lemma elem_of_cells r c :
  0 <= r < total_rows -> 0 <= c < total_cols -> (r, c) ∈ cells.
Proof.
  intros Hr Hc. unfold cells. apply list_elem_of_In, in_flat_map.
  exists r. split.
  - apply list_elem_of_In, elem_of_seqZ. lia.
  - apply in_map, list_elem_of_In, elem_of_seqZ. lia.
Qed.

Lemma in_center_spec r c :
  in_center r c = true <-> (2 <= r <= 3 /\ 4 <= c <= 10).
Proof.
  unfold in_center. change start_row with 2. change end_row with 4.
  change start_col with 4. change end_col with 11.
  rewrite !andb_true_iff, !Z.leb_le, !Z.ltb_lt. lia.
Qed.

Lemma cells_counts : n_center cells = 14 /\ n_outer cells = 76.
Proof. split; vm_compute; reflexivity. Qed.

Section grid.

Context {machine : Machine}.
Variable rng : Type.
Variable shuffle : rng -> list string -> list string * rng.
Hypothesis shuffle_permutes : forall g l, fst (shuffle g l) ≡ₚ l.

Lemma shuffled_pool g pool n :
  1 <= Py.len pool -> 0 <= n ->
  Py.len (fst (shuffle g (to_place pool n))) = n
  /\ forall x, x ∈ fst (shuffle g (to_place pool n)) -> x ∈ pool.
Proof.
  intros Hpool Hn. pose proof (shuffle_permutes g (to_place pool n)) as Hp.
  split.
  - unfold Py.len. rewrite (Permutation_length Hp).
    apply (len_to_place pool n Hpool Hn).
  - intros x Hx. rewrite Hp in Hx. eapply elem_of_to_place, Hx.
Qed.

(** C2. With both pools non-empty the grid is filled, and for every
    cell (r, c) of the 15 x 6 layout exactly one iteration binds an
    image to it; that image is read from the favourites list if and
    only if 2 <= r <= 3 and 4 <= c <= 10, and otherwise from the list
    of the other photos; either way it is an entry of that pool. *)
Theorem grid_assignment files names all_imgs style g :
  favs_of names <> [] ->
  others_of (favs_of names) all_imgs <> [] ->
  exists ps base g',
    make_banner rng shuffle files (Some names) all_imgs style g
    = Ok (ps, base, g')
    /\ forall r c, 0 <= r < 6 -> 0 <= c < 15 ->
       exists i p,
         ps !! i = Some p /\ cell p = (r, c)
         /\ (forall j p', ps !! j = Some p' -> cell p' = (r, c) -> j = i)
         /\ (source p = Favs <-> (2 <= r <= 3 /\ 4 <= c <= 10))
         /\ (source p = Favs -> img_path p ∈ favs_of names)
         /\ (source p = Others ->
             img_path p ∈ others_of (favs_of names) all_imgs).
Proof.
  intros Hfavs Hothers. unfold make_banner.
  set (favs := favs_of names) in *.
  set (others := others_of favs all_imgs) in *.
  assert (HlenF : 1 <= Py.len favs).
  { destruct favs; [congruence|]. unfold Py.len. simpl. lia. }
  assert (HlenO : 1 <= Py.len others).
  { destruct others; [congruence|]. unfold Py.len. simpl. lia. }
  destruct (shuffled_pool g favs center_slots HlenF ltac:(vm_compute; congruence))
    as [HF HFin].
  destruct (shuffle g (to_place favs center_slots)) as [F g1] eqn:HsF.
  destruct (shuffled_pool g1 others outer_slots HlenO ltac:(vm_compute; congruence))
    as [HO HOin].
  destruct (shuffle g1 (to_place others outer_slots)) as [O g2] eqn:HsO.
  simpl fst in *.
  destruct cells_counts as [Hnc Hno].
  destruct (fill_grid_ok files style F O cells 0 0 []
              ltac:(lia) ltac:(lia)
              ltac:(rewrite Hnc, HF; vm_compute; congruence)
              ltac:(rewrite Hno, HO; vm_compute; congruence))
    as (ps & final & Hfill & Hcells & Hall).
  exists ps, final, g2. split.
  { destruct favs; [congruence|]. destruct others; [congruence|].
    rewrite Hfill. reflexivity. }
  intros r c Hr Hc.
  destruct (list_elem_of_lookup_1 _ _ (elem_of_cells r c Hr Hc)) as [i Hi].
  rewrite <- Hcells, list_lookup_fmap in Hi.
  destruct (ps !! i) as [p|] eqn:Hp; [|discriminate].
  simpl in Hi. injection Hi as Hcell.
  exists i, p. split; [exact Hp|]. split; [exact Hcell|].
  split.
  { intros j p' Hj Hcell'.
    apply (NoDup_lookup cells j i (r, c) cells_NoDup).
    - rewrite <- Hcells, list_lookup_fmap, Hj. simpl. congruence.
    - rewrite <- Hcells, list_lookup_fmap, Hp. simpl. congruence. }
  pose proof (proj1 (Forall_lookup _ _) Hall i p Hp) as [Hsrc Hpath].
  rewrite Hcell in Hsrc. simpl in Hsrc.
  pose proof (in_center_spec r c) as Hspec.
  destruct (in_center r c).
  - rewrite Hsrc in Hpath |- *. split; [|split].
    + split; [intros _; apply Hspec; reflexivity | reflexivity].
    + intros _. apply HFin, Hpath.
    + discriminate.
  - rewrite Hsrc in Hpath |- *. split; [|split].
    + split; [discriminate|]. intros H. apply Hspec in H. discriminate.
    + discriminate.
    + intros _. apply HOin, Hpath.
Qed.

End grid.

Lemma grid_assignment_witness :
  exists ps base g',
    make_banner (machine := Samples.machine) unit
      (fun g l => (reverse l, g)) ∅
      (Some ["a.jpg"; "b.png"]) ["banner_photos_v5/c.jpg"] "cinematic" tt
    = Ok (ps, base, g')
    /\ forall r c, 0 <= r < 6 -> 0 <= c < 15 ->
       exists i p,
         ps !! i = Some p /\ cell p = (r, c)
         /\ (forall j p', ps !! j = Some p' -> cell p' = (r, c) -> j = i)
         /\ (source p = Favs <-> (2 <= r <= 3 /\ 4 <= c <= 10))
         /\ (source p = Favs -> img_path p ∈ favs_of ["a.jpg"; "b.png"])
         /\ (source p = Others ->
             img_path p ∈ others_of (favs_of ["a.jpg"; "b.png"])
                             ["banner_photos_v5/c.jpg"]).
Proof.
  apply (grid_assignment unit (fun g l => (reverse l, g))).
  - intros g l. simpl. apply reverse_Permutation.
  - vm_compute. discriminate.
  - vm_compute. discriminate.
Defined.

End BannerFacts.

(** ** The mockup generator *)

Module MockupFacts.

Import PyFloat PyFloatFacts Mockup.

(** *** Framing *)

Lemma expand_size im border fill out :
  expand im border fill = Ok out ->
  out = Expanded im border fill
  /\ width out = width im + 2 * border
  /\ height out = height im + 2 * border.
Proof.
  unfold expand, width, height.
  destruct (size im) as [w h] eqn:Hs.
  destruct ((border + w + border <? 0) || (border + h + border <? 0));
    [discriminate|].
  intros [= <-]. simpl. rewrite Hs. simpl. repeat split; lia.
Qed.

(** C5. Whenever [add_frame_and_mat] returns a framed image, that image
    is the center-cropped photo expanded twice, by the mat and then by
    the frame, and on each axis it measures the cropped photo plus
    2 * (MAT_THICKNESS + FRAME_THICKNESS) = 260 pixels. *)
Theorem frame_and_mat_size image_path w framed w' :
  add_frame_and_mat image_path w = (Some framed, w') ->
  exists photo cropped matted,
    FS.image_open (files w) image_path = Ok photo
    /\ cropped_photo (convert "RGB" photo) = Ok cropped
    /\ expand cropped MAT_THICKNESS MAT_COLOR = Ok matted
    /\ expand matted FRAME_THICKNESS FRAME_COLOR = Ok framed
    /\ width framed = width cropped + 2 * (MAT_THICKNESS + FRAME_THICKNESS)
    /\ height framed = height cropped + 2 * (MAT_THICKNESS + FRAME_THICKNESS)
    /\ 2 * (MAT_THICKNESS + FRAME_THICKNESS) = 260.
Proof.
  unfold add_frame_and_mat, framed_photo.
  destruct (FS.image_open (files w) image_path) as [photo|] eqn:Hopen;
    simpl rbind; [|discriminate].
  destruct (FS.image_load (files w) image_path) as [[]|];
    simpl rbind; [|discriminate].
  destruct (cropped_photo (convert "RGB" photo)) as [cropped|] eqn:Hcrop;
    simpl rbind; [|discriminate].
  destruct (expand cropped MAT_THICKNESS MAT_COLOR) as [matted|] eqn:Hmat;
    simpl rbind; [|discriminate].
  destruct (expand matted FRAME_THICKNESS FRAME_COLOR) as [out|] eqn:Hframe;
    [|discriminate].
  intros [= <- _].
  destruct (expand_size _ _ _ _ Hmat) as (_ & Hw1 & Hh1).
  destruct (expand_size _ _ _ _ Hframe) as (_ & Hw2 & Hh2).
  exists photo, cropped, matted. repeat split; try assumption; try reflexivity.
  - rewrite Hw2, Hw1. lia.
  - rewrite Hh2, Hh1. lia.
Qed.

Lemma frame_and_mat_size_witness :
  exists photo cropped matted,
    FS.image_open (files (Samples.world Samples.net_429_x3)) "Favs/a.jpg"
    = Ok photo
    /\ cropped_photo (convert "RGB" photo) = Ok cropped
    /\ expand cropped MAT_THICKNESS MAT_COLOR = Ok matted
    /\ expand matted FRAME_THICKNESS FRAME_COLOR = Ok Samples.framed
    /\ width Samples.framed
       = width cropped + 2 * (MAT_THICKNESS + FRAME_THICKNESS)
    /\ height Samples.framed
       = height cropped + 2 * (MAT_THICKNESS + FRAME_THICKNESS)
    /\ 2 * (MAT_THICKNESS + FRAME_THICKNESS) = 260.
Proof.
  apply (frame_and_mat_size "Favs/a.jpg" (Samples.world Samples.net_429_x3)
           Samples.framed
           (log (EvOpen "Favs/a.jpg") (Samples.world Samples.net_429_x3))).
  vm_compute. reflexivity.
Defined.

(** *** Square photos *)





(** *** The generative API client *)

Section client.

Variable API_KEY : string.
Variable b64decode : string -> option string.
Variable image_size : string -> option (Z * Z).

Lemma posts_app t t' : posts (t ++ t') = (posts t + posts t')%nat.
Proof.
  induction t as [|ev t IH]; simpl; [reflexivity|].
  destruct ev; simpl; rewrite IH; reflexivity.
Qed.

Lemma sleeps_app t t' : sleeps (t ++ t') = sleeps t ++ sleeps t'.
Proof.
  induction t as [|ev t IH]; simpl; [reflexivity|].
  destruct ev; simpl; rewrite IH; reflexivity.
Qed.

(** One iteration that meets a rate limit. *)
Lemma attempts_rate_limited left attempt req w response :
  net w (posts (trace w)) = HttpRequestException response ->
  rate_limited response = true ->
  attempts b64decode image_size (S left) attempt req w
  = if attempt <? max_retries - 1
    then attempts b64decode image_size left (attempt + 1) req
           (sleep (RETRY_DELAY * 2 ^ attempt) (log (EvPost req) w))
    else (Ok None, log (EvPost req) w).
Proof.
  intros Hnet Hrl. simpl attempts. unfold post.
  rewrite Hnet, Hrl. reflexivity.
Qed.

Lemma posts_after_retry req d w :
  posts (trace (sleep d (log (EvPost req) w))) = S (posts (trace w)).
Proof. simpl. rewrite !posts_app. simpl. lia. Qed.

(** C10. With an empty API key the client returns [None] at once: the
    world is unchanged, so no request is sent and nothing sleeps. *)
Theorem no_api_key_no_request framed_image scene_prompt scene_name w :
  generate_mockup_with_gemini "" b64decode image_size
    framed_image scene_prompt scene_name w
  = (Ok None, w).
Proof. reflexivity. Qed.

(** C1, amended. When the POST fails with status 429 on each of the
    first three attempts, the client makes exactly those three
    requests, sleeps twice in between, for 5 and then 10 seconds
    (RETRY_DELAY doubled at each attempt), and returns [None] after the
    third failure; a fourth request is never sent. *)
Theorem three_rate_limits_give_up framed_image scene_prompt scene_name w :
  API_KEY <> "" ->
  (forall k, (k < 3)%nat ->
     exists response,
       net w (posts (trace w) + k) = HttpRequestException response
       /\ rate_limited response = true) ->
  exists w',
    generate_mockup_with_gemini API_KEY b64decode image_size
      framed_image scene_prompt scene_name w
    = (Ok None, w')
    /\ files w' = files w
    /\ trace w'
       = trace w
         ++ (let req := {| req_url := api_url API_KEY;
                           req_prompt := scene_prompt;
                           req_image := framed_image |} in
             [EvPost req; EvSleep 5; EvPost req; EvSleep 10; EvPost req]).
Proof.
  intros Hkey Hnet. unfold generate_mockup_with_gemini.
  apply String.eqb_neq in Hkey. rewrite Hkey.
  set (req := {| req_url := api_url API_KEY; req_prompt := scene_prompt;
                 req_image := framed_image |}).
  change (Z.to_nat max_retries) with 3%nat.
  destruct (Hnet 0%nat ltac:(lia)) as (r0 & H0 & Hr0).
  destruct (Hnet 1%nat ltac:(lia)) as (r1 & H1 & Hr1).
  destruct (Hnet 2%nat ltac:(lia)) as (r2 & H2 & Hr2).
  rewrite Nat.add_0_r in H0.
  rewrite (attempts_rate_limited _ _ _ _ r0 H0 Hr0).
  change (0 <? max_retries - 1) with true. cbv iota.
  set (w1 := sleep (RETRY_DELAY * 2 ^ 0) (log (EvPost req) w)).
  assert (Hp1 : posts (trace w1) = (posts (trace w) + 1)%nat).
  { unfold w1. rewrite posts_after_retry. lia. }
  rewrite (attempts_rate_limited _ _ _ w1 r1) by (rewrite ?Hp1; assumption).
  change (0 + 1 <? max_retries - 1) with true. cbv iota.
  set (w2 := sleep (RETRY_DELAY * 2 ^ (0 + 1)) (log (EvPost req) w1)).
  assert (Hp2 : posts (trace w2) = (posts (trace w) + 2)%nat).
  { unfold w2. rewrite posts_after_retry, Hp1. lia. }
  rewrite (attempts_rate_limited _ _ _ w2 r2) by (rewrite ?Hp2; assumption).
  change (0 + 1 + 1 <? max_retries - 1) with false. cbv iota.
  eexists. split; [reflexivity|]. split; [reflexivity|].
  simpl. rewrite <- !app_assoc. reflexivity.
Qed.

End client.

(** C1 as stated, with three retries after 5, 10 and 20 seconds and a
    successful fourth attempt, fails against a client that answers 429
    three times and would answer with an image the fourth time: the
    script sends three requests, sleeps 5 and 10 seconds, and returns
    [None]. *)
Lemma retry_claim_counterexample :
  (forall k, (k < 3)%nat -> Samples.net_429_x3 k = Samples.rate_limit_error)
  /\ Samples.net_429_x3 3 = HttpOk Samples.image_body
  /\ read_result Samples.b64decode Samples.image_size Samples.image_body
     = Ok (Some (Decoded "aW1n" 1024 1024))
  /\ exists w',
       generate_mockup_with_gemini "KEY" Samples.b64decode Samples.image_size
         Samples.framed "prompt" "office" (Samples.world Samples.net_429_x3)
       = (Ok None, w')
       /\ sleeps (trace w') = [5; 10]
       /\ posts (trace w') = 3%nat.
Proof.
  split.
  { intros k Hk. destruct k as [|[|[|k]]]; try reflexivity. lia. }
  split; [reflexivity|]. split; [vm_compute; reflexivity|].
  eexists. split; [vm_compute; reflexivity|].
  split; vm_compute; reflexivity.
Qed.

(** A response object of the requests library tests true only below
    status 400, so the 429 it carries is not seen as a rate limit. *)
Lemma requests_429_not_rate_limited :
  rate_limited (Some (requests_response 429)) = false.
Proof. reflexivity. Qed.

Lemma three_rate_limits_give_up_witness :
  exists w',
    generate_mockup_with_gemini "KEY" Samples.b64decode Samples.image_size
      Samples.framed "prompt" "office" (Samples.world Samples.net_429_x3)
    = (Ok None, w')
    /\ files w' = files (Samples.world Samples.net_429_x3)
    /\ trace w'
       = trace (Samples.world Samples.net_429_x3)
         ++ (let req := {| req_url := api_url "KEY";
                           req_prompt := "prompt";
                           req_image := Samples.framed |} in
             [EvPost req; EvSleep 5; EvPost req; EvSleep 10; EvPost req]).
Proof.
  apply (three_rate_limits_give_up "KEY" Samples.b64decode Samples.image_size).
  - discriminate.
  - intros k Hk. exists (Some {| status_code := 429; truthy := true |}).
    split; [|reflexivity].
    destruct k as [|[|[|k]]]; try reflexivity. lia.
Defined.

(** *** Safety blocks and resumed runs *)

Section pipeline.

Variable API_KEY : string.
Variable b64decode : string -> option string.
Variable image_size : string -> option (Z * Z).

Lemma scenes_loop_cons filename j scene rest framed_art w :
  scenes_loop API_KEY b64decode image_size filename ((j, scene) :: rest)
    framed_art w
  = match scene_body API_KEY b64decode image_size filename j scene
            framed_art w with
    | (Continue framed_art', w') =>
        scenes_loop API_KEY b64decode image_size filename rest framed_art' w'
    | (Break, w') => (Ok tt, w')
    | (Uncaught e, w') => (Raise e, w')
    end.
Proof. reflexivity. Qed.

Lemma read_result_safety body candidate :
  first_candidate body = Some candidate ->
  finish_reason candidate = Some (JStr "SAFETY") ->
  read_result b64decode image_size body = Ok None.
Proof.
  intros Hfirst Hreason. unfold read_result.
  destruct body as [| | | | | |m]; try discriminate.
  simpl in Hfirst. simpl get.
  destruct (assoc "candidates" m) as [[| | | | |[|c l]|]|];
    try discriminate.
  injection Hfirst as ->. simpl rbind.
  destruct candidate as [| | | | | |cm]; try discriminate.
  simpl in Hreason. simpl get. rewrite Hreason. reflexivity.
Qed.

(** C8. When the response to a request has a first candidate whose
    finish reason is SAFETY, the retry loop ends at that request,
    whichever attempt it was, with [None]: nothing is sent or slept
    after it. The scene then ends without a saved file, and the scene
    loop goes on to the next scene with the framed artwork kept. *)
Theorem safety_block_abandons_scene filename j scene_name base_prompt
    framed_art framed w w1 body candidate :
  API_KEY <> "" ->
  FS.exists_ (files w) (save_path filename scene_name) = false ->
  match framed_art with
  | None => add_frame_and_mat (Py.path_join INPUT_FOLDER filename) w
  | Some _ => (framed_art, w)
  end = (Some framed, w1) ->
  net w1 (posts (trace w1)) = HttpOk body ->
  first_candidate body = Some candidate ->
  finish_reason candidate = Some (JStr "SAFETY") ->
  let req := {| req_url := api_url API_KEY; req_prompt := base_prompt;
                req_image := framed |} in
  (forall left attempt,
     attempts b64decode image_size (S left) attempt req w1
     = (Ok None, log (EvPost req) w1))
  /\ generate_mockup_with_gemini API_KEY b64decode image_size
       framed base_prompt scene_name w1
     = (Ok None, log (EvPost req) w1)
  /\ exists w',
       scene_body API_KEY b64decode image_size filename j
         (scene_name, base_prompt) framed_art w
       = (Continue (Some framed), w')
       /\ files w' = files w1
       /\ trace w'
          = trace w1
            ++ EvPost req
               :: (if j <? 4 then [EvSleep DELAY_BETWEEN_SCENES] else [])
       /\ forall rest,
            scenes_loop API_KEY b64decode image_size filename
              ((j, (scene_name, base_prompt)) :: rest) framed_art w
            = scenes_loop API_KEY b64decode image_size filename
                rest (Some framed) w'.
Proof.
  intros Hkey Hmissing Hframed Hnet Hfirst Hreason req.
  assert (Hloop : forall left attempt,
             attempts b64decode image_size (S left) attempt req w1
             = (Ok None, log (EvPost req) w1)).
  { intros left attempt. simpl attempts. unfold post.
    rewrite Hnet, (read_result_safety body candidate Hfirst Hreason).
    reflexivity. }
  assert (Hgen : generate_mockup_with_gemini API_KEY b64decode image_size
                   framed base_prompt scene_name w1
                 = (Ok None, log (EvPost req) w1)).
  { unfold generate_mockup_with_gemini.
    apply String.eqb_neq in Hkey. rewrite Hkey.
    change (Z.to_nat max_retries) with 3%nat. apply Hloop. }
  split; [exact Hloop|]. split; [exact Hgen|].
  assert (Hbody : exists w',
             scene_body API_KEY b64decode image_size filename j
               (scene_name, base_prompt) framed_art w
             = (Continue (Some framed), w')
             /\ files w' = files w1
             /\ trace w'
                = trace w1
                  ++ EvPost req
                     :: (if j <? 4 then [EvSleep DELAY_BETWEEN_SCENES] else [])).
  { unfold scene_body. rewrite Hmissing, Hframed, Hgen.
    change (Py.len BASE_SCENE_PROMPTS - 1) with 4.
    destruct (j <? 4); eexists; (split; [reflexivity|]);
      (split; [reflexivity|]); simpl; rewrite <- ?app_assoc; reflexivity. }
  destruct Hbody as (w' & Hstep & Hfiles & Htrace).
  exists w'. repeat split; try assumption.
  intros rest. rewrite scenes_loop_cons, Hstep. reflexivity.
Qed.

(** C3. When the output file of a (photo, scene) pair exists as its
    iteration starts, the iteration changes nothing: the world after it
    is the world before it, with the same trace (no image opened for
    framing, no request sent) and the same files, and the loop goes on
    to the next scene. *)
Theorem existing_mockup_skipped filename j scene_name base_prompt
    framed_art w :
  is_Some (files w !! save_path filename scene_name) ->
  scene_body API_KEY b64decode image_size filename j
    (scene_name, base_prompt) framed_art w
  = (Continue framed_art, w)
  /\ forall rest,
       scenes_loop API_KEY b64decode image_size filename
         ((j, (scene_name, base_prompt)) :: rest) framed_art w
       = scenes_loop API_KEY b64decode image_size filename rest framed_art w.
Proof.
  intros Hexists.
  assert (Hstep : scene_body API_KEY b64decode image_size filename j
                    (scene_name, base_prompt) framed_art w
                  = (Continue framed_art, w)).
  { unfold scene_body, FS.exists_.
    rewrite (bool_decide_eq_true_2 _ Hexists). reflexivity. }
  split; [exact Hstep|].
  intros rest. rewrite scenes_loop_cons, Hstep. reflexivity.
Qed.

(** *** Whole runs *)

(** The retry loop sends at most as many requests as iterations remain,
    and touches no file. *)
Lemma attempts_effects left :
  forall attempt req w,
    exists evs,
      trace (snd (attempts b64decode image_size left attempt req w))
      = trace w ++ evs
      /\ (posts evs <= left)%nat
      /\ files (snd (attempts b64decode image_size left attempt req w))
         = files w.
Proof.
  induction left as [|left IH]; intros attempt req w.
  - exists []. simpl. rewrite app_nil_r. auto.
  - simpl attempts. unfold post.
    destruct (net w (posts (trace w))) as [body|response].
    + exists [EvPost req]. simpl. split; [reflexivity|]. split; [lia|reflexivity].
    + destruct (rate_limited response);
        [destruct (attempt <? max_retries - 1)|].
      * destruct (IH (attempt + 1) req
                    (sleep (RETRY_DELAY * 2 ^ attempt) (log (EvPost req) w)))
          as (evs & Htrace & Hposts & Hfiles).
        exists (EvPost req :: EvSleep (RETRY_DELAY * 2 ^ attempt) :: evs).
        rewrite Htrace, Hfiles. simpl.
        rewrite <- !app_assoc. simpl. split; [reflexivity|].
        split; [lia|reflexivity].
      * exists [EvPost req]. simpl. split; [reflexivity|].
        split; [lia|reflexivity].
      * exists [EvPost req]. simpl. split; [reflexivity|].
        split; [lia|reflexivity].
Qed.

(** One call of the client sends at most three requests. *)
Lemma generate_effects framed_image scene_prompt scene_name w :
  exists evs,
    trace (snd (generate_mockup_with_gemini API_KEY b64decode image_size
                  framed_image scene_prompt scene_name w))
    = trace w ++ evs
    /\ (posts evs <= 3)%nat
    /\ files (snd (generate_mockup_with_gemini API_KEY b64decode image_size
                     framed_image scene_prompt scene_name w))
       = files w.
Proof.
  unfold generate_mockup_with_gemini.
  destruct (String.eqb API_KEY "").
  - exists []. simpl. rewrite app_nil_r. split; [reflexivity|].
    split; [lia|reflexivity].
  - change (Z.to_nat max_retries) with 3%nat. apply attempts_effects.
Qed.

Lemma add_frame_and_mat_files image_path w :
  files (snd (add_frame_and_mat image_path w)) = files w.
Proof.
  unfold add_frame_and_mat.
  destruct (photo <- FS.image_open (files w) image_path ;;
            _ <- FS.image_load (files w) image_path ;;
            cropped <- cropped_photo (convert "RGB" photo) ;;
            framed_photo cropped); reflexivity.
Qed.

(** An iteration of the scene loop only ever adds a file, at a path that
    was free. *)
Lemma scene_body_files filename j scene framed_art w :
  files w
  ⊆ files (snd (scene_body API_KEY b64decode image_size filename j scene
                  framed_art w)).
Proof.
  unfold scene_body. destruct scene as [scene_name base_prompt].
  unfold FS.exists_.
  destruct (bool_decide (is_Some (files w !! save_path filename scene_name)))
    eqn:Hex; [reflexivity|].
  apply bool_decide_eq_false_1 in Hex.
  assert (Hnone : files w !! save_path filename scene_name = None).
  { destruct (files w !! save_path filename scene_name) eqn:E; [|reflexivity].
    exfalso. apply Hex. eauto. }
  assert (Hframe : exists fa1 w1,
             match framed_art with
             | None => add_frame_and_mat (Py.path_join INPUT_FOLDER filename) w
             | Some _ => (framed_art, w)
             end = (fa1, w1) /\ files w1 = files w).
  { destruct framed_art.
    - eexists _, _. split; reflexivity.
    - pose proof (add_frame_and_mat_files (Py.path_join INPUT_FOLDER filename) w)
        as Hf.
      destruct (add_frame_and_mat (Py.path_join INPUT_FOLDER filename) w)
        as [fa1 w1].
      eexists _, _. split; [reflexivity|exact Hf]. }
  destruct Hframe as (fa1 & w1 & -> & Hw1).
  destruct fa1 as [framed|]; [|simpl; rewrite Hw1; reflexivity].
  destruct (generate_effects framed base_prompt scene_name w1)
    as (evs & _ & _ & Hw2).
  destruct (generate_mockup_with_gemini API_KEY b64decode image_size framed
              base_prompt scene_name w1) as [r w2].
  simpl in Hw2. rewrite Hw1 in Hw2.
  destruct r as [mockup_image|e]; [|simpl; rewrite Hw2; reflexivity].
  destruct mockup_image as [im|];
    destruct (j <? Py.len BASE_SCENE_PROMPTS - 1); simpl; rewrite Hw2;
    try reflexivity; apply insert_subseteq, Hnone.
Qed.

Lemma scenes_loop_files filename items :
  forall framed_art w,
    files w
    ⊆ files (snd (scenes_loop API_KEY b64decode image_size filename items
                    framed_art w)).
Proof.
  induction items as [|[j scene] rest IH]; intros framed_art w;
    [reflexivity|].
  rewrite scenes_loop_cons.
  pose proof (scene_body_files filename j scene framed_art w) as Hstep.
  destruct (scene_body API_KEY b64decode image_size filename j scene
              framed_art w) as [[fa'| |e] w']; simpl in Hstep |- *;
    try exact Hstep.
  etransitivity; [exact Hstep|apply IH].
Qed.

Lemma photos_loop_cons i filename rest total w :
  photos_loop API_KEY b64decode image_size ((i, filename) :: rest) total w
  = match scenes_loop API_KEY b64decode image_size filename
            (Py.enumerate BASE_SCENE_PROMPTS) None w with
    | (Raise e, w') => (Raise e, w')
    | (Ok _, w') =>
        photos_loop API_KEY b64decode image_size rest total
          (if i <? total - 1 then sleep DELAY_BETWEEN_PHOTOS w' else w')
    end.
Proof. reflexivity. Qed.

Lemma photos_loop_files items total :
  forall w,
    files w
    ⊆ files (snd (photos_loop API_KEY b64decode image_size items total w)).
Proof.
  induction items as [|[i filename] rest IH]; intros w; [reflexivity|].
  rewrite photos_loop_cons.
  pose proof (scenes_loop_files filename (Py.enumerate BASE_SCENE_PROMPTS)
                None w) as Hscenes.
  destruct (scenes_loop API_KEY b64decode image_size filename
              (Py.enumerate BASE_SCENE_PROMPTS) None w) as [[u|e] w'];
    simpl in Hscenes |- *; [|exact Hscenes].
  etransitivity; [exact Hscenes|].
  etransitivity; [|apply IH].
  destruct (i <? total - 1); reflexivity.
Qed.

Lemma makedirs_files w w1 : makedirs w = Ok w1 -> files w ⊆ files w1.
Proof.
  unfold makedirs.
  destruct (files w !! OUTPUT_FOLDER) as [[| | |]|] eqn:Hout;
    try discriminate; intros [= <-]; [reflexivity|].
  apply insert_subseteq, Hout.
Qed.

(** X10. Over a whole run of [main], every file that exists when the run
    starts, a mockup saved by an earlier run included, is still there with
    the same content when it ends. *)
Lemma main_keeps_files w path file :
  files w !! path = Some file ->
  files (snd (main API_KEY b64decode image_size w)) !! path = Some file.
Proof.
  intros Hfile. eapply lookup_weaken; [exact Hfile|].
  unfold main. destruct (negb (FS.exists_ (files w) INPUT_FOLDER));
    [reflexivity|].
  destruct (makedirs w) as [w1|e] eqn:Hmk; [|reflexivity].
  apply makedirs_files in Hmk.
  destruct (listing w1) as [names|]; [|exact Hmk].
  destruct (List.filter is_photo names) as [|f fs]; [exact Hmk|].
  etransitivity; [exact Hmk|]. apply photos_loop_files.
Qed.

End pipeline.

Lemma safety_block_abandons_scene_witness :
  let w := Samples.world (fun _ => HttpOk Samples.safety_body) in
  let req := {| req_url := api_url "KEY"; req_prompt := "prompt";
                req_image := Samples.framed |} in
  (forall left attempt,
     attempts Samples.b64decode Samples.image_size (S left) attempt req w
     = (Ok None, log (EvPost req) w))
  /\ generate_mockup_with_gemini "KEY" Samples.b64decode Samples.image_size
       Samples.framed "prompt" "bedroom" w
     = (Ok None, log (EvPost req) w)
  /\ exists w',
       scene_body "KEY" Samples.b64decode Samples.image_size "a.jpg" 3
         ("bedroom", "prompt") (Some Samples.framed) w
       = (Continue (Some Samples.framed), w')
       /\ files w' = files w
       /\ trace w'
          = trace w
            ++ EvPost req
               :: (if 3 <? 4 then [EvSleep DELAY_BETWEEN_SCENES] else [])
       /\ forall rest,
            scenes_loop "KEY" Samples.b64decode Samples.image_size "a.jpg"
              ((3, ("bedroom", "prompt")) :: rest) (Some Samples.framed) w
            = scenes_loop "KEY" Samples.b64decode Samples.image_size "a.jpg"
                rest (Some Samples.framed) w'.
Proof.
  apply (safety_block_abandons_scene "KEY" Samples.b64decode Samples.image_size
           "a.jpg" 3 "bedroom" "prompt" (Some Samples.framed) Samples.framed
           (Samples.world (fun _ => HttpOk Samples.safety_body))
           (Samples.world (fun _ => HttpOk Samples.safety_body))
           Samples.safety_body
           (JObj [("finishReason", JStr "SAFETY")])).
  - discriminate.
  - vm_compute. reflexivity.
  - reflexivity.
  - reflexivity.
  - reflexivity.
  - reflexivity.
Defined.

Lemma existing_mockup_skipped_witness :
  let w := Samples.resumed_world (fun _ => HttpOk Samples.image_body) in
  scene_body "KEY" Samples.b64decode Samples.image_size "a.jpg" 4
    ("office", "prompt") None w
  = (Continue None, w)
  /\ forall rest,
       scenes_loop "KEY" Samples.b64decode Samples.image_size "a.jpg"
         ((4, ("office", "prompt")) :: rest) None w
       = scenes_loop "KEY" Samples.b64decode Samples.image_size "a.jpg"
           rest None w.
Proof.
  apply (existing_mockup_skipped "KEY" Samples.b64decode Samples.image_size
           "a.jpg" 4 "office" "prompt" None
           (Samples.resumed_world (fun _ => HttpOk Samples.image_body))).
  vm_compute. eexists. reflexivity.
Defined.

End MockupFacts.

(** ** The generative API client, all the ways a call can go *)

Module ClientFacts.

Import Mockup Effects.

Section client.

Variable API_KEY : string.
Variable b64decode : string -> option string.
Variable image_size : string -> option (Z * Z).

Lemma posts_backoff req attempt k : posts (backoff req attempt k) = k.
Proof.
  revert attempt. induction k as [|k IH]; intros attempt; simpl;
    [reflexivity|]. rewrite IH. reflexivity.
Qed.

Lemma extend_extend w evs evs' :
  extend (extend w evs) evs' = extend w (evs ++ evs').
Proof. unfold extend. simpl. rewrite <- app_assoc. reflexivity. Qed.

Lemma extend_nil w : extend w [] = w.
Proof. unfold extend. rewrite app_nil_r. destruct w; reflexivity. Qed.

(** [k] rate limits in a row, while the attempt number stays below the
    last one, are [k] turns of the loop. *)
Lemma attempts_backoff req k :
  forall left attempt w,
    attempt + Z.of_nat k <= max_retries - 1 ->
    (forall i, (i < k)%nat ->
       exists response,
         net w (posts (trace w) + i) = HttpRequestException response
         /\ rate_limited response = true) ->
    attempts b64decode image_size (k + left) attempt req w
    = attempts b64decode image_size left (attempt + Z.of_nat k) req
        (extend w (backoff req attempt k)).
Proof.
  induction k as [|k IH]; intros left attempt w Hlast Hnet.
  - simpl. rewrite Z.add_0_r, extend_nil. reflexivity.
  - destruct (Hnet 0%nat ltac:(lia)) as (response & H0 & Hrl).
    rewrite Nat.add_0_r in H0.
    change (S k + left)%nat with (S (k + left)).
    rewrite (MockupFacts.attempts_rate_limited b64decode image_size
               _ _ _ _ response H0 Hrl).
    assert (Hlt : (attempt <? max_retries - 1) = true)
      by (apply Z.ltb_lt; lia).
    rewrite Hlt.
    rewrite IH.
    + f_equal; [lia|]. unfold sleep, log, extend. simpl.
      rewrite <- !app_assoc. reflexivity.
    + lia.
    + intros i Hi. destruct (Hnet (S i) ltac:(lia)) as (r & Hr & Hrl').
      exists r. split; [|exact Hrl'].
      rewrite MockupFacts.posts_after_retry.
      replace (S (posts (trace w)) + i)%nat with (posts (trace w) + S i)%nat
        by lia.
      exact Hr.
Qed.

Lemma generate_attempts framed_image scene_prompt scene_name w :
  API_KEY <> "" ->
  generate_mockup_with_gemini API_KEY b64decode image_size
    framed_image scene_prompt scene_name w
  = attempts b64decode image_size 3 0
      (request API_KEY framed_image scene_prompt) w.
Proof.
  intros Hkey. unfold generate_mockup_with_gemini.
  apply String.eqb_neq in Hkey. rewrite Hkey. reflexivity.
Qed.

(** X1. A failed request that is not seen as a rate limit ends the call:
    whether the exception carries no response, a response that tests
    false (even with status 429), or a status other than 429, the client
    has sent that one request, has not slept, and returns [None]. *)
Theorem unrecognised_failure_is_terminal
    framed_image scene_prompt scene_name w response :
  API_KEY <> "" ->
  net w (posts (trace w)) = HttpRequestException response ->
  (response = None
   \/ exists r, response = Some r
                /\ (truthy r = false \/ status_code r <> 429)) ->
  generate_mockup_with_gemini API_KEY b64decode image_size
    framed_image scene_prompt scene_name w
  = (Ok None,
     extend w [EvPost (request API_KEY framed_image scene_prompt)]).
Proof.
  intros Hkey Hnet Hresp.
  assert (Hrl : rate_limited response = false).
  { destruct Hresp as [->|(r & -> & [Hfalse|Hstatus])]; simpl.
    - reflexivity.
    - rewrite Hfalse. reflexivity.
    - apply Z.eqb_neq in Hstatus. rewrite Hstatus. apply andb_false_r. }
  rewrite generate_attempts by assumption.
  simpl attempts. unfold post. rewrite Hnet, Hrl. reflexivity.
Qed.

(** X2. After [k] rate limits in a row, [k] at most 2, an answer that
    decodes is read like a first answer: the call returns what the
    response holds, having sent [k + 1] requests and slept
    [RETRY_DELAY * 2 ^ i] seconds after the request number [i], for each
    [i < k]. *)
Theorem retry_then_answer framed_image scene_prompt scene_name w k body :
  API_KEY <> "" ->
  (k <= 2)%nat ->
  (forall i, (i < k)%nat ->
     exists response,
       net w (posts (trace w) + i) = HttpRequestException response
       /\ rate_limited response = true) ->
  net w (posts (trace w) + k) = HttpOk body ->
  generate_mockup_with_gemini API_KEY b64decode image_size
    framed_image scene_prompt scene_name w
  = (read_result b64decode image_size body,
     extend w (backoff (request API_KEY framed_image scene_prompt) 0 k
               ++ [EvPost (request API_KEY framed_image scene_prompt)])).
Proof.
  intros Hkey Hk Hnet Hbody.
  rewrite generate_attempts by assumption.
  set (req := request API_KEY framed_image scene_prompt).
  replace 3%nat with (k + S (2 - k))%nat by lia.
  rewrite (attempts_backoff req k (S (2 - k)) 0 w)
    by (try assumption; unfold max_retries; lia).
  simpl attempts. unfold post. simpl trace.
  rewrite MockupFacts.posts_app, posts_backoff, Hbody.
  unfold log. rewrite <- extend_extend. reflexivity.
Qed.

(** What a call leaves in the trace: some rate-limited attempts, then at
    most the request that ended the call. *)
Lemma attempts_shape req left :
  forall attempt w,
    0 <= attempt ->
    exists k tail,
      snd (attempts b64decode image_size left attempt req w)
      = extend w (backoff req attempt k ++ tail)
      /\ (tail = [] \/ tail = [EvPost req])
      /\ (k + length tail <= left)%nat
      /\ (k = 0%nat \/ attempt + Z.of_nat k <= max_retries - 1).
Proof.
  induction left as [|left IH]; intros attempt w Hattempt.
  - exists 0%nat, []. simpl. rewrite extend_nil. auto.
  - simpl attempts. unfold post.
    assert (Hend : forall r : result (option Image),
               exists k tail,
                 snd (r, log (EvPost req) w)
                 = extend w (backoff req attempt k ++ tail)
                 /\ (tail = [] \/ tail = [EvPost req])
                 /\ (k + length tail <= S left)%nat
                 /\ (k = 0%nat \/ attempt + Z.of_nat k <= max_retries - 1)).
    { intros r. exists 0%nat, [EvPost req]. simpl.
      split; [reflexivity|]. split; [auto|]. split; [lia|auto]. }
    destruct (net w (posts (trace w))) as [body|response]; [apply Hend|].
    destruct (rate_limited response); [|apply Hend].
    destruct (attempt <? max_retries - 1) eqn:Hlt; [|apply Hend].
    apply Z.ltb_lt in Hlt.
    destruct (IH (attempt + 1)
                (sleep (RETRY_DELAY * 2 ^ attempt) (log (EvPost req) w))
                ltac:(lia)) as (k & tail & Heq & Htail & Hlen & Hk).
    exists (S k), tail. rewrite Heq.
    split.
    { unfold sleep, log, extend. simpl. rewrite <- !app_assoc. reflexivity. }
    split; [exact Htail|]. split; [lia|]. right. lia.
Qed.

(** X3. Whatever the server answers, one call of the client leaves in the
    trace at most two rate-limited attempts, each a request followed by a
    sleep of 5 and then 10 seconds, and then at most one more request: it
    never sends a fourth request, never sleeps 20 seconds, and never
    touches a file. *)
Theorem client_trace_shape framed_image scene_prompt scene_name w :
  exists k tail,
    snd (generate_mockup_with_gemini API_KEY b64decode image_size
           framed_image scene_prompt scene_name w)
    = extend w (backoff (request API_KEY framed_image scene_prompt) 0 k ++ tail)
    /\ (k <= 2)%nat
    /\ (tail = [] \/ tail = [EvPost (request API_KEY framed_image scene_prompt)])
    /\ (posts (backoff (request API_KEY framed_image scene_prompt) 0 k ++ tail)
        <= 3)%nat
    /\ sleeps (backoff (request API_KEY framed_image scene_prompt) 0 k ++ tail)
       `prefix_of` [5; 10].
Proof.
  set (req := request API_KEY framed_image scene_prompt).
  assert (Hshape : exists k tail,
             snd (generate_mockup_with_gemini API_KEY b64decode image_size
                    framed_image scene_prompt scene_name w)
             = extend w (backoff req 0 k ++ tail)
             /\ (tail = [] \/ tail = [EvPost req])
             /\ (k + length tail <= 3)%nat
             /\ (k = 0%nat \/ 0 + Z.of_nat k <= max_retries - 1)).
  { unfold generate_mockup_with_gemini.
    destruct (String.eqb API_KEY "").
    - exists 0%nat, []. simpl. rewrite extend_nil. split; [reflexivity|].
      split; [auto|]. split; [lia|auto].
    - apply (attempts_shape req 3 0 w). lia. }
  destruct Hshape as (k & tail & Heq & Htail & Hlen & Hk).
  exists k, tail. split; [exact Heq|].
  assert (Hk2 : (k <= 2)%nat) by (unfold max_retries in Hk; lia).
  split; [exact Hk2|]. split; [exact Htail|].
  split.
  - rewrite MockupFacts.posts_app, posts_backoff.
    destruct Htail as [->| ->]; simpl in *; lia.
  - rewrite MockupFacts.sleeps_app.
    assert (Hs : sleeps tail = []) by (destruct Htail as [->| ->]; reflexivity).
    rewrite Hs, app_nil_r.
    destruct k as [|[|[|k]]]; simpl; try lia.
    + apply prefix_nil.
    + exists [10]. reflexivity.
    + exists []. reflexivity.
Qed.

(** *** Reading the response *)

Lemma first_candidate_get body candidate :
  first_candidate body = Some candidate ->
  exists rest,
    get body "candidates" (JArr [JObj []]) = Ok (JArr (candidate :: rest)).
Proof.
  destruct body as [| | | | | |m]; try discriminate. simpl.
  destruct (assoc "candidates" m) as [[| | | | |[|c l]|]|]; try discriminate.
  intros [= ->]. eauto.
Qed.

Lemma not_safety_eq_str cm :
  assoc "finishReason" cm <> Some (JStr "SAFETY") ->
  eq_str (match assoc "finishReason" cm with Some v => v | None => JNull end)
    "SAFETY" = false.
Proof.
  intros Hne. destruct (assoc "finishReason" cm) as [v|]; [|reflexivity].
  destruct v; try reflexivity. simpl.
  apply String.eqb_neq. intros ->. apply Hne. reflexivity.
Qed.

Lemma assoc_some_nonempty key (m : list (string * json)) v :
  assoc key m = Some v -> is_truthy (JObj m) = true.
Proof. destruct m; [discriminate|reflexivity]. Qed.

(** X4. A response whose first candidate is not safety-blocked and holds
    [content.parts[0].inlineData.data], a string that decodes to an image,
    is read as that image. *)
Theorem read_result_image body cm content parts_rest part inline s bytes wd ht :
  first_candidate body = Some (JObj cm) ->
  assoc "finishReason" cm <> Some (JStr "SAFETY") ->
  assoc "content" cm = Some (JObj content) ->
  assoc "parts" content = Some (JArr (JObj part :: parts_rest)) ->
  assoc "inlineData" part = Some (JObj inline) ->
  assoc "data" inline = Some (JStr s) ->
  b64decode s = Some bytes ->
  image_size bytes = Some (wd, ht) ->
  read_result b64decode image_size body = Ok (Some (Decoded bytes wd ht)).
Proof.
  intros Hfirst Hreason Hcontent Hparts Hinline Hdata Hb64 Hsize.
  destruct (first_candidate_get body _ Hfirst) as [rest Hget].
  unfold read_result. rewrite Hget. cbn [rbind item0 get].
  rewrite (not_safety_eq_str cm Hreason), Hcontent.
  rewrite (assoc_some_nonempty _ _ _ Hparts).
  cbn [rbind has item]. rewrite Hparts.
  cbn [rbind is_truthy item0 has item]. rewrite Hinline.
  cbn [rbind has item]. rewrite Hdata. cbn [rbind].
  unfold decode_image. rewrite Hb64, Hsize. reflexivity.
Qed.

(** X6. A response whose first candidate, not safety-blocked, has no
    content, or a content that tests false (null, an empty object), is
    read as [None] without an exception; so is a response object without
    a [candidates] member, whose place the default [[{}]] takes. *)
Theorem read_result_no_content body cm rest :
  get body "candidates" (JArr [JObj []]) = Ok (JArr (JObj cm :: rest)) ->
  assoc "finishReason" cm <> Some (JStr "SAFETY") ->
  (assoc "content" cm = None
   \/ exists v, assoc "content" cm = Some v /\ is_truthy v = false) ->
  read_result b64decode image_size body = Ok None.
Proof.
  intros Hget Hreason Hcontent.
  unfold read_result. rewrite Hget. cbn [rbind item0 get].
  rewrite (not_safety_eq_str cm Hreason).
  destruct Hcontent as [->|(v & -> & Hfalse)]; cbn [rbind].
  - reflexivity.
  - rewrite Hfalse. reflexivity.
Qed.

(** X5. An answer whose [candidates] member is the empty list makes
    [candidates[0]] raise an IndexError that nothing catches: the call,
    the scene and the scene loop all end with it, the scenes that were
    still to come are not visited, and nothing is saved. *)
Theorem empty_candidates_abort filename j scene_name base_prompt
    framed_art framed w w1 members rest :
  API_KEY <> "" ->
  FS.exists_ (files w) (save_path filename scene_name) = false ->
  match framed_art with
  | None => add_frame_and_mat (Py.path_join INPUT_FOLDER filename) w
  | Some _ => (framed_art, w)
  end = (Some framed, w1) ->
  net w1 (posts (trace w1)) = HttpOk (JObj members) ->
  assoc "candidates" members = Some (JArr []) ->
  generate_mockup_with_gemini API_KEY b64decode image_size
    framed base_prompt scene_name w1
  = (Raise IndexError, extend w1 [EvPost (request API_KEY framed base_prompt)])
  /\ scenes_loop API_KEY b64decode image_size filename
       ((j, (scene_name, base_prompt)) :: rest) framed_art w
     = (Raise IndexError,
        extend w1 [EvPost (request API_KEY framed base_prompt)]).
Proof.
  intros Hkey Hmissing Hframed Hnet Hcands.
  assert (Hgen : generate_mockup_with_gemini API_KEY b64decode image_size
                   framed base_prompt scene_name w1
                 = (Raise IndexError,
                    extend w1 [EvPost (request API_KEY framed base_prompt)])).
  { rewrite generate_attempts by assumption.
    simpl attempts. unfold post. rewrite Hnet.
    unfold read_result. cbn [get]. rewrite Hcands. reflexivity. }
  split; [exact Hgen|].
  rewrite (MockupFacts.scenes_loop_cons API_KEY b64decode image_size).
  unfold scene_body. rewrite Hmissing, Hframed, Hgen. reflexivity.
Qed.

End client.

Lemma unrecognised_failure_is_terminal_witness :
  generate_mockup_with_gemini "KEY" Samples.b64decode Samples.image_size
    Samples.framed "prompt" "office"
    (Samples.world (fun _ => HttpRequestException (Some (requests_response 429))))
  = (Ok None,
     extend (Samples.world
               (fun _ => HttpRequestException (Some (requests_response 429))))
       [EvPost (request "KEY" Samples.framed "prompt")]).
Proof.
  apply (unrecognised_failure_is_terminal "KEY" Samples.b64decode
           Samples.image_size Samples.framed "prompt" "office" _
           (Some (requests_response 429))).
  - discriminate.
  - reflexivity.
  - right. exists (requests_response 429). split; [reflexivity|].
    left. reflexivity.
Defined.

Lemma retry_then_answer_witness :
  generate_mockup_with_gemini "KEY" Samples.b64decode Samples.image_size
    Samples.framed "prompt" "office"
    (Samples.world
       (fun n => match n with
                 | 0%nat | 1%nat => Samples.rate_limit_error
                 | _ => HttpOk Samples.image_body
                 end))
  = (read_result Samples.b64decode Samples.image_size Samples.image_body,
     extend
       (Samples.world
          (fun n => match n with
                    | 0%nat | 1%nat => Samples.rate_limit_error
                    | _ => HttpOk Samples.image_body
                    end))
       (backoff (request "KEY" Samples.framed "prompt") 0 2
        ++ [EvPost (request "KEY" Samples.framed "prompt")])).
Proof.
  apply (retry_then_answer "KEY" Samples.b64decode Samples.image_size
           Samples.framed "prompt" "office" _ 2 Samples.image_body).
  - discriminate.
  - lia.
  - intros i Hi. exists (Some {| status_code := 429; truthy := true |}).
    split; [|reflexivity].
    destruct i as [|[|i]]; try reflexivity. lia.
  - reflexivity.
Defined.

Lemma read_result_image_witness :
  read_result Samples.b64decode Samples.image_size Samples.image_body
  = Ok (Some (Decoded "aW1n" 1024 1024)).
Proof.
  eapply (read_result_image Samples.b64decode Samples.image_size
            Samples.image_body).
  - reflexivity.
  - discriminate.
  - reflexivity.
  - reflexivity.
  - reflexivity.
  - reflexivity.
  - reflexivity.
  - reflexivity.
Defined.

Lemma read_result_no_content_witness :
  read_result Samples.b64decode Samples.image_size (JObj [("error", JNull)])
  = Ok None.
Proof.
  apply (read_result_no_content Samples.b64decode Samples.image_size
           (JObj [("error", JNull)]) [] []).
  - reflexivity.
  - discriminate.
  - left. reflexivity.
Defined.

Lemma empty_candidates_abort_witness :
  let w := Samples.world (fun _ => HttpOk (JObj [("candidates", JArr [])])) in
  generate_mockup_with_gemini "KEY" Samples.b64decode Samples.image_size
    Samples.framed "prompt" "bedroom" w
  = (Raise IndexError, extend w [EvPost (request "KEY" Samples.framed "prompt")])
  /\ scenes_loop "KEY" Samples.b64decode Samples.image_size "a.jpg"
       ((3, ("bedroom", "prompt")) :: [(4, ("office", "prompt"))])
       (Some Samples.framed) w
     = (Raise IndexError,
        extend w [EvPost (request "KEY" Samples.framed "prompt")]).
Proof.
  apply (empty_candidates_abort "KEY" Samples.b64decode Samples.image_size
           "a.jpg" 3 "bedroom" "prompt" (Some Samples.framed) Samples.framed
           _ _ [("candidates", JArr [])]).
  - discriminate.
  - vm_compute. reflexivity.
  - reflexivity.
  - reflexivity.
  - reflexivity.
Defined.

End ClientFacts.

(** ** Whole runs of the mockup generator *)

Module RunFacts.

Import Mockup Effects.

Lemma opens_app t t' : opens (t ++ t') = (opens t + opens t')%nat.
Proof.
  induction t as [|ev t IH]; simpl; [reflexivity|].
  destruct ev; simpl; rewrite IH; reflexivity.
Qed.

Lemma saves_app t t' : saves (t ++ t') = (saves t + saves t')%nat.
Proof.
  induction t as [|ev t IH]; simpl; [reflexivity|].
  destruct ev; simpl; rewrite IH; reflexivity.
Qed.

Section run.

Variable API_KEY : string.
Variable b64decode : string -> option string.
Variable image_size : string -> option (Z * Z).

(** The retry loop only posts and sleeps, and it has posted when it
    returns an image. *)
Lemma attempts_trace req left :
  forall attempt w,
    exists evs,
      snd (attempts b64decode image_size left attempt req w) = extend w evs
      /\ (posts evs <= left)%nat /\ opens evs = 0%nat /\ saves evs = 0%nat
      /\ (fst (attempts b64decode image_size left attempt req w) = Ok None
          \/ (1 <= posts evs)%nat).
Proof.
  induction left as [|left IH]; intros attempt w.
  - exists []. simpl. rewrite ClientFacts.extend_nil.
    split; [reflexivity|]. split; [lia|]. split; [reflexivity|].
    split; [reflexivity|]. left. reflexivity.
  - simpl attempts. unfold post.
    assert (Hend : forall r : result (option Image),
               exists evs,
                 snd (r, log (EvPost req) w) = extend w evs
                 /\ (posts evs <= S left)%nat
                 /\ opens evs = 0%nat /\ saves evs = 0%nat
                 /\ (fst (r, log (EvPost req) w) = Ok None
                     \/ (1 <= posts evs)%nat)).
    { intros r. exists [EvPost req]. simpl.
      split; [reflexivity|]. split; [lia|]. split; [reflexivity|].
      split; [reflexivity|]. right. lia. }
    destruct (net w (posts (trace w))) as [body|response]; [apply Hend|].
    destruct (rate_limited response); [|apply Hend].
    destruct (attempt <? max_retries - 1); [|apply Hend].
    destruct (IH (attempt + 1)
                (sleep (RETRY_DELAY * 2 ^ attempt) (log (EvPost req) w)))
      as (evs & Heq & Hposts & Hopens & Hsaves & Hres).
    exists (EvPost req :: EvSleep (RETRY_DELAY * 2 ^ attempt) :: evs).
    rewrite Heq. simpl. rewrite Hopens, Hsaves.
    split.
    { unfold sleep, log, extend. simpl. rewrite <- !app_assoc. reflexivity. }
    split; [lia|]. split; [reflexivity|]. split; [reflexivity|].
    right. lia.
Qed.

Lemma generate_trace framed_image scene_prompt scene_name w :
  exists evs,
    snd (generate_mockup_with_gemini API_KEY b64decode image_size
           framed_image scene_prompt scene_name w) = extend w evs
    /\ (posts evs <= 3)%nat /\ opens evs = 0%nat /\ saves evs = 0%nat
    /\ (fst (generate_mockup_with_gemini API_KEY b64decode image_size
               framed_image scene_prompt scene_name w) = Ok None
        \/ (1 <= posts evs)%nat).
Proof.
  unfold generate_mockup_with_gemini. destruct (String.eqb API_KEY "").
  - exists []. simpl. rewrite ClientFacts.extend_nil.
    split; [reflexivity|]. split; [lia|]. split; [reflexivity|].
    split; [reflexivity|]. left. reflexivity.
  - change (Z.to_nat max_retries) with 3%nat. apply attempts_trace.
Qed.

Lemma extend_inj w evs evs' : extend w evs = extend w evs' -> evs = evs'.
Proof.
  intros Heq. apply (f_equal trace) in Heq. simpl in Heq.
  eapply app_inv_head, Heq.
Qed.

(** The events of one call of the client belong to the scene whose
    prompt it sends. *)
Lemma generate_events framed_image scene_name filename scene w :
  exists evs,
    snd (generate_mockup_with_gemini API_KEY b64decode image_size
           framed_image (snd scene) scene_name w) = extend w evs
    /\ Forall (of_scene filename scene) evs.
Proof.
  unfold generate_mockup_with_gemini. destruct (String.eqb API_KEY "").
  - exists []. simpl. rewrite ClientFacts.extend_nil.
    split; [reflexivity|constructor].
  - change (Z.to_nat max_retries) with 3%nat.
    set (req := {| req_url := api_url API_KEY; req_prompt := snd scene;
                   req_image := framed_image |}).
    destruct (ClientFacts.attempts_shape b64decode image_size req 3 0 w
                ltac:(lia)) as (k & tail & Heq & Htail & _ & Hk).
    exists (backoff req 0 k ++ tail). split; [exact Heq|].
    assert (Hk2 : (k <= 2)%nat) by (unfold max_retries in Hk; lia).
    apply Forall_app. split.
    + destruct k as [|[|[|k]]]; [| | |lia]; simpl backoff;
        repeat (constructor; simpl; auto).
    + destruct Htail as [-> | ->]; repeat (constructor; simpl; auto).
Qed.

(** What one iteration of the scene loop adds to the trace. *)
Lemma scene_body_trace filename j scene framed_art w :
  exists evs,
    trace (snd (scene_body API_KEY b64decode image_size filename j scene
                  framed_art w))
    = trace w ++ evs
    /\ Forall (of_scene filename scene) evs
    /\ (posts evs <= 3)%nat /\ (saves evs <= 1)%nat
    /\ (saves evs <= posts evs)%nat
    /\ match fst (scene_body API_KEY b64decode image_size filename j scene
                    framed_art w) with
       | Continue framed_art' =>
           (opens evs + to_frame framed_art' <= to_frame framed_art)%nat
       | _ => (opens evs <= to_frame framed_art)%nat
       end.
Proof.
  unfold scene_body. destruct scene as [scene_name base_prompt].
  destruct (FS.exists_ (files w) (save_path filename scene_name)).
  { exists []. simpl. rewrite app_nil_r. split; [reflexivity|].
    split; [constructor|]. repeat split; lia. }
  assert (Hframe : exists fa1 w1 evs0,
             match framed_art with
             | None => add_frame_and_mat (Py.path_join INPUT_FOLDER filename) w
             | Some _ => (framed_art, w)
             end = (fa1, w1)
             /\ trace w1 = trace w ++ evs0
             /\ Forall (of_scene filename (scene_name, base_prompt)) evs0
             /\ (fa1 <> None ->
                 (opens evs0 + to_frame fa1 <= to_frame framed_art)%nat)
             /\ posts evs0 = 0%nat /\ saves evs0 = 0%nat
             /\ (opens evs0 <= to_frame framed_art)%nat).
  { destruct framed_art as [fa|].
    - exists (Some fa), w, []. simpl. rewrite app_nil_r.
      split; [reflexivity|]. split; [reflexivity|]. split; [constructor|].
      split; [intros _|]; repeat split; lia.
    - unfold add_frame_and_mat.
      destruct (photo <- FS.image_open (files w)
                           (Py.path_join INPUT_FOLDER filename) ;;
                _ <- FS.image_load (files w)
                       (Py.path_join INPUT_FOLDER filename) ;;
                cropped <- cropped_photo (convert "RGB" photo) ;;
                framed_photo cropped) as [framed|e].
      + exists (Some framed), (log (EvOpen (Py.path_join INPUT_FOLDER filename)) w),
          [EvOpen (Py.path_join INPUT_FOLDER filename)].
        simpl. split; [reflexivity|]. split; [reflexivity|].
        split; [repeat constructor|].
        split; [intros _|]; repeat split; lia.
      + exists None, (log (EvOpen (Py.path_join INPUT_FOLDER filename)) w),
          [EvOpen (Py.path_join INPUT_FOLDER filename)].
        simpl. split; [reflexivity|]. split; [reflexivity|].
        split; [repeat constructor|].
        split; [congruence|]. repeat split; lia. }
  destruct Hframe as (fa1 & w1 & evs0 & -> & Ht1 & Hof0 & Ho1 & Hp0 & Hs0 & Ho0).
  destruct fa1 as [framed|].
  2:{ exists evs0. simpl. split; [exact Ht1|]. split; [exact Hof0|].
      repeat split; lia. }
  specialize (Ho1 ltac:(discriminate)).
  destruct (generate_trace framed base_prompt scene_name w1)
    as (gevs & Hw2 & Hgp & Hgo & Hgs & Hres).
  destruct (generate_events framed scene_name filename
              (scene_name, base_prompt) w1) as (gevs' & Hw2' & Hofg).
  simpl snd in Hw2'. rewrite Hw2 in Hw2'. apply extend_inj in Hw2'.
  subst gevs'.
  destruct (generate_mockup_with_gemini API_KEY b64decode image_size framed
              base_prompt scene_name w1) as [r w2].
  simpl in Hw2, Hres. subst w2.
  assert (Hsleep : of_scene filename (scene_name, base_prompt)
                     (EvSleep DELAY_BETWEEN_SCENES)) by (left; reflexivity).
  assert (Hsave : of_scene filename (scene_name, base_prompt)
                    (EvSave (save_path filename scene_name)))
    by reflexivity.
  destruct r as [mockup_image|e].
  2:{ exists (evs0 ++ gevs). simpl. rewrite Ht1, <- app_assoc.
      split; [reflexivity|].
      split; [apply Forall_app; split; assumption|].
      rewrite MockupFacts.posts_app, saves_app, opens_app.
      repeat split; lia. }
  destruct mockup_image as [im|].
  - destruct Hres as [Hres|Hres]; [discriminate|].
    destruct (j <? Py.len BASE_SCENE_PROMPTS - 1).
    + exists (evs0 ++ gevs ++ [EvSave (save_path filename scene_name);
                               EvSleep DELAY_BETWEEN_SCENES]).
      simpl. rewrite Ht1, <- !app_assoc. split; [reflexivity|].
      split; [rewrite !Forall_app; repeat split; auto|].
      rewrite !MockupFacts.posts_app, !saves_app, !opens_app. simpl.
      repeat split; lia.
    + exists (evs0 ++ gevs ++ [EvSave (save_path filename scene_name)]).
      simpl. rewrite Ht1, <- !app_assoc. split; [reflexivity|].
      split; [rewrite !Forall_app; repeat split; auto|].
      rewrite !MockupFacts.posts_app, !saves_app, !opens_app. simpl.
      repeat split; lia.
  - destruct (j <? Py.len BASE_SCENE_PROMPTS - 1).
    + exists (evs0 ++ gevs ++ [EvSleep DELAY_BETWEEN_SCENES]).
      simpl. rewrite Ht1, <- !app_assoc. split; [reflexivity|].
      split; [rewrite !Forall_app; repeat split; auto|].
      rewrite !MockupFacts.posts_app, !saves_app, !opens_app. simpl.
      repeat split; lia.
    + exists (evs0 ++ gevs).
      simpl. rewrite Ht1, <- !app_assoc. split; [reflexivity|].
      split; [rewrite !Forall_app; repeat split; auto|].
      rewrite !MockupFacts.posts_app, !saves_app, !opens_app. simpl.
      repeat split; lia.
Qed.

(** Segments that hold nothing, for the iterations a loop did not reach. *)
Lemma idle_segments {A : Type} (P : A -> list Event -> Prop) (l : list A) :
  (forall x, P x []) ->
  exists segs : list (list Event), Forall2 P l segs /\ concat segs = [].
Proof.
  intros Hidle. induction l as [|x l (segs & Hall & Hnil)].
  - exists []. split; [constructor|reflexivity].
  - exists ([] :: segs). split; [constructor; auto|exact Hnil].
Qed.

Lemma scene_segment_nil filename scene : scene_segment filename scene [].
Proof. unfold scene_segment. simpl. split; [constructor|]. repeat split; lia. Qed.

(** The totals of a list of scene segments. *)
Lemma scene_segments_totals {A : Type} filename (f : A -> string * string)
    (items : list A) (segs : list (list Event)) :
  Forall2 (fun item seg => scene_segment filename (f item) seg) items segs ->
  (posts (concat segs) <= 3 * length items)%nat
  /\ (saves (concat segs) <= length items)%nat
  /\ (saves (concat segs) <= posts (concat segs))%nat.
Proof.
  induction 1 as [|item seg items segs Hseg _ IH]; simpl; [lia|].
  destruct Hseg as (_ & _ & Hp & Hs & Hsp).
  rewrite MockupFacts.posts_app, saves_app. lia.
Qed.

(** The scene loop of one photo, scene by scene. *)
Lemma scenes_loop_segments filename items :
  forall framed_art w,
    exists segs,
      trace (snd (scenes_loop API_KEY b64decode image_size filename items
                    framed_art w))
      = trace w ++ concat segs
      /\ Forall2 (fun item seg => scene_segment filename (snd item) seg)
           items segs
      /\ (opens (concat segs) <= to_frame framed_art)%nat.
Proof.
  induction items as [|[j scene] rest IH]; intros framed_art w.
  - exists []. simpl. rewrite app_nil_r.
    split; [reflexivity|]. split; [constructor|lia].
  - rewrite (MockupFacts.scenes_loop_cons API_KEY b64decode image_size).
    destruct (scene_body_trace filename j scene framed_art w)
      as (seg & Ht1 & Hof & Hp1 & Hs1 & Hsp1 & Hflow).
    assert (Hframe : (to_frame framed_art <= 1)%nat)
      by (destruct framed_art; simpl; lia).
    assert (Hstop :
              (opens seg <= to_frame framed_art)%nat ->
              exists segs,
                trace w ++ seg = trace w ++ concat segs
                /\ Forall2
                     (fun item s => scene_segment filename (snd item) s)
                     ((j, scene) :: rest) segs
                /\ (opens (concat segs) <= to_frame framed_art)%nat).
    { intros Ho.
      destruct (idle_segments
                  (fun item s => scene_segment filename (snd item) s) rest
                  (fun item => scene_segment_nil filename (snd item)))
        as (idle & Hidle & Hnil).
      exists (seg :: idle). simpl. rewrite Hnil, app_nil_r.
      split; [reflexivity|]. split; [|exact Ho].
      constructor; [|exact Hidle].
      unfold scene_segment. simpl. repeat split; try assumption; lia. }
    destruct (scene_body API_KEY b64decode image_size filename j scene
                framed_art w) as [[fa'| |e] w1]; simpl in Ht1, Hflow.
    + destruct (IH fa' w1) as (segs & Ht2 & Hall & Ho2).
      exists (seg :: segs). simpl. rewrite Ht2, Ht1, <- app_assoc.
      split; [reflexivity|]. rewrite opens_app. split; [|lia].
      constructor; [|exact Hall].
      unfold scene_segment. simpl. repeat split; try assumption; lia.
    + simpl. rewrite Ht1. apply Hstop, Hflow.
    + simpl. rewrite Ht1. apply Hstop, Hflow.
Qed.

(** X7. For one photo, whatever the files on disk and the answers of the
    server, the trace of the scene loop splits into one segment per
    scene, in the order of the scenes. The segment of a scene holds at
    most three requests, each with the prompt of that scene, at most one
    save, which is the mockup of that scene, and no more saves than
    requests; the only file it opens is the photo. Over the whole loop
    the photo is opened for framing at most once, and never when the
    loop already holds the framed artwork. *)
Theorem photo_framed_at_most_once filename items framed_art w :
  exists segs,
    trace (snd (scenes_loop API_KEY b64decode image_size filename items
                  framed_art w))
    = trace w ++ concat segs
    /\ Forall2 (fun item seg => scene_segment filename (snd item) seg)
         items segs
    /\ (opens (concat segs) <= 1)%nat
    /\ (is_Some framed_art -> opens (concat segs) = 0%nat)
    /\ (posts (concat segs) <= 3 * length items)%nat
    /\ (saves (concat segs) <= length items)%nat
    /\ (saves (concat segs) <= posts (concat segs))%nat.
Proof.
  destruct (scenes_loop_segments filename items framed_art w)
    as (segs & Ht & Hall & Ho).
  exists segs. split; [exact Ht|]. split; [exact Hall|].
  split; [destruct framed_art; simpl in Ho; lia|].
  split; [intros [fa ->]; simpl in Ho; lia|].
  apply (scene_segments_totals filename snd items segs Hall).
Qed.







(** *** Runs with nothing to do, and photos that cannot be framed *)

Lemma elem_of_enumerate_from {A : Type} (l : list A) :
  forall i j x, (j, x) ∈ Py.enumerate_from i l -> x ∈ l.
Proof.
  induction l as [|y l IH]; intros i j x Hin; simpl in Hin.
  - inversion Hin.
  - apply elem_of_cons in Hin as [[= _ ->]|Hin].
    + apply list_elem_of_here.
    + apply list_elem_of_further. eapply IH, Hin.
Qed.

Lemma scenes_all_saved filename items :
  forall framed_art w,
    (forall j scene_name base_prompt,
       (j, (scene_name, base_prompt)) ∈ items ->
       is_Some (files w !! save_path filename scene_name)) ->
    scenes_loop API_KEY b64decode image_size filename items framed_art w
    = (Ok tt, w).
Proof.
  induction items as [|[j [scene_name base_prompt]] rest IH];
    intros framed_art w Hsaved; [reflexivity|].
  rewrite (MockupFacts.scenes_loop_cons API_KEY b64decode image_size).
  unfold scene_body, FS.exists_.
  rewrite (bool_decide_eq_true_2 _
             (Hsaved j scene_name base_prompt (list_elem_of_here _ _))).
  apply IH. intros j' s' p' Hin. eapply Hsaved, list_elem_of_further, Hin.
Qed.

(** X9. When the mockup of every scene already exists for every photo in
    the list, the photo loop sends no request, frames nothing and saves
    nothing: it only sleeps DELAY_BETWEEN_PHOTOS between photos, and
    leaves the files as they are. *)
Theorem completed_photos_are_skipped items total w :
  (forall i filename scene_name,
     (i, filename) ∈ items -> scene_name ∈ scene_names ->
     is_Some (files w !! save_path filename scene_name)) ->
  exists k,
    (k <= length items)%nat
    /\ photos_loop API_KEY b64decode image_size items total w
       = (Ok tt, extend w (replicate k (EvSleep DELAY_BETWEEN_PHOTOS))).
Proof.
  revert w. induction items as [|[i filename] rest IH]; intros w Hsaved.
  - exists 0%nat. simpl. rewrite ClientFacts.extend_nil. auto.
  - rewrite (MockupFacts.photos_loop_cons API_KEY b64decode image_size).
    rewrite scenes_all_saved.
    2:{ intros j scene_name base_prompt Hin.
        apply (Hsaved i filename scene_name); [apply list_elem_of_here|].
        unfold scene_names. apply elem_of_enumerate_from in Hin.
        apply list_elem_of_In, in_map_iff. exists (scene_name, base_prompt).
        split; [reflexivity|]. apply list_elem_of_In, Hin. }
    assert (Hrest : forall w' : World,
               files w' = files w ->
               forall i' filename' scene_name,
                 (i', filename') ∈ rest -> scene_name ∈ scene_names ->
                 is_Some (files w' !! save_path filename' scene_name)).
    { intros w' Hfiles i' f' s' Hin Hs. rewrite Hfiles.
      eapply Hsaved; [apply list_elem_of_further; exact Hin|exact Hs]. }
    destruct (i <? total - 1).
    + destruct (IH (sleep DELAY_BETWEEN_PHOTOS w)
                  (Hrest _ ltac:(reflexivity))) as (k & Hk & ->).
      exists (S k). split; [simpl; lia|].
      unfold sleep, log, extend. simpl. rewrite <- app_assoc. reflexivity.
    + destruct (IH w (Hrest _ ltac:(reflexivity))) as (k & Hk & ->).
      exists k. split; [simpl; lia|reflexivity].
Qed.

(** X11. A photo that cannot be framed (the file is missing, is not an
    image or does not load, or the crop fails) costs no request: the scene loop skips the
    scenes whose mockup exists, tries once to frame the photo at the
    first scene without one, and leaves the loop there, with nothing
    saved. *)
Theorem unframeable_photo_sends_nothing filename items w :
  fst (add_frame_and_mat (Py.path_join INPUT_FOLDER filename) w) = None ->
  exists evs,
    scenes_loop API_KEY b64decode image_size filename items None w
    = (Ok tt, extend w evs)
    /\ (evs = [] \/ evs = [EvOpen (Py.path_join INPUT_FOLDER filename)]).
Proof.
  intros Hframe.
  induction items as [|[j [scene_name base_prompt]] rest IH].
  - exists []. simpl. rewrite ClientFacts.extend_nil. auto.
  - rewrite (MockupFacts.scenes_loop_cons API_KEY b64decode image_size).
    unfold scene_body.
    destruct (FS.exists_ (files w) (save_path filename scene_name));
      [exact IH|].
    unfold add_frame_and_mat in Hframe |- *.
    destruct (photo <- FS.image_open (files w)
                         (Py.path_join INPUT_FOLDER filename) ;;
              _ <- FS.image_load (files w)
                     (Py.path_join INPUT_FOLDER filename) ;;
              cropped <- cropped_photo (convert "RGB" photo) ;;
              framed_photo cropped); [discriminate|].
    exists [EvOpen (Py.path_join INPUT_FOLDER filename)]. auto.
Qed.

End run.

Lemma completed_photos_are_skipped_witness :
  exists k,
    (k <= length Samples.two_photos)%nat
    /\ photos_loop "KEY" Samples.b64decode Samples.image_size
         Samples.two_photos 2
         (Samples.finished_world (fun _ => HttpOk Samples.image_body))
       = (Ok tt,
          extend (Samples.finished_world (fun _ => HttpOk Samples.image_body))
            (replicate k (EvSleep DELAY_BETWEEN_PHOTOS))).
Proof.
  apply (completed_photos_are_skipped "KEY" Samples.b64decode
           Samples.image_size).
  intros i filename scene_name Hin Hscene.
  apply (bool_decide_unpack _).
  assert (Hf : filename = "a.jpg" \/ filename = "a.png").
  { repeat (apply elem_of_cons in Hin as [[= _ ->]|Hin]; [auto|]).
    inversion Hin. }
  unfold scene_names in Hscene. simpl in Hscene.
  repeat (apply elem_of_cons in Hscene as [->|Hscene];
          [destruct Hf as [-> | ->]; vm_compute; exact I|]).
  inversion Hscene.
Defined.

Lemma unframeable_photo_sends_nothing_witness :
  exists evs,
    scenes_loop "KEY" Samples.b64decode Samples.image_size "gone.jpg"
      (Py.enumerate BASE_SCENE_PROMPTS) None
      (Samples.world (fun _ => HttpOk Samples.image_body))
    = (Ok tt, extend (Samples.world (fun _ => HttpOk Samples.image_body)) evs)
    /\ (evs = [] \/ evs = [EvOpen (Py.path_join INPUT_FOLDER "gone.jpg")]).
Proof.
  apply (unframeable_photo_sends_nothing "KEY" Samples.b64decode
           Samples.image_size "gone.jpg").
  vm_compute. reflexivity.
Defined.

Lemma main_keeps_files_witness :
  files (snd (main "KEY" Samples.b64decode Samples.image_size
                (Samples.resumed_world (fun _ => HttpOk Samples.image_body))))
  !! "mockup_outputs/a_office_mockup.jpg"
  = Some (FS.ImageFile Samples.photo).
Proof.
  apply (MockupFacts.main_keeps_files "KEY" Samples.b64decode
           Samples.image_size).
  vm_compute. reflexivity.
Defined.

End RunFacts.

(** ** Output paths *)

Module PathFacts.

Import Mockup Effects.

Lemma append_nil_l s : "" +:+ s = s.
Proof. reflexivity. Qed.

Lemma append_cons c a b : String c a +:+ b = String c (a +:+ b).
Proof. reflexivity. Qed.

Lemma append_inj_l a x y : a +:+ x = a +:+ y -> x = y.
Proof.
  induction a as [|c a IH]; rewrite ?append_nil_l, ?append_cons; [auto|].
  intros [= H]. auto.
Qed.

Lemma length_append_string a b :
  String.length (a +:+ b) = (String.length a + String.length b)%nat.
Proof.
  induction a as [|c a IH]; rewrite ?append_nil_l, ?append_cons; simpl;
    [|rewrite IH]; reflexivity.
Qed.

(** Of two strings with a common end, the shorter tail ends the longer. *)
Lemma common_end x : forall y t1 t2,
  x +:+ t1 = y +:+ t2 ->
  (String.length t1 <= String.length t2)%nat ->
  exists z, t2 = z +:+ t1 /\ x = y +:+ z.
Proof.
  induction x as [|c x IH]; intros y t1 t2 Heq Hlen.
  - rewrite append_nil_l in Heq. subst t1.
    rewrite length_append_string in Hlen.
    destruct y; [|simpl in Hlen; lia].
    exists "". split; reflexivity.
  - destruct y as [|c' y].
    + rewrite append_nil_l in Heq.
      exists (String c x). split; [symmetry; exact Heq|reflexivity].
    + rewrite !append_cons in Heq. injection Heq as -> Heq.
      destruct (IH y t1 t2 Heq Hlen) as (z & Ht & Hx).
      exists z. split; [exact Ht|]. rewrite append_cons, Hx. reflexivity.
Qed.

Lemma is_suffix_append z t : is_suffix t (z +:+ t) = true.
Proof.
  induction z as [|c z IH]; rewrite ?append_nil_l, ?append_cons.
  - destruct t; simpl; rewrite ?Ascii.eqb_refl, ?String.eqb_refl; reflexivity.
  - simpl. rewrite IH. apply orb_true_r.
Qed.

(** Among the scenes of the script, the suffix of one output name ends
    the suffix of another only when the two scenes are the same. *)
Lemma scene_suffixes_differ s1 s2 :
  s1 ∈ scene_names -> s2 ∈ scene_names ->
  is_suffix (output_suffix s1) (output_suffix s2) = true -> s1 = s2.
Proof.
  intros H1 H2.
  assert (Htable :
            forallb (fun a =>
              forallb (fun b =>
                implb (is_suffix (output_suffix a) (output_suffix b))
                      (String.eqb a b)) scene_names) scene_names = true)
    by (vm_compute; reflexivity).
  rewrite forallb_forall in Htable.
  specialize (Htable s1 (proj1 (list_elem_of_In _ _) H1)).
  rewrite forallb_forall in Htable.
  specialize (Htable s2 (proj1 (list_elem_of_In _ _) H2)).
  intros Hsuf. rewrite Hsuf in Htable. simpl in Htable.
  apply String.eqb_eq, Htable.
Qed.

Lemma save_path_split filename scene_name :
  save_path filename scene_name
  = "mockup_outputs/" +:+ (Py.splitext_root filename +:+ output_suffix scene_name).
Proof. reflexivity. Qed.

(** X12. Two units of work write to the same output file only if they
    are the same scene of photos with the same stem: for scenes of the
    script, equal output paths force equal scene names and equal stems
    of the file names. *)
Theorem save_path_injective f1 s1 f2 s2 :
  s1 ∈ scene_names -> s2 ∈ scene_names ->
  save_path f1 s1 = save_path f2 s2 ->
  s1 = s2 /\ Py.splitext_root f1 = Py.splitext_root f2.
Proof.
  intros H1 H2 Heq. rewrite !save_path_split in Heq.
  apply append_inj_l in Heq.
  assert (Hs : s1 = s2).
  { destruct (Nat.le_ge_cases (String.length (output_suffix s1))
                (String.length (output_suffix s2))) as [Hle|Hle].
    - destruct (common_end _ _ _ _ Heq Hle) as (z & Ht & _).
      apply scene_suffixes_differ; try assumption.
      rewrite Ht. apply is_suffix_append.
    - symmetry in Heq. destruct (common_end _ _ _ _ Heq Hle) as (z & Ht & _).
      symmetry. apply scene_suffixes_differ; try assumption.
      rewrite Ht. apply is_suffix_append. }
  split; [exact Hs|]. subst s2.
  destruct (common_end _ _ _ _ Heq (Nat.le_refl _)) as (z & Ht & Hx).
  assert (Hz : z = "").
  { apply (f_equal String.length) in Ht.
    rewrite length_append_string in Ht.
    destruct z; [reflexivity|simpl in Ht; lia]. }
  subst z. rewrite Hx. clear.
  induction (Py.splitext_root f2) as [|c r IH];
    rewrite ?append_nil_l, ?append_cons; [|rewrite IH]; reflexivity.
Qed.

Lemma save_path_injective_witness :
  "office" = "office"
  /\ Py.splitext_root "a.jpg" = Py.splitext_root "a.png".
Proof.
  apply (save_path_injective "a.jpg" "office" "a.png" "office").
  - unfold scene_names. simpl.
    repeat first [apply list_elem_of_here | apply list_elem_of_further].
  - unfold scene_names. simpl.
    repeat first [apply list_elem_of_here | apply list_elem_of_further].
  - reflexivity.
Defined.

End PathFacts.

(** ** Framing a readable photo *)

Module FramingFacts.

Import PyFloat PyFloatFacts Mockup.

Lemma target_aspect_pos_finite iw ih : pos_finite (-105) 1 (target_aspect iw ih).
Proof.
  unfold target_aspect. destruct (is_landscape iw ih);
    apply div_round_pos_finite; change (2 ^ 53) with 9007199254740992; lia.
Qed.

(** The crop of a photo of valid size succeeds and trims one axis only. *)
Lemma cropped_photo_total photo :
  valid_dim (width photo) -> valid_dim (height photo) ->
  exists cropped,
    cropped_photo photo = Ok cropped
    /\ (width cropped = width photo \/ height cropped = height photo)
    /\ 0 <= width cropped /\ 0 <= height cropped.
Proof.
  unfold width, height, cropped_photo.
  destruct (size photo) as [iw ih] eqn:Hsize. simpl fst. simpl snd.
  intros Hiw Hih.
  pose proof (BannerFacts.valid_dim_exact _ Hiw) as Hiw'.
  pose proof (BannerFacts.valid_dim_exact _ Hih) as Hih'.
  cbv zeta.
  destruct (truediv_pos_finite iw ih Hiw' Hih') as (ia & -> & Hia).
  cbn [rbind].
  pose proof (target_aspect_pos_finite iw ih) as Hta.
  destruct (gt (abs (sub ia (target_aspect iw ih))) lit_0_01).
  2:{ exists photo. rewrite Hsize. simpl. split; [reflexivity|].
      split; [auto|]. unfold valid_dim in *. lia. }
  destruct (gt ia (target_aspect iw ih)).
  - destruct (mul_int_pos_finite _ ih Hta Hih') as (x & -> & Hx).
    cbn [rbind].
    destruct (to_int_pos_finite _ _ x Hx) as (new_width & -> & Hnw).
    cbn [rbind]. unfold crop.
    pose proof (BannerFacts.symmetric_box iw new_width Hnw) as Hbox.
    rewrite Hbox.
    assert (Hh : (ih <? 0) = false) by (apply Z.ltb_ge; lia).
    rewrite Hh. eexists. split; [reflexivity|]. simpl.
    apply Z.ltb_ge in Hbox. unfold valid_dim in *.
    split; [right; lia|]. lia.
  - destruct (int_div_pos_finite iw _ Hiw' Hta) as (x & -> & Hx).
    cbn [rbind].
    destruct (to_int_pos_finite _ _ x Hx) as (new_height & -> & Hnh).
    cbn [rbind]. unfold crop.
    pose proof (BannerFacts.symmetric_box ih new_height Hnh) as Hbox.
    assert (Hw : (iw <? 0) = false) by (apply Z.ltb_ge; lia).
    rewrite Hw, Hbox. eexists. split; [reflexivity|]. simpl.
    apply Z.ltb_ge in Hbox. unfold valid_dim in *.
    split; [left; lia|]. lia.
Qed.

(** X13. Framing does not fail on a photo that opens and loads: for an
    image file whose pixels load, of positive width and height and within
    the pixel limit of [Image.open], the arithmetic of the crop to 3:2 or
    2:3 raises nothing, the crop trims at most one of the two axes, and
    [add_frame_and_mat] returns that crop inside the white mat and the
    black frame, having opened the file once. *)
Theorem framing_succeeds image_path w photo :
  files w !! image_path = Some (FS.ImageFile photo) ->
  valid_dim (width photo) -> valid_dim (height photo) ->
  decompression_bomb (size photo) = false ->
  exists cropped,
    cropped_photo (convert "RGB" photo) = Ok cropped
    /\ (width cropped = width photo \/ height cropped = height photo)
    /\ add_frame_and_mat image_path w
       = (Some (Expanded (Expanded cropped MAT_THICKNESS MAT_COLOR)
                  FRAME_THICKNESS FRAME_COLOR),
          log (EvOpen image_path) w).
Proof.
  intros Hfile Hw Hh Hbomb.
  destruct (cropped_photo_total (convert "RGB" photo) Hw Hh)
    as (cropped & Hcrop & Haxis & Hcw & Hch).
  exists cropped. split; [exact Hcrop|]. split; [exact Haxis|].
  unfold add_frame_and_mat, FS.image_open, FS.image_load.
  rewrite Hfile, Hbomb. cbn [rbind].
  rewrite Hcrop. cbn [rbind].
  unfold framed_photo, expand, width, height in *.
  destruct (size cropped) as [cw ch] eqn:Hsize. simpl in Hcw, Hch.
  unfold MAT_THICKNESS, FRAME_THICKNESS.
  assert (H1 : (80 + cw + 80 <? 0) = false) by (apply Z.ltb_ge; lia).
  assert (H2 : (80 + ch + 80 <? 0) = false) by (apply Z.ltb_ge; lia).
  rewrite H1, H2. cbn [orb rbind size]. rewrite Hsize.
  assert (H3 : (50 + (80 + cw + 80) + 50 <? 0) = false) by (apply Z.ltb_ge; lia).
  assert (H4 : (50 + (80 + ch + 80) + 50 <? 0) = false) by (apply Z.ltb_ge; lia).
  rewrite H3, H4. reflexivity.
Qed.

Lemma framing_succeeds_witness :
  exists cropped,
    cropped_photo (convert "RGB" Samples.photo) = Ok cropped
    /\ (width cropped = width Samples.photo
        \/ height cropped = height Samples.photo)
    /\ add_frame_and_mat "Favs/a.jpg" (Samples.world Samples.net_429_x3)
       = (Some (Expanded (Expanded cropped MAT_THICKNESS MAT_COLOR)
                  FRAME_THICKNESS FRAME_COLOR),
          log (EvOpen "Favs/a.jpg") (Samples.world Samples.net_429_x3)).
Proof.
  apply (framing_succeeds "Favs/a.jpg" (Samples.world Samples.net_429_x3)
           Samples.photo).
  - vm_compute. reflexivity.
  - unfold valid_dim, width. simpl. lia.
  - unfold valid_dim, height. simpl. lia.
  - vm_compute. reflexivity.
Defined.

End FramingFacts.

(** ** The banner grid on the canvas *)

Module GridFacts.

Import Banner Layout.

Lemma style_cases style :
  (grid_w style = 6 /\ tile_w style = 164 /\ tile_h style = 233)
  \/ (grid_w style = 16 /\ tile_w style = 153 /\ tile_h style = 221).
Proof.
  unfold tile_w, tile_h, grid_w.
  destruct (String.eqb style "cinematic"); [left|right];
    repeat split; reflexivity.
Qed.

Lemma grid_layout style r c r' c' :
  0 <= r < total_rows -> 0 <= c < total_cols ->
  0 <= r' < total_rows -> 0 <= c' < total_cols ->
  inside style (corner style (r, c))
  /\ grid_w style <= tile_x style c
  /\ tile_x style c + tile_w style + grid_w style <= W
  /\ grid_w style <= tile_y style r
  /\ tile_y style r + tile_h style + grid_w style <= H
  /\ (c < c' -> tile_x style c + tile_w style + grid_w style <= tile_x style c')
  /\ (r < r' -> tile_y style r + tile_h style + grid_w style <= tile_y style r')
  /\ ((r, c) <> (r', c') ->
      apart style (corner style (r, c)) (corner style (r', c'))).
Proof.
  unfold total_rows, total_cols, inside, apart, corner, tile_x, tile_y, W, H.
  intros Hr Hc Hr' Hc'. simpl fst. simpl snd.
  destruct (style_cases style) as [(-> & -> & ->)|(-> & -> & ->)].
  - repeat split; try lia.
    intros Hne.
    assert (Hcase : r < r' \/ r' < r \/ c < c' \/ c' < c).
    { destruct (Z.eq_dec r r') as [->|]; [|lia].
      destruct (Z.eq_dec c c') as [->|]; [congruence|lia]. }
    lia.
  - repeat split; try lia.
    intros Hne.
    assert (Hcase : r < r' \/ r' < r \/ c < c' \/ c' < c).
    { destruct (Z.eq_dec r r') as [->|]; [|lia].
      destruct (Z.eq_dec c c') as [->|]; [congruence|lia]. }
    lia.
Qed.

(** X14. In both styles every cell of the 15 x 6 grid has its tile inside
    the 2560 x 1440 canvas, with a full gutter before it and after it on
    both axes, and the tiles of two different cells share no pixel:
    neighbours are a gutter apart. *)
Theorem tiles_inside_and_apart style r c r' c' :
  0 <= r < 6 -> 0 <= c < 15 -> 0 <= r' < 6 -> 0 <= c' < 15 ->
  inside style (corner style (r, c))
  /\ grid_w style <= tile_x style c
  /\ tile_x style c + tile_w style + grid_w style <= W
  /\ grid_w style <= tile_y style r
  /\ tile_y style r + tile_h style + grid_w style <= H
  /\ (c < c' -> tile_x style c + tile_w style + grid_w style <= tile_x style c')
  /\ (r < r' -> tile_y style r + tile_h style + grid_w style <= tile_y style r')
  /\ ((r, c) <> (r', c') ->
      apart style (corner style (r, c)) (corner style (r', c'))).
Proof. apply grid_layout. Qed.

Lemma tiles_inside_and_apart_witness :
  inside "cinematic" (corner "cinematic" (5, 14))
  /\ grid_w "cinematic" <= tile_x "cinematic" 14
  /\ tile_x "cinematic" 14 + tile_w "cinematic" + grid_w "cinematic" <= W
  /\ grid_w "cinematic" <= tile_y "cinematic" 5
  /\ tile_y "cinematic" 5 + tile_h "cinematic" + grid_w "cinematic" <= H
  /\ (14 < 13 ->
      tile_x "cinematic" 14 + tile_w "cinematic" + grid_w "cinematic"
      <= tile_x "cinematic" 13)
  /\ (5 < 5 ->
      tile_y "cinematic" 5 + tile_h "cinematic" + grid_w "cinematic"
      <= tile_y "cinematic" 5)
  /\ ((5, 14) <> (5, 13) ->
      apart "cinematic" (corner "cinematic" (5, 14)) (corner "cinematic" (5, 13))).
Proof.
  apply (tiles_inside_and_apart "cinematic" 5 14 5 13); lia.
Defined.

(** *** What the loop leaves on the canvas *)

Lemma paste_tile_cases {machine : Machine} files style r c path base :
  paste_tile files style r c path base = base
  \/ exists tile,
       paste_tile files style r c path base
       = base ++ [(corner style (r, c), tile)]
       /\ size tile = (tile_w style, tile_h style).
Proof.
  unfold paste_tile.
  destruct (im <- FS.image_open files path ;;
            _ <- FS.image_load files path ;;
            fit_crop (convert "RGB" im) (tile_w style) (tile_h style))
    as [tile|] eqn:Htile; [|left; reflexivity].
  right. exists tile. split; [reflexivity|].
  destruct (FS.image_open files path) as [im|]; [|discriminate].
  destruct (FS.image_load files path) as [[]|]; [|discriminate].
  apply (BannerFacts.fit_crop_returns_size _ _ _ _ Htile).
Qed.

Lemma getitem_Ok {A : Type} (l : list A) (i : Z) (x : A) :
  0 <= i -> Py.getitem l i = Ok x -> l !! Z.to_nat i = Some x.
Proof.
  intros Hi. unfold Py.getitem.
  assert (H0 : (i <? 0) = false) by (apply Z.ltb_ge; lia).
  cbv zeta. rewrite H0. cbv iota. rewrite H0.
  destruct (Py.len l <=? i); simpl; [discriminate|].
  destruct (l !! Z.to_nat i); [|discriminate].
  intros [= ->]. reflexivity.
Qed.

Lemma paths_from_cons src p ps :
  paths_from src (p :: ps)
  = match source p, src with
    | Favs, Favs | Others, Others => img_path p :: paths_from src ps
    | _, _ => paths_from src ps
    end.
Proof. unfold paths_from. simpl. destruct (source p), src; reflexivity. Qed.

(** Everything one run of the loop establishes. *)
Lemma fill_grid_sound {machine : Machine} files style F O :
  forall todo fav_idx other_idx base ps final,
    0 <= fav_idx -> 0 <= other_idx ->
    fill_grid files style F O todo fav_idx other_idx base = Ok (ps, final) ->
    cell <$> ps = todo
    /\ Forall (placed_from F O) ps
    /\ (exists placed : list (Z * Z * Image),
          final = base ++ ((fun e => (corner style (fst e), snd e)) <$> placed)
          /\ (fst <$> placed) `sublist_of` todo
          /\ Forall (fun e => size (snd e) = (tile_w style, tile_h style)) placed)
    /\ paths_from Favs ps
       = take (Z.to_nat (n_center todo)) (drop (Z.to_nat fav_idx) F)
    /\ paths_from Others ps
       = take (Z.to_nat (n_outer todo)) (drop (Z.to_nat other_idx) O).
Proof.
  induction todo as [|[r c] todo IH];
    intros fi oi base ps final Hfi Hoi Hfill.
  - simpl in Hfill. injection Hfill as <- <-.
    split; [reflexivity|]. split; [constructor|].
    split; [exists []; simpl; rewrite app_nil_r; repeat split; constructor|].
    split; reflexivity.
  - simpl fill_grid in Hfill.
    rewrite BannerFacts.n_center_cons, BannerFacts.n_outer_cons.
    pose proof (BannerFacts.n_center_nonneg todo) as Hnc.
    pose proof (BannerFacts.n_outer_nonneg todo) as Hno.
    destruct (in_center r c) eqn:Hc.
    + destruct (Py.getitem F fi) as [path|] eqn:Hget; [|discriminate].
      cbn [rbind] in Hfill.
      destruct (fill_grid files style F O todo (fi + 1) oi
                  (paste_tile files style r c
                     (img_path {| cell := (r, c); source := Favs;
                                  img_path := path |}) base))
        as [[ps' final']|] eqn:Hrest; [|discriminate].
      cbn [rbind fst snd] in Hfill. injection Hfill as <- <-.
      destruct (IH (fi + 1) oi _ _ _ ltac:(lia) Hoi Hrest)
        as (Hcells & Hall & (placed & Hfinal & Hsub & Hsizes) & HF & HO).
      apply getitem_Ok in Hget; [|exact Hfi].
      split; [rewrite fmap_cons, Hcells; reflexivity|].
      split.
      { constructor; [|exact Hall]. unfold placed_from. simpl. rewrite Hc.
        split; [reflexivity|]. eapply list_elem_of_lookup_2, Hget. }
      split.
      { simpl img_path in Hfinal.
        destruct (paste_tile_cases files style r c path base)
          as [Hsame|(tile & Hpaste & Hsize)].
        - exists placed. rewrite Hfinal, Hsame.
          split; [reflexivity|]. split; [apply sublist_cons, Hsub|exact Hsizes].
        - exists ((r, c, tile) :: placed). rewrite Hfinal, Hpaste.
          rewrite fmap_cons, <- app_assoc. split; [reflexivity|].
          split; [rewrite fmap_cons; apply sublist_skip, Hsub|].
          constructor; [exact Hsize|exact Hsizes]. }
      split.
      { rewrite paths_from_cons. simpl source. cbv iota. simpl img_path.
        rewrite HF, (drop_S _ _ _ Hget).
        replace (Z.to_nat (1 + n_center todo)) with (S (Z.to_nat (n_center todo)))
          by lia.
        replace (Z.to_nat (fi + 1)) with (S (Z.to_nat fi)) by lia.
        reflexivity. }
      { rewrite paths_from_cons. simpl source. cbv iota.
        rewrite HO. f_equal. }
    + destruct (Py.getitem O oi) as [path|] eqn:Hget; [|discriminate].
      cbn [rbind] in Hfill.
      destruct (fill_grid files style F O todo fi (oi + 1)
                  (paste_tile files style r c
                     (img_path {| cell := (r, c); source := Others;
                                  img_path := path |}) base))
        as [[ps' final']|] eqn:Hrest; [|discriminate].
      cbn [rbind fst snd] in Hfill. injection Hfill as <- <-.
      destruct (IH fi (oi + 1) _ _ _ Hfi ltac:(lia) Hrest)
        as (Hcells & Hall & (placed & Hfinal & Hsub & Hsizes) & HF & HO).
      apply getitem_Ok in Hget; [|exact Hoi].
      split; [rewrite fmap_cons, Hcells; reflexivity|].
      split.
      { constructor; [|exact Hall]. unfold placed_from. simpl. rewrite Hc.
        split; [reflexivity|]. eapply list_elem_of_lookup_2, Hget. }
      split.
      { simpl img_path in Hfinal.
        destruct (paste_tile_cases files style r c path base)
          as [Hsame|(tile & Hpaste & Hsize)].
        - exists placed. rewrite Hfinal, Hsame.
          split; [reflexivity|]. split; [apply sublist_cons, Hsub|exact Hsizes].
        - exists ((r, c, tile) :: placed). rewrite Hfinal, Hpaste.
          rewrite fmap_cons, <- app_assoc. split; [reflexivity|].
          split; [rewrite fmap_cons; apply sublist_skip, Hsub|].
          constructor; [exact Hsize|exact Hsizes]. }
      split.
      { rewrite paths_from_cons. simpl source. cbv iota.
        rewrite HF. f_equal. }
      { rewrite paths_from_cons. simpl source. cbv iota. simpl img_path.
        rewrite HO, (drop_S _ _ _ Hget).
        replace (Z.to_nat (1 + n_outer todo)) with (S (Z.to_nat (n_outer todo)))
          by lia.
        replace (Z.to_nat (oi + 1)) with (S (Z.to_nat oi)) by lia.
        reflexivity. }
Qed.

Lemma cells_range r c :
  (r, c) ∈ cells -> 0 <= r < total_rows /\ 0 <= c < total_cols.
Proof.
  unfold cells. intros Hin.
  apply list_elem_of_In, in_flat_map in Hin as (r' & Hr & Hin).
  apply in_map_iff in Hin as (c' & [= <- <-] & Hc).
  apply list_elem_of_In, elem_of_seqZ in Hr.
  apply list_elem_of_In, elem_of_seqZ in Hc. lia.
Qed.

Lemma elem_of_to_place_full (pool : list string) (n : Z) (x : string) :
  x ∈ pool -> Py.len pool <= n -> x ∈ to_place pool n.
Proof.
  intros Hin Hlen.
  assert (Hpos : 1 <= Py.len pool).
  { destruct pool; [inversion Hin|]. unfold Py.len. simpl. lia. }
  unfold to_place, Py.slice_to, Py.list_mul.
  assert (H0 : (0 <=? n) = true) by (apply Z.leb_le; lia).
  rewrite H0.
  assert (Hq : 0 <= n / Py.len pool) by (apply Z.div_pos; lia).
  replace (Z.to_nat (n / Py.len pool + 1))
    with (S (Z.to_nat (n / Py.len pool))) by lia.
  simpl replicate. simpl concat.
  apply list_elem_of_lookup_1 in Hin as [i Hi].
  apply (list_elem_of_lookup_2 _ i).
  pose proof (lookup_lt_Some _ _ _ Hi) as Hlt.
  unfold Py.len in Hlen.
  rewrite lookup_take_lt by lia.
  rewrite lookup_app_l by exact Hlt. exact Hi.
Qed.

Section banner.

Context {machine : Machine}.
Variable rng : Type.
Variable shuffle : rng -> list string -> list string * rng.

(** What a returned grid says about the run that made it. *)
Lemma make_banner_Ok files favs_listing all_imgs style g ps base g' :
  make_banner rng shuffle files favs_listing all_imgs style g
  = Ok (ps, base, g') ->
  exists names g1,
    favs_listing = Some names
    /\ favs_of names <> []
    /\ others_of (favs_of names) all_imgs <> []
    /\ fill_grid files style
         (fst (shuffle g (to_place (favs_of names) center_slots)))
         (fst (shuffle g1
                 (to_place (others_of (favs_of names) all_imgs) outer_slots)))
         cells 0 0 []
       = Ok (ps, base)
    /\ g1 = snd (shuffle g (to_place (favs_of names) center_slots)).
Proof.
  unfold make_banner. destruct favs_listing as [names|]; [|discriminate].
  destruct (favs_of names) as [|f favs] eqn:Hfavs; [discriminate|].
  destruct (others_of (f :: favs) all_imgs) as [|o others] eqn:Hothers;
    [discriminate|].
  destruct (shuffle g (to_place (f :: favs) center_slots)) as [F g1] eqn:HF.
  destruct (shuffle g1 (to_place (o :: others) outer_slots)) as [O g2] eqn:HO.
  destruct (fill_grid files style F O cells 0 0 []) as [filled|] eqn:Hfill;
    [|discriminate].
  cbn [rbind]. intros [= -> <-].
  exists names, g1. rewrite Hfavs, Hothers, HF, HO. simpl.
  split; [reflexivity|]. split; [discriminate|]. split; [discriminate|].
  split; [exact Hfill|reflexivity].
Qed.

(** X15. On the canvas a banner run returns, every pasted tile measures
    exactly one tile, lies inside the 2560 x 1440 canvas, and shares no
    pixel with any other pasted tile; there are at most 90 of them. *)
Theorem pasted_tiles_apart files favs_listing all_imgs style g ps base g' :
  make_banner rng shuffle files favs_listing all_imgs style g
  = Ok (ps, base, g') ->
  (length base <= 90)%nat
  /\ forall i j p tile q tile',
       base !! i = Some (p, tile) -> base !! j = Some (q, tile') ->
       size tile = (tile_w style, tile_h style)
       /\ inside style p
       /\ (i <> j -> apart style p q).
Proof.
  intros Hrun.
  destruct (make_banner_Ok _ _ _ _ _ _ _ _ Hrun)
    as (names & g1 & _ & _ & _ & Hfill & _).
  destruct (fill_grid_sound _ _ _ _ _ 0 0 _ _ _ (Z.le_refl 0) (Z.le_refl 0) Hfill)
    as (_ & _ & (placed & Hbase & Hsub & Hsizes) & _).
  simpl in Hbase. subst base.
  split.
  { rewrite length_fmap, <- (length_fmap fst).
    apply sublist_length in Hsub. exact Hsub. }
  intros i j p tile q tile' Hi Hj.
  apply list_lookup_fmap_Some in Hi as (e & [= -> ->] & Hi).
  apply list_lookup_fmap_Some in Hj as (e' & [= -> ->] & Hj).
  assert (Hcell : forall k x, placed !! k = Some x -> fst x ∈ cells).
  { intros k x Hk. eapply elem_of_sublist; [|exact Hsub].
    apply list_elem_of_fmap. exists x. split; [reflexivity|].
    eapply list_elem_of_lookup_2, Hk. }
  destruct e as [[r c] t]. destruct e' as [[r' c'] t'].
  pose proof (cells_range _ _ (Hcell _ _ Hi)) as [Hr Hc].
  pose proof (cells_range _ _ (Hcell _ _ Hj)) as [Hr' Hc'].
  destruct (grid_layout style r c r' c' Hr Hc Hr' Hc')
    as (Hinside & _ & _ & _ & _ & _ & _ & Hapart).
  split; [apply (proj1 (Forall_lookup _ _) Hsizes i _ Hi)|].
  split; [exact Hinside|].
  intros Hne. apply Hapart. intros Heq. apply Hne.
  apply (NoDup_lookup (fst <$> placed) i j (r, c)).
  - eapply sublist_NoDup; [apply BannerFacts.cells_NoDup|exact Hsub].
  - rewrite list_lookup_fmap, Hi. reflexivity.
  - rewrite list_lookup_fmap, Hj. simpl. congruence.
Qed.

Hypothesis shuffle_permutes : forall g l, fst (shuffle g l) ≡ₚ l.

(** X16. In a banner run that returns, the paths the 14 centre cells read
    are, up to order, the favourites list cycled to 14 entries, and those
    of the 76 other cells the list of the other photos cycled to 76; so
    every favourite is shown when there are at most 14 of them, and every
    other photo when there are at most 76. *)
Theorem every_photo_is_shown files names all_imgs style g ps base g' :
  make_banner rng shuffle files (Some names) all_imgs style g
  = Ok (ps, base, g') ->
  paths_from Favs ps ≡ₚ to_place (favs_of names) center_slots
  /\ paths_from Others ps
     ≡ₚ to_place (others_of (favs_of names) all_imgs) outer_slots
  /\ (Py.len (favs_of names) <= 14 ->
      forall f, f ∈ favs_of names -> f ∈ paths_from Favs ps)
  /\ (Py.len (others_of (favs_of names) all_imgs) <= 76 ->
      forall o, o ∈ others_of (favs_of names) all_imgs ->
                o ∈ paths_from Others ps).
Proof.
  intros Hrun.
  destruct (make_banner_Ok _ _ _ _ _ _ _ _ Hrun)
    as (names' & g1 & [= <-] & Hfavs & Hothers & Hfill & _).
  set (favs := favs_of names) in *.
  set (others := others_of favs all_imgs) in *.
  assert (HlenF : 1 <= Py.len favs).
  { destruct favs; [congruence|]. unfold Py.len. simpl. lia. }
  assert (HlenO : 1 <= Py.len others).
  { destruct others; [congruence|]. unfold Py.len. simpl. lia. }
  destruct (BannerFacts.shuffled_pool rng shuffle shuffle_permutes g favs
              center_slots HlenF ltac:(vm_compute; congruence)) as [HF _].
  destruct (BannerFacts.shuffled_pool rng shuffle shuffle_permutes g1 others
              outer_slots HlenO ltac:(vm_compute; congruence)) as [HO _].
  destruct (fill_grid_sound _ _ _ _ _ 0 0 _ _ _ (Z.le_refl 0) (Z.le_refl 0) Hfill)
    as (_ & _ & _ & HpF & HpO).
  destruct BannerFacts.cells_counts as [Hnc Hno].
  rewrite Hnc in HpF. rewrite Hno in HpO.
  change (Z.to_nat 0) with 0%nat in HpF, HpO. rewrite drop_0 in HpF, HpO.
  rewrite take_ge in HpF
    by (apply Nat2Z.inj_le; etransitivity; [apply Z.eq_le_incl, HF|]; vm_compute; congruence).
  rewrite take_ge in HpO
    by (apply Nat2Z.inj_le; etransitivity; [apply Z.eq_le_incl, HO|]; vm_compute; congruence).
  assert (HpermF : paths_from Favs ps ≡ₚ to_place favs center_slots)
    by (rewrite HpF; apply shuffle_permutes).
  assert (HpermO : paths_from Others ps ≡ₚ to_place others outer_slots)
    by (rewrite HpO; apply shuffle_permutes).
  split; [exact HpermF|]. split; [exact HpermO|]. split.
  - intros Hlen f Hf. rewrite HpermF.
    apply elem_of_to_place_full; [exact Hf|exact Hlen].
  - intros Hlen o Ho. rewrite HpermO.
    apply elem_of_to_place_full; [exact Ho|exact Hlen].
Qed.

(** X17. The grid stage of [make_banner] fails in two ways only: with
    FileNotFoundError when the favourites folder is missing, and with
    ValueError when one of the two pools is empty. With both pools
    non-empty the loop never runs off a list. *)
Theorem make_banner_failures files favs_listing all_imgs style g e :
  make_banner rng shuffle files favs_listing all_imgs style g = Raise e
  <-> (favs_listing = None /\ e = FileNotFoundError)
      \/ (exists names,
            favs_listing = Some names
            /\ (favs_of names = []
                \/ others_of (favs_of names) all_imgs = [])
            /\ e = ValueError).
Proof.
  unfold make_banner. split.
  - destruct favs_listing as [names|]; [|intros [= <-]; left; auto].
    intros Hrun. right. exists names. split; [reflexivity|].
    destruct (favs_of names) as [|f favs] eqn:Hfavs;
      [injection Hrun as <-; auto|].
    destruct (others_of (f :: favs) all_imgs) as [|o others] eqn:Hothers;
      [injection Hrun as <-; auto|].
    exfalso.
    assert (HlenF : 1 <= Py.len (f :: favs)) by (unfold Py.len; simpl; lia).
    assert (HlenO : 1 <= Py.len (o :: others)) by (unfold Py.len; simpl; lia).
    destruct (BannerFacts.shuffled_pool rng shuffle shuffle_permutes g
                (f :: favs) center_slots HlenF ltac:(vm_compute; congruence))
      as [HF _].
    destruct (shuffle g (to_place (f :: favs) center_slots)) as [F g1].
    destruct (BannerFacts.shuffled_pool rng shuffle shuffle_permutes g1
                (o :: others) outer_slots HlenO ltac:(vm_compute; congruence))
      as [HO _].
    destruct (shuffle g1 (to_place (o :: others) outer_slots)) as [O g2].
    simpl fst in *.
    destruct BannerFacts.cells_counts as [Hnc Hno].
    destruct (BannerFacts.fill_grid_ok files style F O cells 0 0 []
                ltac:(lia) ltac:(lia)
                ltac:(rewrite Hnc, HF; vm_compute; congruence)
                ltac:(rewrite Hno, HO; vm_compute; congruence))
      as (ps & final & Hfill & _).
    rewrite Hfill in Hrun. discriminate.
  - intros [[-> ->]|(names & -> & Hempty & ->)]; [reflexivity|].
    destruct Hempty as [-> | Hothers]; [reflexivity|].
    destruct (favs_of names); [reflexivity|]. rewrite Hothers. reflexivity.
Qed.

(** X18. In a banner run that returns, every path a centre cell reads is
    an image file of the favourites folder, and no path another cell
    reads has the base name of a favourite: the favourites do not come
    back in the background. *)
Theorem favourites_stay_in_the_centre files names all_imgs style g ps base g' :
  make_banner rng shuffle files (Some names) all_imgs style g
  = Ok (ps, base, g') ->
  forall p, p ∈ ps ->
    (source p = Favs ->
     is_image (img_path p) = true
     /\ exists f, f ∈ names /\ img_path p = Py.path_join FAVS_FOLDER f)
    /\ (source p = Others ->
        img_path p ∈ all_imgs
        /\ forall f, f ∈ favs_of names ->
             Py.basename (img_path p) <> Py.basename f).
Proof.
  intros Hrun p Hp.
  destruct (make_banner_Ok _ _ _ _ _ _ _ _ Hrun)
    as (names' & g1 & [= <-] & Hfavs & Hothers & Hfill & _).
  destruct (fill_grid_sound _ _ _ _ _ 0 0 _ _ _ (Z.le_refl 0) (Z.le_refl 0) Hfill)
    as (_ & Hall & _).
  pose proof (proj1 (Forall_forall _ _) Hall p Hp) as [_ Hpath].
  split.
  - intros Hsrc. rewrite Hsrc in Hpath.
    rewrite (shuffle_permutes g _) in Hpath.
    apply BannerFacts.elem_of_to_place in Hpath.
    unfold favs_of in Hpath.
    apply list_elem_of_In, filter_In in Hpath as [Hin His].
    split; [exact His|].
    apply in_map_iff in Hin as (f & <- & Hf).
    exists f. split; [apply list_elem_of_In, Hf|reflexivity].
  - intros Hsrc. rewrite Hsrc in Hpath.
    rewrite (shuffle_permutes g1 _) in Hpath.
    apply BannerFacts.elem_of_to_place in Hpath.
    unfold others_of in Hpath.
    apply list_elem_of_In, filter_In in Hpath as [Hin Hnot].
    split; [apply list_elem_of_In, Hin|].
    intros f Hf Heq.
    apply negb_true_iff, bool_decide_eq_false_1 in Hnot. apply Hnot.
    rewrite Heq. apply list_elem_of_In, in_map, list_elem_of_In, Hf.
Qed.

End banner.

Lemma banner_run_returns :
  exists r,
    make_banner (machine := Samples.machine) unit Samples.reverse_shuffle
      Samples.banner_files
      (Some Samples.banner_names) Samples.banner_imgs "cinematic" tt
    = Ok r.
Proof. vm_compute. eexists. reflexivity. Qed.

Lemma reverse_shuffle_permutes (g : unit) (l : list string) :
  fst (Samples.reverse_shuffle g l) ≡ₚ l.
Proof. unfold Samples.reverse_shuffle. cbn [fst]. apply reverse_Permutation. Qed.

Lemma pasted_tiles_apart_witness :
  exists ps base g',
    make_banner (machine := Samples.machine) unit Samples.reverse_shuffle
      Samples.banner_files
      (Some Samples.banner_names) Samples.banner_imgs "cinematic" tt
    = Ok (ps, base, g')
    /\ (length base <= 90)%nat
    /\ forall i j p tile q tile',
         base !! i = Some (p, tile) -> base !! j = Some (q, tile') ->
         size tile = (tile_w "cinematic", tile_h "cinematic")
         /\ inside "cinematic" p
         /\ (i <> j -> apart "cinematic" p q).
Proof.
  destruct banner_run_returns as [[[ps base] g'] Hrun].
  exists ps, base, g'. split; [exact Hrun|].
  exact (pasted_tiles_apart unit Samples.reverse_shuffle Samples.banner_files
           (Some Samples.banner_names) Samples.banner_imgs "cinematic" tt
           ps base g' Hrun).
Defined.

Lemma every_photo_is_shown_witness :
  exists ps base g',
    make_banner (machine := Samples.machine) unit Samples.reverse_shuffle
      Samples.banner_files
      (Some Samples.banner_names) Samples.banner_imgs "cinematic" tt
    = Ok (ps, base, g')
    /\ paths_from Favs ps
       ≡ₚ to_place (favs_of Samples.banner_names) center_slots
    /\ paths_from Others ps
       ≡ₚ to_place (others_of (favs_of Samples.banner_names)
                      Samples.banner_imgs) outer_slots
    /\ (Py.len (favs_of Samples.banner_names) <= 14 ->
        forall f, f ∈ favs_of Samples.banner_names -> f ∈ paths_from Favs ps)
    /\ (Py.len (others_of (favs_of Samples.banner_names)
                  Samples.banner_imgs) <= 76 ->
        forall o,
          o ∈ others_of (favs_of Samples.banner_names) Samples.banner_imgs ->
          o ∈ paths_from Others ps).
Proof.
  destruct banner_run_returns as [[[ps base] g'] Hrun].
  exists ps, base, g'. split; [exact Hrun|].
  exact (every_photo_is_shown unit Samples.reverse_shuffle
           reverse_shuffle_permutes Samples.banner_files
           Samples.banner_names Samples.banner_imgs "cinematic" tt
           ps base g' Hrun).
Defined.

Lemma make_banner_failures_witness :
  make_banner (machine := Samples.machine) unit Samples.reverse_shuffle
    Samples.banner_files (Some ["notes.txt"]) Samples.banner_imgs "cinematic" tt
  = Raise ValueError.
Proof.
  apply (make_banner_failures unit Samples.reverse_shuffle
           reverse_shuffle_permutes).
  right. exists ["notes.txt"]. split; [reflexivity|].
  split; [left; vm_compute; reflexivity|reflexivity].
Defined.

Lemma favourites_stay_in_the_centre_witness :
  exists ps base g',
    make_banner (machine := Samples.machine) unit Samples.reverse_shuffle
      Samples.banner_files
      (Some Samples.banner_names) Samples.banner_imgs "cinematic" tt
    = Ok (ps, base, g')
    /\ forall p, p ∈ ps ->
         (source p = Favs ->
          is_image (img_path p) = true
          /\ exists f, f ∈ Samples.banner_names
                       /\ img_path p = Py.path_join FAVS_FOLDER f)
         /\ (source p = Others ->
             img_path p ∈ Samples.banner_imgs
             /\ forall f, f ∈ favs_of Samples.banner_names ->
                  Py.basename (img_path p) <> Py.basename f).
Proof.
  destruct banner_run_returns as [[[ps base] g'] Hrun].
  exists ps, base, g'. split; [exact Hrun|].
  exact (favourites_stay_in_the_centre unit Samples.reverse_shuffle
           reverse_shuffle_permutes Samples.banner_files
           Samples.banner_names Samples.banner_imgs "cinematic" tt
           ps base g' Hrun).
Defined.

End GridFacts.
(** ** The name of the dominant colour

    On channel values (0 to 255) the float tests of
    [get_dominant_color_name] decide exactly what the same tests on
    rationals would: no rounding moves a pixel across a threshold. *)

Module ColorFacts.

Import PyFloat Colors.

Lemma forallb_seqZ (f : Z -> bool) (m n x : Z) :
  forallb f (seqZ m n) = true -> m <= x < m + n -> f x = true.
Proof.
  intros Hall Hx. rewrite forallb_forall in Hall. apply Hall.
  apply list_elem_of_In, elem_of_seqZ. exact Hx.
Qed.

Lemma mean_table :
  forallb
    (fun s =>
       match truediv s 3 with
       | Ok m => eqb (int_gt 50 m) (s <? 150) && eqb (int_lt 200 m) (600 <? s)
       | Raise _ => false
       end)
    (seqZ 0 766) = true.
Proof. vm_compute. reflexivity. Qed.

(** [n > x] can only turn true as the int [n] grows. *)
Lemma int_gt_mono n n' x :
  n <= n' -> int_gt n x = true -> int_gt n' x = true.
Proof.
  intros Hle. unfold int_gt, int_compare.
  destruct x as [s|s| |s m e]; try (intros H; exact H).
  - destruct (Z.compare_spec n 0); try discriminate. intros _.
    destruct (Z.compare_spec n' 0); first [reflexivity | lia].
  - destruct (Z.leb_spec 0 e) as [He|He].
    + destruct (Z.compare_spec n ((if s then Z.neg m else Z.pos m) * 2 ^ e));
        try discriminate.
      intros _.
      destruct (Z.compare_spec n' ((if s then Z.neg m else Z.pos m) * 2 ^ e));
        first [reflexivity | lia].
    + assert (Hpow : 0 < 2 ^ (- e)) by (apply Z.pow_pos_nonneg; lia).
      destruct (Z.compare_spec (n * 2 ^ (- e)) (if s then Z.neg m else Z.pos m));
        try discriminate.
      intros _.
      destruct (Z.compare_spec (n' * 2 ^ (- e))
                  (if s then Z.neg m else Z.pos m));
        first [reflexivity | nia].
Qed.

(** For every channel value [k], the two ints on either side of
    [k * 1.2] and of [k * 1.1]. *)
Lemma exceeds_table :
  forallb
    (fun k =>
       match int_mul k lit_1_2, int_mul k lit_1_1 with
       | Ok x, Ok y =>
           negb (int_gt (6 * k / 5) x) && int_gt (6 * k / 5 + 1) x
           && negb (int_gt (11 * k / 10) y) && int_gt (11 * k / 10 + 1) y
       | _, _ => false
       end)
    (seqZ 0 256) = true.
Proof. vm_compute. reflexivity. Qed.

Lemma mean_tests_exact r g b :
  channel r -> channel g -> channel b ->
  mean_below r g b 50 = Ok (r + g + b <? 150)
  /\ mean_above r g b 200 = Ok (600 <? r + g + b).
Proof.
  unfold channel. intros Hr Hg Hb.
  pose proof (forallb_seqZ _ 0 766 (r + g + b) mean_table ltac:(lia)) as Ht.
  cbv beta in Ht. unfold mean_below, mean_above.
  destruct (truediv (r + g + b) 3) as [m|]; [|discriminate].
  apply andb_true_iff in Ht as [H1 H2].
  apply eqb_prop in H1, H2. cbn [rbind]. rewrite H1, H2. split; reflexivity.
Qed.

(** Between two ints that the float separates, the test on [n] is the
    test on the exact product. *)
Lemma int_gt_threshold n x q a b :
  0 < b ->
  int_gt (a / b) x = false -> int_gt (a / b + 1) x = true ->
  q = (a <? b * n) -> int_gt n x = q.
Proof.
  intros Hb Hlow Hhigh ->.
  destruct (Z.ltb_spec a (b * n)) as [Hlt|Hge].
  - apply (int_gt_mono (a / b + 1) n); [|exact Hhigh].
    pose proof (Z.div_lt_upper_bound a b n Hb Hlt). lia.
  - destruct (int_gt n x) eqn:Hn; [|reflexivity].
    rewrite <- Hlow. symmetry.
    apply (int_gt_mono n (a / b)); [|exact Hn].
    apply Z.div_le_lower_bound; lia.
Qed.

Lemma exceeds_exact n k :
  channel n -> channel k ->
  exceeds n k lit_1_2 = Ok (6 * k <? 5 * n)
  /\ exceeds n k lit_1_1 = Ok (11 * k <? 10 * n).
Proof.
  unfold channel. intros Hn Hk.
  pose proof (forallb_seqZ _ 0 256 k exceeds_table ltac:(lia)) as Ht.
  cbv beta in Ht. unfold exceeds.
  destruct (int_mul k lit_1_2) as [x|]; [|discriminate].
  destruct (int_mul k lit_1_1) as [y|]; [|discriminate].
  repeat (apply andb_true_iff in Ht as [Ht ?]).
  repeat match goal with
         | H : negb _ = true |- _ => apply negb_true_iff in H
         end.
  cbn [rbind]. split; f_equal.
  - apply (int_gt_threshold n x _ (6 * k) 5); auto; lia.
  - apply (int_gt_threshold n y _ (11 * k) 10); auto; lia.
Qed.

(** The chain of tests with every float comparison replaced by the
    integer comparison it decides. *)
Lemma color_name_exact r g b :
  channel r -> channel g -> channel b ->
  color_name r g b
  = Ok (if (200 <? r) && (g <? 100) && (b <? 100) then "reddish"
        else if (200 <? g) && (r <? 100) && (b <? 100) then "greenish"
        else if (200 <? b) && (r <? 100) && (g <? 100) then "bluish"
        else if (150 <? r) && (150 <? g) && (b <? 100) then "yellowish"
        else if (150 <? r) && (150 <? b) && (g <? 100) then "purplish"
        else if (150 <? g) && (150 <? b) && (r <? 100) then "teal"
        else if r + g + b <? 150 then "dark gray"
        else if 600 <? r + g + b then "light gray"
        else if (g <? r) && (b <? r)
        then (if 100 <? g then "warm" else "reddish")
        else if (r <? g) && (b <? g) then "cool green"
        else if (r <? b) && (g <? b) then "cool blue"
        else if (6 * b <? 5 * r) && (11 * b <? 10 * g) then "warm neutral"
        else if (6 * r <? 5 * b) && (11 * g <? 10 * b) then "cool neutral"
        else "neutral").
Proof.
  intros Hr Hg Hb. unfold color_name.
  destruct (mean_tests_exact r g b Hr Hg Hb) as [-> ->].
  destruct (exceeds_exact r b Hr Hb) as [-> _].
  destruct (exceeds_exact g b Hg Hb) as [_ ->].
  destruct (exceeds_exact b r Hb Hr) as [-> _].
  destruct (exceeds_exact b g Hb Hg) as [_ ->].
  cbn [rbind].
  repeat match goal with
         | |- (if ?c then _ else _) = _ => destruct c; cbn [rbind]
         | |- rbind (if ?c then _ else _) _ = _ => destruct c; cbn [rbind]
         end;
    reflexivity.
Qed.

Ltac bool_facts :=
  repeat match goal with
         | H : _ = true |- _ =>
             rewrite ?andb_true_iff, ?Z.ltb_lt in H;
             lazymatch type of H with _ = true => fail | _ => idtac end
         | H : _ = false |- _ =>
             rewrite ?andb_false_iff, ?Z.ltb_ge in H;
             lazymatch type of H with _ = false => fail | _ => idtac end
         end.

Ltac walk_chain :=
  repeat match goal with
         | |- context [Ok (if ?c then _ else _)] =>
             let E := fresh "E" in destruct c eqn:E
         | |- (if ?c then _ else _) ∈ _ =>
             let E := fresh "E" in destruct c eqn:E
         end.

(** X19. For a dominant colour with channels in 0..255 the function
    returns one of thirteen names. It never falls back to "harmonious",
    which is left to a failed extraction, and it never answers
    "cool neutral": the tests before that one take every colour whose
    blue channel is the strict maximum. *)
Theorem dominant_color_is_named r g b :
  channel r -> channel g -> channel b ->
  exists name,
    color_name r g b = Ok name
    /\ get_dominant_color_name (Ok (r, g, b)) = name
    /\ name ∈ ["reddish"; "greenish"; "bluish"; "yellowish"; "purplish";
               "teal"; "dark gray"; "light gray"; "warm"; "cool green";
               "cool blue"; "warm neutral"; "neutral"].
Proof.
  intros Hr Hg Hb. unfold get_dominant_color_name. cbn [rbind].
  rewrite (color_name_exact r g b Hr Hg Hb).
  eexists. split; [reflexivity|]. split; [reflexivity|].
  unfold channel in *.
  walk_chain;
    try (repeat first [apply list_elem_of_here | apply list_elem_of_further]).
  exfalso. bool_facts. lia.
Qed.

(** X20. The two grays follow the sum of the channels exactly: "dark
    gray" is the answer when the sum is below 150 and only then, "light
    gray" when the sum is above 600 and no channel is below 100 and only
    then. *)
Theorem gray_names r g b :
  channel r -> channel g -> channel b ->
  (color_name r g b = Ok "dark gray" <-> r + g + b < 150)
  /\ (color_name r g b = Ok "light gray"
      <-> 600 < r + g + b /\ 100 <= r /\ 100 <= g /\ 100 <= b).
Proof.
  intros Hr Hg Hb. rewrite (color_name_exact r g b Hr Hg Hb).
  unfold channel in *.
  split.
  - walk_chain; bool_facts;
      (split; [intros Heq; first [discriminate Heq | lia]
              |intros HP; first [reflexivity | exfalso; lia]]).
  - walk_chain; bool_facts;
      (split; [intros Heq; first [discriminate Heq | lia]
              |intros HP; first [reflexivity | exfalso; lia]]).
Qed.

(** X21. "warm neutral" is the answer exactly for the colours with equal
    red and green, blue below five sixths of them, a sum between 150
    and 600, and not already taken as yellowish. *)
Theorem warm_neutral_iff r g b :
  channel r -> channel g -> channel b ->
  color_name r g b = Ok "warm neutral"
  <-> r = g /\ 6 * b < 5 * r /\ 150 <= r + g + b <= 600
      /\ (r <= 150 \/ 100 <= b).
Proof.
  intros Hr Hg Hb. rewrite (color_name_exact r g b Hr Hg Hb).
  unfold channel in *.
  walk_chain; bool_facts;
    (split; [intros Heq; first [discriminate Heq | lia]
            |intros HP; first [reflexivity | exfalso; lia]]).
Qed.

Lemma dominant_color_is_named_witness :
  exists name,
    color_name 120 120 90 = Ok name
    /\ get_dominant_color_name (Ok (120, 120, 90)) = name
    /\ name ∈ ["reddish"; "greenish"; "bluish"; "yellowish"; "purplish";
               "teal"; "dark gray"; "light gray"; "warm"; "cool green";
               "cool blue"; "warm neutral"; "neutral"].
Proof. apply (dominant_color_is_named 120 120 90); unfold channel; lia. Defined.

Lemma gray_names_witness :
  (color_name 40 60 49 = Ok "dark gray" <-> 40 + 60 + 49 < 150)
  /\ (color_name 40 60 49 = Ok "light gray"
      <-> 600 < 40 + 60 + 49 /\ 100 <= 40 /\ 100 <= 60 /\ 100 <= 49).
Proof. apply (gray_names 40 60 49); unfold channel; lia. Defined.

Lemma warm_neutral_iff_witness :
  color_name 120 120 90 = Ok "warm neutral"
  <-> 120 = 120 /\ 6 * 90 < 5 * 120 /\ 150 <= 120 + 120 + 90 <= 600
      /\ (120 <= 150 \/ 100 <= 90).
Proof. apply (warm_neutral_iff 120 120 90); unfold channel; lia. Defined.

End ColorFacts.

(** ** The opacity of the logo *)

Module LogoFacts.

Import PyFloat Logo.

Lemma scale_alpha_table :
  forallb
    (fun o =>
       match truediv o 255 with
       | Ok ratio =>
           forallb
             (fun p =>
                match (x <- Colors.int_mul p ratio ;; to_int x) with
                | Ok a =>
                    (0 <=? a)
                    && ((a =? p * o / 255)
                        || ((a =? p * o / 255 - 1) && (p * o mod 255 =? 0)
                            && negb (o =? 160) && negb (o =? 255)
                            && negb (p =? 255)))
                | Raise _ => false
                end)
             (seqZ 0 256)
       | Raise _ => false
       end)
    (seqZ 0 256) = true.
Proof. vm_compute. reflexivity. Qed.

(** X22. For an opacity and an alpha value in 0..255 the scaled alpha is
    the floor of [p * opacity / 255], or one less where that quotient is
    a whole number and the float product falls just short of it; it is
    never negative and never above the alpha it scales. With the default
    opacity 160, with full opacity, and for a fully opaque pixel it is
    the exact floor. *)
Theorem scale_alpha_range opacity p :
  Colors.channel opacity -> Colors.channel p ->
  exists a,
    scale_alpha opacity p = Ok a
    /\ 0 <= a <= p
    /\ p * opacity / 255 - 1 <= a <= p * opacity / 255
    /\ (p * opacity mod 255 <> 0 \/ opacity = 160 \/ opacity = 255
        \/ p = 255 ->
        a = p * opacity / 255).
Proof.
  unfold Colors.channel. intros Ho Hp.
  pose proof (ColorFacts.forallb_seqZ _ 0 256 opacity scale_alpha_table
                ltac:(lia)) as Ht.
  cbv beta in Ht. unfold scale_alpha.
  destruct (truediv opacity 255) as [ratio|]; [|discriminate].
  pose proof (ColorFacts.forallb_seqZ _ 0 256 p Ht ltac:(lia)) as Hop.
  cbv beta in Hop. cbn [rbind] in Hop |- *.
  destruct (rbind (Colors.int_mul p ratio) to_int) as [a|]; [|discriminate].
  exists a. split; [reflexivity|].
  assert (Hq : p * opacity / 255 <= p).
  { apply Z.div_le_upper_bound; nia. }
  apply andb_true_iff in Hop as [H0 Hop]. apply Z.leb_le in H0.
  apply orb_true_iff in Hop as [Hex|Hoff].
  - apply Z.eqb_eq in Hex. lia.
  - repeat (apply andb_true_iff in Hoff as [Hoff ?]).
    repeat match goal with
           | H : negb _ = true |- _ => apply negb_true_iff, Z.eqb_neq in H
           | H : (_ =? _) = true |- _ => apply Z.eqb_eq in H
           end.
    lia.
Qed.

Lemma scale_alpha_range_witness :
  exists a,
    scale_alpha 160 255 = Ok a
    /\ 0 <= a <= 255
    /\ 255 * 160 / 255 - 1 <= a <= 255 * 160 / 255
    /\ (255 * 160 mod 255 <> 0 \/ 160 = 160 \/ 160 = 255 \/ 255 = 255 ->
        a = 255 * 160 / 255).
Proof. apply (scale_alpha_range 160 255); unfold Colors.channel; lia. Defined.

End LogoFacts.

(** ** The file filters *)

Module FilterFacts.

Import Banner Mockup.

Lemma substring_all s : substring 0 (String.length s) s = s.
Proof. induction s as [|c s IH]; simpl; [|rewrite IH]; reflexivity. Qed.

Lemma substring_skip stem suf :
  substring (String.length stem) (String.length suf) (stem +:+ suf) = suf.
Proof.
  induction stem as [|c stem IH];
    rewrite ?PathFacts.append_nil_l, ?PathFacts.append_cons; simpl.
  - apply substring_all.
  - exact IH.
Qed.

Lemma endswith_append stem suf : Py.endswith (stem +:+ suf) suf = true.
Proof.
  unfold Py.endswith. rewrite PathFacts.length_append_string.
  destruct (Nat.leb_spec (String.length suf)
              (String.length stem + String.length suf)) as [_|Hlt]; [|lia].
  replace (String.length stem + String.length suf - String.length suf)%nat
    with (String.length stem) by lia.
  rewrite substring_skip. apply String.eqb_refl.
Qed.

Lemma split_at s : forall n,
  (n <= String.length s)%nat ->
  exists a b,
    s = a +:+ b /\ String.length a = n
    /\ forall k, substring n k s = substring 0 k b.
Proof.
  induction s as [|c s IH]; intros n Hn.
  - simpl in Hn. assert (n = 0%nat) as -> by lia.
    exists "", "". repeat split.
  - destruct n as [|n].
    + exists "", (String c s). repeat split.
    + simpl in Hn. destruct (IH n ltac:(lia)) as (a & b & -> & Hlen & Hsub).
      exists (String c a), b. rewrite PathFacts.append_cons. simpl.
      split; [reflexivity|]. split; [lia|]. exact Hsub.
Qed.

Lemma endswith_inv s suf :
  Py.endswith s suf = true -> exists stem, s = stem +:+ suf.
Proof.
  unfold Py.endswith.
  destruct (Nat.leb_spec (String.length suf) (String.length s)) as [Hle|_];
    [|discriminate].
  intros Heq. apply String.eqb_eq in Heq.
  destruct (split_at s (String.length s - String.length suf) ltac:(lia))
    as (a & b & Hs & Hlen & Hsub).
  exists a. rewrite Hsub in Heq.
  assert (Hb : String.length b = String.length suf).
  { pose proof (f_equal String.length Hs) as Hl.
    rewrite PathFacts.length_append_string in Hl. lia. }
  rewrite <- Hb, substring_all in Heq. subst b. exact Hs.
Qed.

Lemma lower_app a b : Py.lower (a +:+ b) = Py.lower a +:+ Py.lower b.
Proof.
  induction a as [|c a IH];
    rewrite ?PathFacts.append_nil_l, ?PathFacts.append_cons; simpl;
    rewrite ?PathFacts.append_nil_l, ?PathFacts.append_cons, ?IH; reflexivity.
Qed.

Lemma lower_app_inv x : forall f y,
  Py.lower f = x +:+ y ->
  exists a b, f = a +:+ b /\ Py.lower a = x /\ Py.lower b = y.
Proof.
  induction x as [|c x IH]; intros f y Heq.
  - exists "", f. rewrite PathFacts.append_nil_l in Heq. auto.
  - rewrite PathFacts.append_cons in Heq.
    destruct f as [|c0 f]; [discriminate|].
    simpl in Heq. injection Heq as Hc Heq.
    destruct (IH f y Heq) as (a & b & -> & Ha & Hb).
    exists (String c0 a), b. rewrite PathFacts.append_cons. simpl.
    rewrite Hc, Ha. auto.
Qed.

Lemma lowered_end f suf :
  Py.endswith (Py.lower f) suf = true
  <-> exists stem ext, f = stem +:+ ext /\ Py.lower ext = suf.
Proof.
  split.
  - intros Hend. apply endswith_inv in Hend as [stem Hstem].
    apply lower_app_inv in Hstem as (a & b & -> & _ & Hb). eauto.
  - intros (stem & ext & -> & <-). rewrite lower_app. apply endswith_append.
Qed.

(** X23. A file of the input folder is taken as a photo exactly when its
    name ends, in any mix of upper and lower case, in .png, .jpg, .jpeg
    or .webp; the banner script takes the same names except those whose
    lower-cased base name starts with "._". *)
Theorem photos_by_extension f :
  (is_photo f = true
   <-> exists stem ext,
         f = stem +:+ ext
         /\ Py.lower ext ∈ [".png"; ".jpg"; ".jpeg"; ".webp"])
  /\ (is_image f = true
      <-> is_photo f = true
          /\ Py.startswith (Py.basename (Py.lower f)) "._" = false).
Proof.
  split.
  - unfold is_photo. cbv zeta. rewrite !orb_true_iff, !lowered_end. split.
    + intros [[[H|H]|H]|H]; destruct H as (stem & ext & -> & Hext);
        exists stem, ext; (split; [reflexivity|]); rewrite Hext;
        repeat first [apply list_elem_of_here | apply list_elem_of_further].
    + intros (stem & ext & -> & Hext).
      repeat match goal with
             | H : _ ∈ _ :: _ |- _ => apply elem_of_cons in H as [H|H]
             | H : _ ∈ [] |- _ => inversion H
             end; eauto 10.
  - unfold is_image, is_photo. cbv zeta.
    rewrite andb_true_iff, negb_true_iff, !orb_true_iff. tauto.
Qed.

End FilterFacts.
